(** * News-to-video automation: the pipeline's pure core in Rocq

    The Python sources ([news_collector.py], [ai_script_generator.py],
    [tts_generator.py], [youtube_uploader.py], [main_workflow.py]) are
    embedded module by module.  Python strings are sequences of Unicode code
    points, dictionaries with a fixed set of keys are records whose optional
    keys are [option] fields, exceptions are an explicit [outcome] type, and
    every external collaborator (HTTP, the clock, the publishing client, the
    Unicode database) is an explicit argument. *)

From Stdlib Require Import List Bool Arith ZArith NArith QArith Lia.
From Stdlib Require Import Ascii Permutation Sorted.
From Stdlib Require String DecimalString.
Import String.StringSyntax.
Import ListNotations.

Open Scope string_scope.
Open Scope list_scope.

Set Warnings "-register-all".

(* ================================================================== *)
(** * Python values: strings, exceptions, JSON *)
(* ================================================================== *)

Module Py.

(** A Python [str] is a sequence of code points; [len] and slicing count
    code points, not bytes. *)
Definition codepoint : Type := N.
Definition str : Type := list codepoint.

Definition str_eqb (a b : str) : bool :=
  if list_eq_dec N.eq_dec a b then true else false.

(** ** Source literals

    Literals are written as UTF-8 text and decoded once into code points. *)

Fixpoint bytes_of (s : String.string) : list N :=
  match s with
  | String.EmptyString => []
  | String.String a s' => N_of_ascii a :: bytes_of s'
  end.

Fixpoint utf8_decode (need : nat) (acc : N) (bs : list N) : str :=
  match bs with
  | [] => []
  | b :: bs' =>
      match need with
      | S k =>
          let acc' := (acc * 64 + b mod 64)%N in
          match k with
          | O => acc' :: utf8_decode 0 0%N bs'
          | S _ => utf8_decode k acc' bs'
          end
      | O =>
          if (b <? 128)%N then b :: utf8_decode 0 0%N bs'
          else if (b <? 224)%N then utf8_decode 1 (b mod 32)%N bs'
          else if (b <? 240)%N then utf8_decode 2 (b mod 16)%N bs'
          else utf8_decode 3 (b mod 8)%N bs'
      end
  end.

Definition lit (s : String.string) : str := utf8_decode 0 0%N (bytes_of s).

Definition NL : codepoint := 10%N.
Definition SP : codepoint := 32%N.
Definition DOT : codepoint := 46%N.
Definition COMMA : codepoint := 44%N.
Definition DQUOTE : codepoint := 34%N.

(** ** [str.isspace], [str.strip] *)

(** The code points on which [str.isspace] holds (CPython's
    [_PyUnicode_IsWhitespace]). *)
Definition isspace (c : codepoint) : bool :=
  ((9 <=? c) && (c <=? 13) || (28 <=? c) && (c <=? 32)
   || (c =? 133) || (c =? 160) || (c =? 5760)
   || (8192 <=? c) && (c <=? 8202)
   || (c =? 8232) || (c =? 8233) || (c =? 8239) || (c =? 8287)
   || (c =? 12288))%N.

Fixpoint lstrip (s : str) : str :=
  match s with
  | [] => []
  | c :: s' => if isspace c then lstrip s' else s
  end.

Fixpoint rstrip (s : str) : str :=
  match s with
  | [] => []
  | c :: s' =>
      match rstrip s' with
      | [] => if isspace c then [] else [c]
      | r => c :: r
      end
  end.

Definition strip (s : str) : str := rstrip (lstrip s).

(** ** [startswith], [in], slicing *)

Fixpoint startswith (s prefix : str) {struct prefix} : bool :=
  match prefix, s with
  | [], _ => true
  | _ :: _, [] => false
  | p :: prefix', c :: s' => (p =? c)%N && startswith s' prefix'
  end.

(** [contains sub s] is Python's [sub in s]. *)
Fixpoint contains (sub s : str) : bool :=
  startswith s sub ||
  match s with
  | [] => false
  | _ :: s' => contains sub s'
  end.

(** [c in s] for a one-character [c]. *)
Definition has_char (c : codepoint) (s : str) : bool :=
  existsb (N.eqb c) s.

(** [len(l)] *)
Definition len {A} (l : list A) : Z := Z.of_nat (length l).

(** [l[:n]] for a literal, non-negative [n]. *)
Definition upto {A} (n : nat) (l : list A) : list A := firstn n l.

(** [l[:n]] for an [int] [n] that may be negative: a negative bound counts
    from the end and is clamped at the start of the list. *)
Definition slice_to {A} (n : Z) (l : list A) : list A :=
  if (0 <=? n)%Z then firstn (Z.to_nat n) l
  else firstn (length l - Z.to_nat (- n)) l.

(** ** [str.split(sep)], [str.split(sep, maxsplit)], [str.replace]

    Both scan left to right over non-overlapping occurrences of a non-empty
    [sep]; [skip] counts the characters of a matched occurrence still to be
    passed over.  The first piece of the result is the one the scan is in. *)

Definition may_split (maxsplit : option nat) : bool :=
  match maxsplit with
  | Some O => false
  | _ => true
  end.

Definition one_less (maxsplit : option nat) : option nat :=
  match maxsplit with
  | Some n => Some (pred n)
  | None => None
  end.

Fixpoint split_scan (sep : str) (maxsplit : option nat) (skip : nat)
    (s : str) : list str :=
  match s with
  | [] => [[]]
  | c :: s' =>
      match skip with
      | S k => split_scan sep maxsplit k s'
      | O =>
          if may_split maxsplit && startswith s sep
          then [] :: split_scan sep (one_less maxsplit) (length sep - 1) s'
          else
            match split_scan sep maxsplit 0 s' with
            | piece :: pieces => (c :: piece) :: pieces
            | [] => [[c]]
            end
      end
  end.

Definition split (sep : str) (s : str) : list str :=
  split_scan sep None 0 s.

Definition split_max (sep : str) (maxsplit : nat) (s : str) : list str :=
  split_scan sep (Some maxsplit) 0 s.

Fixpoint replace_scan (old new : str) (skip : nat) (s : str) : str :=
  match s with
  | [] => []
  | c :: s' =>
      match skip with
      | S k => replace_scan old new k s'
      | O =>
          if startswith s old
          then new ++ replace_scan old new (length old - 1) s'
          else c :: replace_scan old new 0 s'
      end
  end.

Definition replace (old new : str) (s : str) : str :=
  replace_scan old new 0 s.

(** [sep.join(parts)] *)
Fixpoint join (sep : str) (parts : list str) : str :=
  match parts with
  | [] => []
  | [p] => p
  | p :: rest => p ++ sep ++ join sep rest
  end.

(** [l[-1]] on a non-empty list; [split] never returns an empty list. *)
Definition last_of (l : list str) : str := last l [].

(** ** The Unicode database

    [str.lower] and [str.isdigit] read CPython's Unicode tables, which are
    not part of this repository: they are taken as an interface. *)
Class Unicode : Type := {
  lower : str -> str;
  isdigit : codepoint -> bool
}.

(** The tables restricted to ASCII letters and digits, every other code point
    left alone; they agree with CPython on text made of ASCII and Hangul. *)
Definition ascii_lower_char (c : codepoint) : codepoint :=
  if ((65 <=? c) && (c <=? 90))%N then (c + 32)%N else c.

Definition ascii_unicode : Unicode := {|
  lower := map ascii_lower_char;
  isdigit := fun c => ((48 <=? c) && (c <=? 57))%N
|}.

(** ** Exceptions *)

(** An exception of class [Exception]; [exn_text] is [str(e)]. *)
Record exn : Type := Exception { exn_text : str }.

Inductive outcome (A : Type) : Type :=
| Return (a : A)
| Raise (e : exn).
Arguments Return {A} a.
Arguments Raise {A} e.

Definition bind {A B} (m : outcome A) (k : A -> outcome B) : outcome B :=
  match m with
  | Return a => k a
  | Raise e => Raise e
  end.

(** ** JSON values, as decoded by [response.json()] *)
Inductive json : Type :=
| JNull
| JBool (b : bool)
| JInt (n : Z)
| JFloat (q : Q)
| JStr (s : str)
| JArr (items : list json)
| JObj (fields : list (str * json)).

(** [v[key]]: fails unless [v] is an object that has [key]. *)
Fixpoint assoc (key : str) (fields : list (str * json)) : option json :=
  match fields with
  | [] => None
  | (k, v) :: rest => if str_eqb k key then Some v else assoc key rest
  end.

Definition item (key : str) (v : json) : option json :=
  match v with
  | JObj fields => assoc key fields
  | _ => None
  end.

End Py.

(* ================================================================== *)
(** * news_collector.py: the relevance filter *)
(* ================================================================== *)

Module NewsCollector.
Import Py.

(** An article dictionary.  ['title'] is read with a subscript everywhere and
    is always present; the other keys are read with [get] or not at all;
    ['relevance_score'] is absent until the filter writes it. *)
Record article : Type := {
  title : str;
  description : option str;
  link : option str;
  pub_date : option str;
  keyword : option str;
  source : option str;
  relevance_score : option Q
}.

(** [article['relevance_score'] = score] *)
Definition set_relevance_score (a : article) (score : Q) : article :=
  {| title := title a;
     description := description a;
     link := link a;
     pub_date := pub_date a;
     keyword := keyword a;
     source := source a;
     relevance_score := Some score |}.

(** Article dictionaries are mutable objects that the caller and the filter
    share: a list of articles is a list of references into a store, and the
    same reference may occur more than once. *)
Definition loc : Type := nat.
Definition store : Type := loc -> article.

Definition assign (h : store) (r : loc) (a : article) : store :=
  fun r' => if Nat.eqb r' r then a else h r'.

(** [self.keywords] as set by [__init__]. *)
Definition default_keywords : list str :=
  Eval vm_compute in
    [lit "삼성"; lit "현대"; lit "쿠팡"; lit "배달"; lit "부동산";
     lit "주식"; lit "경제"; lit "정책"; lit "손흥민"; lit "AI"].

Definition Qlt_bool (x y : Q) : bool := negb (Qle_bool y x).

(** [list.sort(key=..., reverse=True)] on the keys computed beforehand: the
    sort is stable, so an element goes in front of the first one whose key is
    not greater than its own. *)
Fixpoint insert_desc (x : Q * loc) (l : list (Q * loc)) : list (Q * loc) :=
  match l with
  | [] => [x]
  | y :: l' =>
      if Qlt_bool (fst x) (fst y) then y :: insert_desc x l' else x :: l
  end.

Fixpoint sort_desc (l : list (Q * loc)) : list (Q * loc) :=
  match l with
  | [] => []
  | x :: l' => insert_desc x (sort_desc l')
  end.

(** The keys [x['relevance_score']] of the elements to sort; a missing key
    raises [KeyError]. *)
Fixpoint sort_keys (h : store) (l : list loc) : outcome (list (Q * loc)) :=
  match l with
  | [] => Return []
  | r :: l' =>
      match relevance_score (h r) with
      | None => Raise (Exception (lit "'relevance_score'"))
      | Some q => bind (sort_keys h l') (fun ks => Return ((q, r) :: ks))
      end
  end.

Section Filter.
Context {U : Unicode}.

(** [self.keywords] *)
Variable keywords : list str.

(** The inner loop over [self.keywords]. *)
Definition keyword_matches (title_lower : str) : Z :=
  fold_left
    (fun score keyword =>
       if contains (lower keyword) title_lower then (score + 1)%Z else score)
    keywords 0%Z.

(** The score of one article: the keyword matches, then [score += 0.5]. *)
Definition article_score (a : article) : Q :=
  inject_Z (keyword_matches (lower (title a))) + (1 # 2).

(** The outer loop: every article gets its score written, those that reach
    [min_relevance] are appended to [scored_articles]. *)
Fixpoint score_loop (min_relevance : Q) (articles : list loc)
    (h : store) (scored_articles : list loc) : store * list loc :=
  match articles with
  | [] => (h, scored_articles)
  | r :: rest =>
      let score := article_score (h r) in
      let h' := assign h r (set_relevance_score (h r) score) in
      score_loop min_relevance rest h'
        (if Qle_bool min_relevance score
         then scored_articles ++ [r] else scored_articles)
  end.

Definition filter_trending_news (h : store) (articles : list loc)
    (min_relevance : Q) : outcome (store * list loc) :=
  let '(h', scored_articles) := score_loop min_relevance articles h [] in
  bind (sort_keys h' scored_articles)
       (fun keyed => Return (h', map snd (sort_desc keyed))).

End Filter.

(** ** Collection from the feeds *)

(** An entry of a parsed feed; [entry.title] and [entry.link] raise when
    the entry has none, the other two are read with a default. *)
Record feed_entry : Type := {
  entry_title : option str;
  entry_summary : option str;
  entry_link : option str;
  entry_published : option str
}.

Definition google_news_url (keyword : str) : str :=
  lit "https://news.google.com/rss/search?q=" ++ keyword
  ++ lit "&hl=ko&gl=KR&ceid=KR:ko".

(** The body of the loop over [feed.entries[:10]]. *)
Definition article_of_entry (keyword : str) (entry : feed_entry)
    : outcome article :=
  match entry_title entry with
  | None => Raise (Exception (lit "title"))
  | Some t =>
      match entry_link entry with
      | None => Raise (Exception (lit "link"))
      | Some l =>
          Return
            {| title := t;
               description :=
                 Some (match entry_summary entry with
                       | Some s => s
                       | None => []
                       end);
               link := Some l;
               pub_date :=
                 Some (match entry_published entry with
                       | Some p => p
                       | None => []
                       end);
               keyword := Some keyword;
               source := Some (lit "google_news");
               relevance_score := None |}
      end
  end.

Fixpoint articles_of_entries (keyword : str) (entries : list feed_entry)
    : outcome (list article) :=
  match entries with
  | [] => Return []
  | entry :: rest =>
      bind (article_of_entry keyword entry) (fun a =>
      bind (articles_of_entries keyword rest) (fun articles =>
      Return (a :: articles)))
  end.

Section Feeds.

(** [feedparser.parse(url).entries] *)
Variable parse_feed : str -> outcome (list feed_entry).

(** [fetch_google_news_rss]: whatever is raised inside the [try] leaves the
    function at its last line, with an empty list. *)
Definition fetch_google_news_rss (keyword : str) : list article :=
  match bind (parse_feed (google_news_url keyword))
             (fun entries => articles_of_entries keyword (upto 10 entries))
  with
  | Return articles => articles
  | Raise _ => []
  end.

(** [collect_all_news], over [self.keywords]. *)
Fixpoint collect_all_news (keywords : list str) : list article :=
  match keywords with
  | [] => []
  | keyword :: rest => fetch_google_news_rss keyword ++ collect_all_news rest
  end.

End Feeds.

End NewsCollector.

(* ================================================================== *)
(** * ai_script_generator.py: the content generator *)
(* ================================================================== *)

Module AIScriptGenerator.
Import Py.
Import NewsCollector.

(** ** The HTTP collaborator

    [requests.post] either raises or hands back a response; the decoded body
    is [None] when [response.json()] would raise. *)
Record request : Type := {
  url : str;
  headers : list (str * option str);
  payload : json;
  timeout : Z
}.

Record response : Type := {
  status_code : Z;
  json_body : option json
}.

(** [self.api_key], [self.service] *)
Record generator : Type := {
  api_key : option str;
  service : str
}.

(** [f"{v}"] for a value that is a string or [None]. *)
Definition fmt_opt (v : option str) : str :=
  match v with
  | Some s => s
  | None => lit "None"
  end.

(** [f"{n}"] for an [int]. *)
Definition fmt_int (n : Z) : str :=
  bytes_of (DecimalString.NilZero.string_of_int (Z.to_int n)).

(** A triple-quoted literal, line by line. *)
Definition text (lines : list str) : str := join [NL] lines.

(** ** Prompt templates and canned responses *)

(** The prompt of [generate_youtube_script], part 0, up to the next substitution. *)
Definition generate_youtube_script_prompt_0 : str :=
  Eval vm_compute in
    text
    [lit "";
     lit "당신은 시니어층(40~60대)을 대상으로 하는 유튜브 뉴스 채널의 전문 작가입니다.";
     lit "";
     lit "아래 뉴스 기사를 바탕으로 8~10분 분량의 유튜브 영상 대본을 작성해주세요.";
     lit "";
     lit "[뉴스 기사]";
     lit "제목: "].

(** The prompt of [generate_youtube_script], part 1, up to the next substitution. *)
Definition generate_youtube_script_prompt_1 : str :=
  Eval vm_compute in
    text
    [lit "";
     lit "내용: "].

(** The prompt of [generate_youtube_script], closing part. *)
Definition generate_youtube_script_prompt_2 : str :=
  Eval vm_compute in
    text
    [lit "";
     lit "";
     lit "[대본 작성 요구사항]";
     lit "1. **도입부 (30초)**: 강력한 후킹 멘트로 시작 (예: " ++ [DQUOTE] ++ lit "여러분, 이거 아십니까?" ++ [DQUOTE] ++ lit ", " ++ [DQUOTE] ++ lit "충격적인 소식입니다" ++ [DQUOTE] ++ lit ")";
     lit "2. **본문 (7분)**:";
     lit "   - 기사 내용을 쉽고 자세하게 설명";
     lit "   - 전문 용어는 풀어서 설명";
     lit "   - 중간중간 시청자 몰입 유도 멘트 삽입";
     lit "3. **마무리 (30초)**:";
     lit "   - 핵심 요약";
     lit "   - 구독, 좋아요, 알림 설정 요청";
     lit "   - 다음 영상 예고";
     lit "";
     lit "[톤 및 스타일]";
     lit "- 전달형, 존중하는 어조";
     lit "- " ++ [DQUOTE] ++ lit "여러분" ++ [DQUOTE] ++ lit ", " ++ [DQUOTE] ++ lit "~입니다" ++ [DQUOTE] ++ lit " 등 정중한 표현";
     lit "- 감정적 어필보다는 사실 중심";
     lit "";
     lit "대본만 출력해주세요.";
     lit "        "].

(** The prompt of [generate_thumbnail_titles], part 0, up to the next substitution. *)
Definition generate_thumbnail_titles_prompt_0 : str :=
  Eval vm_compute in
    text
    [lit "";
     lit "아래 뉴스 제목을 바탕으로 유튜브 썸네일에 들어갈 강력한 후킹 문구를 "].

(** The prompt of [generate_thumbnail_titles], part 1, up to the next substitution. *)
Definition generate_thumbnail_titles_prompt_1 : str :=
  Eval vm_compute in
    text
    [lit "개 생성해주세요.";
     lit "";
     lit "뉴스 제목: "].

(** The prompt of [generate_thumbnail_titles], closing part. *)
Definition generate_thumbnail_titles_prompt_2 : str :=
  Eval vm_compute in
    text
    [lit "";
     lit "";
     lit "[요구사항]";
     lit "1. 15자 이내로 간결하게";
     lit "2. 충격, 궁금증 유발";
     lit "3. 다양한 스타일 사용:";
     lit "   - 질문형: " ++ [DQUOTE] ++ lit "이게 가능해?" ++ [DQUOTE];
     lit "   - 숫자형: " ++ [DQUOTE] ++ lit "00억 날렸다" ++ [DQUOTE];
     lit "   - 충격형: " ++ [DQUOTE] ++ lit "경악! ~~" ++ [DQUOTE];
     lit "   - 반전형: " ++ [DQUOTE] ++ lit "알고보니..." ++ [DQUOTE];
     lit "";
     lit "각 제목만 번호와 함께 출력해주세요.";
     lit "        "].

(** The prompt of [generate_video_metadata], part 0, up to the next substitution. *)
Definition generate_video_metadata_prompt_0 : str :=
  Eval vm_compute in
    text
    [lit "";
     lit "아래 뉴스와 대본을 바탕으로 유튜브 영상 메타데이터를 생성해주세요.";
     lit "";
     lit "뉴스 제목: "].

(** The prompt of [generate_video_metadata], part 1, up to the next substitution. *)
Definition generate_video_metadata_prompt_1 : str :=
  Eval vm_compute in
    text
    [lit "";
     lit "대본: "].

(** The prompt of [generate_video_metadata], closing part. *)
Definition generate_video_metadata_prompt_2 : str :=
  Eval vm_compute in
    text
    [lit "...";
     lit "";
     lit "다음 형식으로 출력:";
     lit "VIDEO_TITLE: [60자 이내 영상 제목]";
     lit "DESCRIPTION: [200자 정도 영상 설명, 뉴스 출처 포함]";
     lit "TAGS: [관련 태그 10개, 쉼표로 구분]";
     lit "        "].

(** [_call_mock]: the canned list of thumbnail titles. *)
Definition mock_titles_text : str :=
  Eval vm_compute in
    text
    [lit "";
     lit "1. 이거 실화인가요?";
     lit "2. 충격! 00억 날렸다";
     lit "3. 결국 터졌습니다";
     lit "4. 알고 보니 대박";
     lit "5. 지금 당장 확인하세요";
     lit "6. 99% 모르는 사실";
     lit "7. 뒤늦은 후회";
     lit "8. 전문가도 놀란";
     lit "9. 이제야 밝혀진 진실";
     lit "10. 반드시 알아야 할";
     lit "            "].

(** [_call_mock]: the canned metadata block. *)
Definition mock_metadata_text : str :=
  Eval vm_compute in
    text
    [lit "";
     lit "VIDEO_TITLE: [충격] 삼성전자 000억 투자 결정! 주가 영향은?";
     lit "DESCRIPTION: 삼성전자가 반도체 분야에 대규모 투자를 결정했습니다. 이번 투자가 국내 경제와 주가에 미칠 영향을 자세히 분석합니다. 출처: 네이버뉴스";
     lit "TAGS: 삼성전자, 반도체, 투자, 주가, 경제뉴스, 시니어뉴스, 한국경제, 기술주, 증시, 재테크";
     lit "            "].

(** [_call_mock]: the canned narration script. *)
Definition mock_script_text : str :=
  Eval vm_compute in
    text
    [lit "";
     lit "여러분, 안녕하세요. 오늘은 정말 중요한 소식을 가지고 왔습니다.";
     lit "";
     lit "[도입부]";
     lit "혹시 여러분, 이 소식 들어보셨나요? 최근 많은 분들이 관심을 가지고 계신 내용인데요, 오늘 자세히 알아보도록 하겠습니다.";
     lit "";
     lit "[본문]";
     lit "먼저 사건의 전말을 말씀드리자면... (중략)";
     lit "";
     lit "이는 우리 생활에 어떤 영향을 미칠까요? 전문가들은...";
     lit "";
     lit "[마무리]";
     lit "오늘 영상이 도움이 되셨다면 구독과 좋아요, 알림 설정 부탁드립니다.";
     lit "다음 영상에서는 더 유익한 정보로 찾아뵙겠습니다. 감사합니다.";
     lit "            "].

Definition kw_thumbnail : str := Eval vm_compute in lit "썸네일".
Definition kw_title : str := Eval vm_compute in lit "제목".
Definition kw_video_title : str := Eval vm_compute in lit "VIDEO_TITLE".
Definition kw_metadata : str := Eval vm_compute in lit "메타데이터".

Definition _call_mock (prompt : str) : str :=
  if contains kw_thumbnail prompt || contains kw_title prompt
  then mock_titles_text
  else if contains kw_video_title prompt || contains kw_metadata prompt
  then mock_metadata_text
  else mock_script_text.

(** [v[0]['message']['content']]-style walks through the decoded body. *)
Definition index0 (v : json) : option json :=
  match v with
  | JArr (x :: _) => Some x
  | JStr (c :: _) => Some (JStr [c])
  | _ => None
  end.

Definition opt_bind {A B} (m : option A) (k : A -> option B) : option B :=
  match m with
  | Some a => k a
  | None => None
  end.

Definition jobj (fields : list (String.string * json)) : json :=
  JObj (map (fun kv => (lit (fst kv), snd kv)) fields).

(** What each backend call reads in the decoded body of a 200 answer; a
    step that would raise [KeyError], [IndexError] or [TypeError] gives
    [None]. *)

(** [response.json()['choices'][0]['message']['content']] *)
Definition openai_content (body : json) : option json :=
  opt_bind (item (lit "choices") body) (fun v =>
  opt_bind (index0 v) (fun v =>
  opt_bind (item (lit "message") v) (fun v =>
  item (lit "content") v))).

(** [response.json()['candidates'][0]['content']['parts'][0]['text']] *)
Definition gemini_content (body : json) : option json :=
  opt_bind (item (lit "candidates") body) (fun v =>
  opt_bind (index0 v) (fun v =>
  opt_bind (item (lit "content") v) (fun v =>
  opt_bind (item (lit "parts") v) (fun v =>
  opt_bind (index0 v) (fun v =>
  item (lit "text") v))))).

(** [response.json()['content'][0]['text']] *)
Definition anthropic_content (body : json) : option json :=
  opt_bind (item (lit "content") body) (fun v =>
  opt_bind (index0 v) (fun v =>
  item (lit "text") v)).

Section Backend.
Context {U : Unicode}.

(** [requests.post] *)
Variable post : request -> outcome response.

(** The shape shared by the three backend calls: any exception raised inside
    the [try] and any status other than 200 end in [_call_mock]. *)
Definition call_backend (req : request) (extract : json -> option json)
    (prompt : str) : json :=
  match post req with
  | Raise _ => JStr (_call_mock prompt)
  | Return resp =>
      if (status_code resp =? 200)%Z
      then match opt_bind (json_body resp) extract with
           | Some content => content
           | None => JStr (_call_mock prompt)
           end
      else JStr (_call_mock prompt)
  end.

Definition _call_openai (g : generator) (prompt : str) : json :=
  call_backend
    {| url := lit "https://api.openai.com/v1/chat/completions";
       headers :=
         [(lit "Authorization", Some (lit "Bearer " ++ fmt_opt (api_key g)));
          (lit "Content-Type", Some (lit "application/json"))];
       payload :=
         jobj [("model", JStr (lit "gpt-4o"));
               ("messages",
                JArr [jobj [("role", JStr (lit "user"));
                            ("content", JStr prompt)]]);
               ("temperature", JFloat (7 # 10));
               ("max_tokens", JInt 2000)];
       timeout := 60 |}
    openai_content
    prompt.

Definition _call_gemini (g : generator) (prompt : str) : json :=
  call_backend
    {| url :=
         lit "https://generativelanguage.googleapis.com/v1beta/models/gemini-pro:generateContent?key="
         ++ fmt_opt (api_key g);
       headers := [(lit "Content-Type", Some (lit "application/json"))];
       payload :=
         jobj [("contents",
                JArr [jobj [("parts", JArr [jobj [("text", JStr prompt)]])]])];
       timeout := 60 |}
    gemini_content
    prompt.

Definition _call_anthropic (g : generator) (prompt : str) : json :=
  call_backend
    {| url := lit "https://api.anthropic.com/v1/messages";
       headers :=
         [(lit "x-api-key", api_key g);
          (lit "anthropic-version", Some (lit "2023-06-01"));
          (lit "content-type", Some (lit "application/json"))];
       payload :=
         jobj [("model", JStr (lit "claude-3-5-sonnet-20241022"));
               ("max_tokens", JInt 2000);
               ("messages",
                JArr [jobj [("role", JStr (lit "user"));
                            ("content", JStr prompt)]])];
       timeout := 60 |}
    anthropic_content
    prompt.

Definition _call_ai_api (g : generator) (prompt : str) : json :=
  if str_eqb (service g) (lit "openai") then _call_openai g prompt
  else if str_eqb (service g) (lit "gemini") then _call_gemini g prompt
  else if str_eqb (service g) (lit "anthropic") then _call_anthropic g prompt
  else JStr (_call_mock prompt).

(** A method of [str] called on whatever the backend sent as content: only
    a string answers, anything else raises [AttributeError]. *)
Definition as_str (v : json) : outcome str :=
  match v with
  | JStr s => Return s
  | _ => Raise (Exception (lit "object has no attribute 'split'"))
  end.

(** ** [generate_youtube_script] *)

Record script_data : Type := {
  article_title : str;
  script : json;
  estimated_duration : str;
  generated_at : str
}.

Definition youtube_script_prompt (a : article) : str :=
  generate_youtube_script_prompt_0 ++ title a
  ++ generate_youtube_script_prompt_1
  ++ match description a with Some d => d | None => [] end
  ++ generate_youtube_script_prompt_2.

(** [now] is the reading of [datetime.now().isoformat()]. *)
Definition generate_youtube_script (g : generator) (now : str) (a : article)
    : script_data :=
  let script := _call_ai_api g (youtube_script_prompt a) in
  {| article_title := title a;
     script := script;
     estimated_duration := lit "8-10분";
     generated_at := now |}.

(** ** [generate_thumbnail_titles] *)

Definition thumbnail_titles_prompt (a : article) (count : Z) : str :=
  generate_thumbnail_titles_prompt_0 ++ fmt_int count
  ++ generate_thumbnail_titles_prompt_1 ++ title a
  ++ generate_thumbnail_titles_prompt_2.

(** The condition of the first comprehension: the line is not blank and one
    of its first three characters is a digit. *)
Definition keeps_line (line : str) : bool :=
  match strip line with
  | [] => false
  | _ :: _ => existsb isdigit (upto 3 line)
  end.

(** The second comprehension: when a dot is among the first five characters,
    the title is what follows the first dot, stripped. *)
Definition strip_number (title : str) : str :=
  if has_char DOT (upto 5 title)
  then strip (last_of (split_max [DOT] 1 title))
  else title.

Definition parse_titles (response : str) (count : Z) : list str :=
  let titles := map strip (filter keeps_line (split [NL] response)) in
  let titles := map strip_number titles in
  slice_to count titles.

Definition generate_thumbnail_titles (g : generator) (a : article)
    (count : Z) : outcome (list str) :=
  let response := _call_ai_api g (thumbnail_titles_prompt a count) in
  bind (as_str response) (fun response => Return (parse_titles response count)).

(** ** [generate_video_metadata] *)

Record metadata : Type := {
  md_title : option str;
  md_description : option str;
  md_tags : option (list str)
}.

Definition empty_metadata : metadata :=
  {| md_title := None; md_description := None; md_tags := None |}.

Definition video_metadata_prompt (a : article) (script : str) : str :=
  generate_video_metadata_prompt_0 ++ title a
  ++ generate_video_metadata_prompt_1 ++ upto 500 script
  ++ generate_video_metadata_prompt_2.

Definition mark_title : str := Eval vm_compute in lit "VIDEO_TITLE:".
Definition mark_description : str := Eval vm_compute in lit "DESCRIPTION:".
Definition mark_tags : str := Eval vm_compute in lit "TAGS:".

Definition metadata_line (m : metadata) (line : str) : metadata :=
  if startswith line mark_title then
    {| md_title := Some (strip (replace mark_title [] line));
       md_description := md_description m;
       md_tags := md_tags m |}
  else if startswith line mark_description then
    {| md_title := md_title m;
       md_description := Some (strip (replace mark_description [] line));
       md_tags := md_tags m |}
  else if startswith line mark_tags then
    let tags_str := strip (replace mark_tags [] line) in
    {| md_title := md_title m;
       md_description := md_description m;
       md_tags := Some (map strip (split [COMMA] tags_str)) |}
  else m.

Definition parse_metadata (response : str) : metadata :=
  fold_left metadata_line (split [NL] response) empty_metadata.

Definition generate_video_metadata (g : generator) (a : article)
    (script : str) : outcome metadata :=
  let response := _call_ai_api g (video_metadata_prompt a script) in
  bind (as_str response) (fun response => Return (parse_metadata response)).

End Backend.

End AIScriptGenerator.

(* ================================================================== *)
(** * tts_generator.py: text chunking *)
(* ================================================================== *)

Module TTSGenerator.
Import Py.

Definition sentence_end : str := [DOT; SP].

(** The loop over the sentences, on [chunks] and [current_chunk]. *)
Fixpoint chunk_loop (max_length : Z) (sentences : list str)
    (chunks : list str) (current_chunk : str) : list str * str :=
  match sentences with
  | [] => (chunks, current_chunk)
  | sentence :: rest =>
      if (Z.of_nat (length current_chunk) + Z.of_nat (length sentence)
          <? max_length)%Z
      then chunk_loop max_length rest chunks
             (current_chunk ++ sentence ++ sentence_end)
      else chunk_loop max_length rest
             (match current_chunk with
              | [] => chunks
              | _ :: _ => chunks ++ [strip current_chunk]
              end)
             (sentence ++ sentence_end)
  end.

Definition split_text_for_tts (text : str) (max_length : Z) : list str :=
  let sentences := split sentence_end (replace [NL] [SP] text) in
  let '(chunks, current_chunk) := chunk_loop max_length sentences [] [] in
  match current_chunk with
  | [] => chunks
  | _ :: _ => chunks ++ [strip current_chunk]
  end.

(** ** [generate_audio] *)

(** [self.service], [self.api_key]; [self.output_dir] is ["output/audio"]. *)
Record synthesizer : Type := {
  service : str;
  api_key : option str
}.

Inductive request_body : Type :=
| JsonBody (j : json)
| RawBody (data : str).

Record request : Type := {
  url : str;
  headers : list (str * option str);
  body : request_body;
  timeout : Z
}.

(** The answer of [requests.post]: the status and [response.content]. *)
Record response : Type := {
  status_code : Z;
  content : list N
}.

(** What [synthesize_speech] is asked. *)
Record speech_request : Type := {
  speech_text : str;
  language_code : str;
  voice_name : str;
  ssml_gender : str;
  speaking_rate : Q;
  pitch : Q
}.

Inductive file_content : Type :=
| Text (s : str)
| Bytes (b : list N).

(** A file the function set out to write. *)
Record file_write : Type := {
  written_path : str;
  written : file_content
}.

(** The dictionary [generate_audio] returns; ['voice_style'] is only in the
    results of the real services, ['text_length'] only in the mock one. *)
Record audio_result : Type := {
  status : str;
  output_file : str;
  service_used : str;
  voice_style : option str;
  duration_estimate : Z;
  text_length : option Z
}.

(** [mapping.get(voice_style, mapping["professional"])] *)
Definition by_style {A} (professional friendly energetic : A)
    (voice_style : str) : A :=
  if str_eqb voice_style (lit "professional") then professional
  else if str_eqb voice_style (lit "friendly") then friendly
  else if str_eqb voice_style (lit "energetic") then energetic
  else professional.

Definition elevenlabs_voice : str -> str :=
  by_style (lit "21m00Tcm4TlvDq8ikWAM") (lit "AZnzlk1XvdvUeBnXmlld")
    (lit "TxGEqnHWrfWFTfGW9XjX").

Definition google_voice : str -> str * str :=
  by_style (lit "ko-KR-Standard-A", lit "FEMALE")
    (lit "ko-KR-Standard-B", lit "FEMALE")
    (lit "ko-KR-Standard-C", lit "MALE").

Definition azure_voice : str -> str :=
  by_style (lit "ko-KR-SunHiNeural") (lit "ko-KR-InJoonNeural")
    (lit "ko-KR-BongJinNeural").

(** [len(text) // 150] *)
Definition minutes (text : str) : Z := (len text / 150)%Z.

Definition mock_file_text (text : str) : str :=
  lit "[Mock Audio File]" ++ [NL] ++ lit "Text: " ++ upto 100 text
  ++ lit "..." ++ [NL] ++ lit "Duration: "
  ++ bytes_of (DecimalString.NilZero.string_of_int (Z.to_int (minutes text)))
  ++ lit " minutes".

Definition ssml_of (voice text : str) : str :=
  [NL] ++ lit "        <speak version='1.0' xml:lang='ko-KR'>" ++ [NL]
  ++ lit "            <voice xml:lang='ko-KR' name='" ++ voice ++ lit "'>"
  ++ [NL] ++ lit "                " ++ text ++ [NL]
  ++ lit "            </voice>" ++ [NL] ++ lit "        </speak>" ++ [NL]
  ++ lit "        ".

Section Synthesis.

(** [requests.post] *)
Variable post : request -> outcome response.

(** [from google.cloud import texttospeech], and the client built and
    called inside the [try]. *)
Variable import_texttospeech : outcome unit.
Variable synthesize_speech : speech_request -> outcome (list N).

(** [open(path, mode)] followed by [write]: it may raise. *)
Variable write_file : str -> file_content -> outcome unit.

(** [str(self.output_dir / output_filename)] *)
Variable path_of : str -> str.

(** A computation that writes files: the writes it set out to do, then its
    result or the exception that ended it. *)
Definition writing (A : Type) : Type := list file_write * outcome A.

Definition write_then {A} (path : str) (c : file_content)
    (k : writing A) : writing A :=
  match write_file path c with
  | Raise e => ([{| written_path := path; written := c |}], Raise e)
  | Return _ =>
      ({| written_path := path; written := c |} :: fst k, snd k)
  end.

Definition _generate_mock (text output_filename : str)
    : writing audio_result :=
  let output_path := path_of output_filename in
  write_then output_path (Text (mock_file_text text))
    ([], Return {| status := lit "success (mock)";
                   output_file := output_path;
                   service_used := lit "mock";
                   voice_style := None;
                   duration_estimate := minutes text;
                   text_length := Some (len text) |}).

(** [except Exception: return self._generate_mock(...)]: the writes already
    set out to stay, the mock's come after. *)
Definition or_mock (attempt : writing audio_result)
    (text output_filename : str) : writing audio_result :=
  match snd attempt with
  | Return r => attempt
  | Raise _ =>
      let mock := _generate_mock text output_filename in
      (fst attempt ++ fst mock, snd mock)
  end.

Definition success (service_name : str) (text voice_style output_path : str)
    : audio_result :=
  {| status := lit "success";
     output_file := output_path;
     service_used := service_name;
     voice_style := Some voice_style;
     duration_estimate := minutes text;
     text_length := None |}.

(** The shape shared by the ElevenLabs and the Azure call.  The mock call
    for a status other than 200 stands inside the [try]: when it raises, the
    [except] clause calls [_generate_mock] once more. *)
Definition post_and_save (service_name : str) (req : request)
    (text voice_style output_filename : str) : writing audio_result :=
  match post req with
  | Raise _ => _generate_mock text output_filename
  | Return resp =>
      if (status_code resp =? 200)%Z
      then
        let output_path := path_of output_filename in
        or_mock
          (write_then output_path (Bytes (content resp))
             ([], Return (success service_name text voice_style output_path)))
          text output_filename
      else
        or_mock (_generate_mock text output_filename) text output_filename
  end.

Definition _generate_elevenlabs (t : synthesizer)
    (text voice_style output_filename : str) : writing audio_result :=
  post_and_save (lit "elevenlabs")
    {| url := lit "https://api.elevenlabs.io/v1/text-to-speech/"
              ++ elevenlabs_voice voice_style;
       headers := [(lit "Accept", Some (lit "audio/mpeg"));
                   (lit "Content-Type", Some (lit "application/json"));
                   (lit "xi-api-key", api_key t)];
       body :=
         JsonBody
           (JObj [(lit "text", JStr text);
                  (lit "model_id", JStr (lit "eleven_multilingual_v2"));
                  (lit "voice_settings",
                   JObj [(lit "stability", JFloat (1 # 2));
                         (lit "similarity_boost", JFloat (3 # 4));
                         (lit "style", JFloat (1 # 2));
                         (lit "use_speaker_boost", JBool true)])]);
       timeout := 120 |}
    text voice_style output_filename.

Definition _generate_azure_tts (t : synthesizer)
    (text voice_style output_filename : str) : writing audio_result :=
  post_and_save (lit "azure")
    {| url := lit "https://koreacentral.tts.speech.microsoft.com/cognitiveservices/v1";
       headers :=
         [(lit "Ocp-Apim-Subscription-Key", api_key t);
          (lit "Content-Type", Some (lit "application/ssml+xml"));
          (lit "X-Microsoft-OutputFormat",
           Some (lit "audio-16khz-128kbitrate-mono-mp3"))];
       body := RawBody (ssml_of (azure_voice voice_style) text);
       timeout := 120 |}
    text voice_style output_filename.

(** The import stands before the [try]: its failure is not caught. *)
Definition _generate_google_tts (text voice_style output_filename : str)
    : writing audio_result :=
  match import_texttospeech with
  | Raise e => ([], Raise e)
  | Return _ =>
      match synthesize_speech
              {| speech_text := text;
                 language_code := lit "ko-KR";
                 voice_name := fst (google_voice voice_style);
                 ssml_gender := snd (google_voice voice_style);
                 speaking_rate := 1;
                 pitch := 0 |}
      with
      | Raise _ => _generate_mock text output_filename
      | Return audio =>
          let output_path := path_of output_filename in
          or_mock
            (write_then output_path (Bytes audio)
               ([], Return (success (lit "google") text voice_style
                              output_path)))
            text output_filename
      end
  end.

Definition generate_audio (t : synthesizer)
    (text voice_style output_filename : str) : writing audio_result :=
  if str_eqb (service t) (lit "elevenlabs")
  then _generate_elevenlabs t text voice_style output_filename
  else if str_eqb (service t) (lit "google")
  then _generate_google_tts text voice_style output_filename
  else if str_eqb (service t) (lit "azure")
  then _generate_azure_tts t text voice_style output_filename
  else _generate_mock text output_filename.

End Synthesis.

End TTSGenerator.

(* ================================================================== *)
(** * youtube_uploader.py: the publisher *)
(* ================================================================== *)

Module YouTubeUploader.
Import Py.

(** A [datetime]; only its [isoformat()] is ever read. *)
Record datetime : Type := { isoformat : str }.

(** The request body handed to [videos().insert]. *)
Record snippet : Type := {
  sn_title : str;
  sn_description : str;
  sn_tags : list str;
  sn_categoryId : str
}.

Record status_part : Type := {
  privacyStatus : str;
  selfDeclaredMadeForKids : bool;
  publishAt : option str
}.

Record body : Type := {
  body_snippet : snippet;
  body_status : status_part
}.

(** Everything the uploader asks of the platform client. *)
Inductive platform_call : Type :=
| VideosInsert (part : str) (b : body) (media_file : str)
| ThumbnailsSet (videoId : str) (media_file : str).

(** The resource the platform answers an upload with; ['id'] may be missing. *)
Record video_resource : Type := { resource_id : option str }.

(** The dictionary [upload_video] returns; the keys differ between the
    success, error and mock results. *)
Record upload_result : Type := {
  status : str;
  video_id : option str;
  video_url : option str;
  title : option str;
  privacy_status : option str;
  publish_at : option (option str);
  error : option str
}.

Definition private : str := Eval vm_compute in lit "private".
Definition watch_url : str :=
  Eval vm_compute in lit "https://www.youtube.com/watch?v=".
Definition mock_prefix : str := Eval vm_compute in lit "MOCK_".

(** [now_stamp] is the reading of
    [datetime.now().strftime('%Y%m%d%H%M%S')]. *)
Definition _upload_mock (now_stamp : str) (video_file title description : str)
    : upload_result :=
  let mock_video_id := mock_prefix ++ now_stamp in
  let mock_url := watch_url ++ mock_video_id in
  {| status := lit "success (mock)";
     video_id := Some mock_video_id;
     video_url := Some mock_url;
     title := Some title;
     privacy_status := None;
     publish_at := None;
     error := None |}.

Section Platform.

(** [YOUTUBE_API_AVAILABLE] and [self.youtube is not None]. *)
Variable youtube_api_available : bool.
Variable youtube_client : bool.

(** [MediaFileUpload(path, ...)] opens the file and may raise; the flag
    tells the resumable, chunked upload of the video from the plain one of
    the thumbnail. *)
Variable media_file_upload : str -> bool -> outcome str.

(** [videos().insert(...)] followed by the [next_chunk] loop, up to the
    final response or the exception that ends it. *)
Variable videos_insert : str -> body -> str -> outcome video_resource.

(** [os.path.exists] *)
Variable path_exists : str -> bool.

(** The request body, with the schedule applied. *)
Definition build_body (title description : str) (tags : option (list str))
    (category_id privacy_status : str) (publish_at : option datetime) : body :=
  let snippet :=
    {| sn_title := upto 100 title;
       sn_description := upto 5000 description;
       sn_tags := match tags with Some t => t | None => [] end;
       sn_categoryId := category_id |} in
  match publish_at with
  | Some t =>
      if str_eqb privacy_status private
      then {| body_snippet := snippet;
              body_status :=
                {| privacyStatus := private;
                   selfDeclaredMadeForKids := false;
                   publishAt := Some (isoformat t ++ lit "Z") |} |}
      else {| body_snippet := snippet;
              body_status :=
                {| privacyStatus := privacy_status;
                   selfDeclaredMadeForKids := false;
                   publishAt := None |} |}
  | None =>
      {| body_snippet := snippet;
         body_status :=
           {| privacyStatus := privacy_status;
              selfDeclaredMadeForKids := false;
              publishAt := None |} |}
  end.

(** [','.join(body.keys())] *)
Definition body_part : str := Eval vm_compute in lit "snippet,status".

Definition error_result (e : exn) : upload_result :=
  {| status := lit "error";
     video_id := None;
     video_url := None;
     title := None;
     privacy_status := None;
     publish_at := None;
     error := Some (exn_text e) |}.

(** [_upload_thumbnail]: the call is made once the image is opened; whatever
    is raised on the way is swallowed, and nothing is returned. *)
Definition _upload_thumbnail (video_id thumbnail_file : str)
    : list platform_call :=
  match media_file_upload thumbnail_file false with
  | Return media => [ThumbnailsSet video_id media]
  | Raise _ => []
  end.

(** [upload_video] returns its result dictionary; the first component is the
    sequence of calls that reached the platform client on the way. *)
Definition upload_video (now_stamp : str) (video_file title description : str)
    (tags : option (list str)) (category_id privacy_status : str)
    (thumbnail_file : option str) (publish_at : option datetime)
    : list platform_call * upload_result :=
  if negb youtube_api_available || negb youtube_client
  then ([], _upload_mock now_stamp video_file title description)
  else
    let b := build_body title description tags category_id privacy_status
               publish_at in
    match media_file_upload video_file true with
    | Raise e => ([], error_result e)
    | Return media =>
        let sent := [VideosInsert body_part b media] in
        match videos_insert body_part b media with
        | Raise e => (sent, error_result e)
        | Return resource =>
            match resource_id resource with
            | None => (sent, error_result (Exception (lit "'id'")))
            | Some video_id =>
                let video_url := watch_url ++ video_id in
                let sent :=
                  match thumbnail_file with
                  | Some (c :: f) =>
                      if path_exists (c :: f)
                      then sent ++ _upload_thumbnail video_id (c :: f)
                      else sent
                  | _ => sent
                  end in
                (sent,
                 {| status := lit "success";
                    video_id := Some video_id;
                    video_url := Some video_url;
                    title := Some title;
                    privacy_status := Some privacy_status;
                    publish_at := Some (option_map isoformat publish_at);
                    error := None |})
            end
        end
    end.

End Platform.

(** ** [update_video] *)

(** The answer to [videos().list(part='snippet', id=...)], as far as it is
    read: the items, each with its snippet dictionary; either key may be
    missing. *)
Record video_item : Type := { item_snippet : option (list (str * json)) }.
Record video_list : Type := { list_items : option (list video_item) }.

Inductive update_call : Type :=
| VideosList (part : str) (id : str)
| VideosUpdate (part : str) (id : str) (snippet : list (str * json)).

Record update_result : Type := {
  up_status : str;
  up_message : option str;
  up_video_id : option str;
  up_error : option str
}.

(** [d[key] = v] on a dictionary: the value of a key that is there is
    replaced in place, a new key goes last. *)
Fixpoint set_item (key : str) (v : json) (fields : list (str * json))
    : list (str * json) :=
  match fields with
  | [] => [(key, v)]
  | (k, x) :: rest =>
      if str_eqb k key then (k, v) :: rest
      else (k, x) :: set_item key v rest
  end.

(** [if title: snippet['title'] = title], for a string that may be [None]
    or empty. *)
Definition set_if_text (key : str) (v : option str)
    (snippet : list (str * json)) : list (str * json) :=
  match v with
  | Some (c :: s) => set_item key (JStr (c :: s)) snippet
  | _ => snippet
  end.

Definition set_if_tags (v : option (list str))
    (snippet : list (str * json)) : list (str * json) :=
  match v with
  | Some (t :: ts) => set_item (lit "tags") (JArr (map JStr (t :: ts))) snippet
  | _ => snippet
  end.

Definition update_error (e : exn) : update_result :=
  {| up_status := lit "error"; up_message := None; up_video_id := None;
     up_error := Some (exn_text e) |}.

Section Update.

Variable youtube_api_available : bool.
Variable youtube_client : bool.

(** [videos().list(...).execute()] and [videos().update(...).execute()] *)
Variable videos_list : str -> str -> outcome video_list.
Variable videos_update : str -> str -> list (str * json) -> outcome unit.

Definition update_video (video_id : str) (title description : option str)
    (tags : option (list str)) : list update_call * update_result :=
  if negb youtube_api_available || negb youtube_client
  then ([], {| up_status := lit "mock";
               up_message := Some (lit "API 사용 불가");
               up_video_id := None; up_error := None |})
  else
    let asked := [VideosList (lit "snippet") video_id] in
    match videos_list (lit "snippet") video_id with
    | Raise e => (asked, update_error e)
    | Return video =>
        match list_items video with
        | None => (asked, update_error (Exception (lit "'items'")))
        | Some [] =>
            (asked, {| up_status := lit "error";
                       up_message := Some (lit "Video not found");
                       up_video_id := None; up_error := None |})
        | Some (first :: _) =>
            match item_snippet first with
            | None => (asked, update_error (Exception (lit "'snippet'")))
            | Some snippet =>
                let snippet := set_if_text (lit "title") title snippet in
                let snippet :=
                  set_if_text (lit "description") description snippet in
                let snippet := set_if_tags tags snippet in
                let asked :=
                  asked ++ [VideosUpdate (lit "snippet") video_id snippet] in
                match videos_update (lit "snippet") video_id snippet with
                | Raise e => (asked, update_error e)
                | Return _ =>
                    (asked, {| up_status := lit "success";
                               up_message := None;
                               up_video_id := Some video_id;
                               up_error := None |})
                end
            end
        end
    end.

End Update.

End YouTubeUploader.

(* ================================================================== *)
(** * main_workflow.py: the orchestrator *)
(* ================================================================== *)

Module MainWorkflow.
Import Py.

Definition article : Type := NewsCollector.article.
Definition metadata : Type := AIScriptGenerator.metadata.
Definition script_data : Type := AIScriptGenerator.script_data.
Definition upload_result : Type := YouTubeUploader.upload_result.

(** What [generate_audio] returns, as far as the orchestrator reads it. *)
Record tts_result : Type := {
  tts_status : str;
  output_file : str
}.

(** The per-article result dictionary; every key after the first three is
    absent until its stage has run. *)
Record run_result : Type := {
  article_title : str;
  status : str;
  timestamp : str;
  script : option json;
  thumbnail_title : option str;
  result_metadata : option metadata;
  audio_file : option str;
  video_file : option str;
  video_url : option (option str);
  video_id : option (option str);
  error : option str
}.

Definition processing : str := Eval vm_compute in lit "processing".
Definition completed : str := Eval vm_compute in lit "completed".
Definition failed : str := Eval vm_compute in lit "failed".

Definition new_result (article_title timestamp : str) : run_result :=
  {| article_title := article_title; status := processing;
     timestamp := timestamp; script := None; thumbnail_title := None;
     result_metadata := None; audio_file := None; video_file := None;
     video_url := None; video_id := None; error := None |}.

Definition set_status (v : str) (r : run_result) : run_result :=
  {| article_title := article_title r; status := v;
     timestamp := timestamp r; script := script r;
     thumbnail_title := thumbnail_title r;
     result_metadata := result_metadata r; audio_file := audio_file r;
     video_file := video_file r; video_url := video_url r;
     video_id := video_id r; error := error r |}.

Definition set_script (v : json) (r : run_result) : run_result :=
  {| article_title := article_title r; status := status r;
     timestamp := timestamp r; script := Some v;
     thumbnail_title := thumbnail_title r;
     result_metadata := result_metadata r; audio_file := audio_file r;
     video_file := video_file r; video_url := video_url r;
     video_id := video_id r; error := error r |}.

Definition set_thumbnail_title (v : str) (r : run_result) : run_result :=
  {| article_title := article_title r; status := status r;
     timestamp := timestamp r; script := script r;
     thumbnail_title := Some v;
     result_metadata := result_metadata r; audio_file := audio_file r;
     video_file := video_file r; video_url := video_url r;
     video_id := video_id r; error := error r |}.

Definition set_metadata (v : metadata) (r : run_result) : run_result :=
  {| article_title := article_title r; status := status r;
     timestamp := timestamp r; script := script r;
     thumbnail_title := thumbnail_title r;
     result_metadata := Some v; audio_file := audio_file r;
     video_file := video_file r; video_url := video_url r;
     video_id := video_id r; error := error r |}.

Definition set_audio_file (v : str) (r : run_result) : run_result :=
  {| article_title := article_title r; status := status r;
     timestamp := timestamp r; script := script r;
     thumbnail_title := thumbnail_title r;
     result_metadata := result_metadata r; audio_file := Some v;
     video_file := video_file r; video_url := video_url r;
     video_id := video_id r; error := error r |}.

Definition set_video_file (v : str) (r : run_result) : run_result :=
  {| article_title := article_title r; status := status r;
     timestamp := timestamp r; script := script r;
     thumbnail_title := thumbnail_title r;
     result_metadata := result_metadata r; audio_file := audio_file r;
     video_file := Some v; video_url := video_url r;
     video_id := video_id r; error := error r |}.

Definition set_video_url (v : option str) (r : run_result) : run_result :=
  {| article_title := article_title r; status := status r;
     timestamp := timestamp r; script := script r;
     thumbnail_title := thumbnail_title r;
     result_metadata := result_metadata r; audio_file := audio_file r;
     video_file := video_file r; video_url := Some v;
     video_id := video_id r; error := error r |}.

Definition set_video_id (v : option str) (r : run_result) : run_result :=
  {| article_title := article_title r; status := status r;
     timestamp := timestamp r; script := script r;
     thumbnail_title := thumbnail_title r;
     result_metadata := result_metadata r; audio_file := audio_file r;
     video_file := video_file r; video_url := video_url r;
     video_id := Some v; error := error r |}.

Definition set_error (v : str) (r : run_result) : run_result :=
  {| article_title := article_title r; status := status r;
     timestamp := timestamp r; script := script r;
     thumbnail_title := thumbnail_title r;
     result_metadata := result_metadata r; audio_file := audio_file r;
     video_file := video_file r; video_url := video_url r;
     video_id := video_id r; error := Some v |}.

(** [len(v)] on a decoded value. *)
Definition py_len (v : json) : outcome Z :=
  match v with
  | JStr s => Return (Z.of_nat (length s))
  | JArr l => Return (Z.of_nat (length l))
  | JObj f => Return (Z.of_nat (length f))
  | _ => Raise (Exception (lit "object has no len()"))
  end.

Section Orchestrator.

(** The outside world (network, file system, clock); every collaborator call
    reads and changes it, and may raise. *)
Variable World : Type.

Definition M (A : Type) : Type := World -> World * outcome A.

Definition ret {A} (a : A) : M A := fun w => (w, Return a).

Definition raise {A} (e : exn) : M A := fun w => (w, Raise e).

Definition bindM {A B} (m : M A) (k : A -> M B) : M B :=
  fun w =>
    match m w with
    | (w', Return a) => k a w'
    | (w', Raise e) => (w', Raise e)
    end.

Definition lift {A} (o : outcome A) : M A := fun w => (w, o).

(** A clock reading cannot raise. *)
Definition tick (clock : World -> World * str) : M str :=
  fun w => let '(w', t) := clock w in (w', Return t).

(** The collaborators, as the orchestrator's constructor wires them. *)
Record collaborators : Type := {
  now_isoformat : World -> World * str;
  now_strftime : World -> World * str;
  generate_youtube_script : article -> M script_data;
  generate_thumbnail_titles : article -> Z -> M (list str);
  generate_video_metadata : article -> json -> M metadata;
  generate_audio : json -> str -> str -> M tts_result;
  mkdir : str -> M unit;
  open_for_writing : str -> M unit;
  write_text : str -> str -> M unit;
  upload_video :
    str -> str -> str -> option (list str) -> str -> str -> M upload_result;
  _step1_collect_news : M (list article);
  target_videos_per_day : option Z;
  _save_workflow_results : list run_result -> M unit
}.

Variable C : collaborators.

(** ** The body of the [try] block

    A computation on the result dictionary under construction: the
    dictionary keeps what was written to it when a later stage raises. *)
Definition T (A : Type) : Type := run_result -> World -> World * run_result * outcome A.

Definition retT {A} (a : A) : T A := fun r w => (w, r, Return a).

Definition bindT {A B} (m : T A) (k : A -> T B) : T B :=
  fun r w =>
    match m r w with
    | (w', r', Return a) => k a r' w'
    | (w', r', Raise e) => (w', r', Raise e)
    end.

Definition call {A} (m : M A) : T A :=
  fun r w => let '(w', o) := m w in (w', r, o).

Definition write (f : run_result -> run_result) : T unit :=
  fun r w => (w, f r, Return tt).

Notation "x <- m ;; k" := (bindT m (fun x => k))
  (at level 61, m at next level, right associativity).
Notation "m ;;; k" := (bindT m (fun _ => k))
  (at level 61, right associativity).

(** [_step5_edit_video]: the file is opened before the text to write is
    built, so [len(script)] is evaluated on an open file. *)
Definition _step5_edit_video (audio_file : str) (script : json) : M str :=
  bindM (tick (now_strftime C)) (fun stamp =>
  let video_filename := lit "video_" ++ stamp ++ lit ".mp4" in
  let video_dir := lit "output/videos" in
  let video_path := video_dir ++ lit "/" ++ video_filename in
  bindM (mkdir C video_dir) (fun _ =>
  bindM (open_for_writing C video_path) (fun _ =>
  bindM (lift (py_len script)) (fun n =>
  bindM (write_text C video_path
           (lit "[Mock Video File]" ++ [NL] ++ lit "Audio: " ++ audio_file
            ++ [NL] ++ lit "Script length: " ++ AIScriptGenerator.fmt_int n))
        (fun _ => ret video_path))))).

Definition try_body (a : article) (auto_upload : bool) : T unit :=
  script_data <- call (generate_youtube_script C a) ;;
  let script := AIScriptGenerator.script script_data in
  write (set_script script) ;;;
  thumbnail_titles <- call (generate_thumbnail_titles C a 10) ;;
  let best_title :=
    match thumbnail_titles with
    | t :: _ => t
    | [] => NewsCollector.title a
    end in
  write (set_thumbnail_title best_title) ;;;
  metadata <- call (generate_video_metadata C a script) ;;
  write (set_metadata metadata) ;;;
  stamp <- call (tick (now_strftime C)) ;;
  tts_result <- call (generate_audio C script (lit "professional")
                        (lit "voice_" ++ stamp ++ lit ".mp3")) ;;
  write (set_audio_file (output_file tts_result)) ;;;
  video_file <- call (_step5_edit_video (output_file tts_result) script) ;;
  write (set_video_file video_file) ;;;
  (if auto_upload then
     upload_result <-
       call (upload_video C video_file
               (match AIScriptGenerator.md_title metadata with
                | Some t => t
                | None => NewsCollector.title a
                end)
               (match AIScriptGenerator.md_description metadata with
                | Some d => d
                | None => []
                end)
               (Some (match AIScriptGenerator.md_tags metadata with
                      | Some t => t
                      | None => []
                      end))
               (lit "25") (lit "public")) ;;
     write (set_video_url (YouTubeUploader.video_url upload_result)) ;;;
     write (set_video_id (YouTubeUploader.video_id upload_result))
   else retT tt) ;;;
  write (set_status completed).

(** [_process_single_article]: the dictionary is created, the body runs, and
    [except Exception] turns whatever it raises into a failed result. *)
Definition _process_single_article (a : article) (auto_upload : bool)
    (w : World) : World * run_result :=
  let '(w, now) := now_isoformat C w in
  let result := new_result (NewsCollector.title a) now in
  match try_body a auto_upload result w with
  | (w, result, Return _) => (w, result)
  | (w, result, Raise e) =>
      (w, set_error (exn_text e) (set_status failed result))
  end.

(** The loop of [_step2_select_articles] that prints the selection: it
    reads [article['relevance_score']] of every selected article, and the
    subscript raises [KeyError] on an article that carries no score. *)
Fixpoint print_selection (selected : list article) : outcome unit :=
  match selected with
  | [] => Return tt
  | a :: rest =>
      match NewsCollector.relevance_score a with
      | Some _ => print_selection rest
      | None => Raise (Exception (lit "'relevance_score'"))
      end
  end.

(** [_step2_select_articles] *)
Definition _step2_select_articles (articles : list article)
    : outcome (list article) :=
  let target_count :=
    match target_videos_per_day C with Some n => n | None => 3%Z end in
  let selected := slice_to target_count articles in
  bind (print_selection selected) (fun _ => Return selected).

(** The loop of [run_full_workflow] over the selected articles. *)
Fixpoint process_all (selected_articles : list article) (auto_upload : bool)
    (results : list run_result) (w : World) : World * list run_result :=
  match selected_articles with
  | [] => (w, results)
  | a :: rest =>
      let '(w, result) := _process_single_article a auto_upload w in
      process_all rest auto_upload (results ++ [result]) w
  end.

(** [run_full_workflow] returns nothing in the source; the model returns the
    list it hands to [_save_workflow_results], or [None] when it stops
    because no article was collected; an exception of the selection is not
    caught.  The two clock readings that only feed
    the printed duration are left out, as is everything printed. *)
Definition run_full_workflow (auto_upload : bool)
    : M (option (list run_result)) :=
  bindM (_step1_collect_news C) (fun articles =>
  match articles with
  | [] => ret None
  | _ :: _ =>
      bindM (lift (_step2_select_articles articles))
        (fun selected_articles w =>
           let '(w, results) :=
             process_all selected_articles auto_upload [] w in
           bindM (_save_workflow_results C results)
                 (fun _ => ret (Some results)) w)
  end).

End Orchestrator.

End MainWorkflow.

(* ================================================================== *)
(** * main_workflow.py: collection as wired to the collector *)
(* ================================================================== *)

Module WorkflowCollection.
Import Py NewsCollector.

(** The dictionaries [collect_all_news] has just built are all distinct
    objects: the n-th article lives at reference n. *)
Definition blank : article :=
  {| title := []; description := None; link := None; pub_date := None;
     keyword := None; source := None; relevance_score := None |}.

Definition fresh_store (articles : list article) : store :=
  fun r => nth r articles blank.

Section Step1.
Context {U : Unicode}.

(** [feedparser.parse(url).entries] *)
Variable parse_feed : str -> outcome (list feed_entry).

(** [save_to_json]: the file is opened and the articles dumped; it may
    raise. *)
Variable save_to_json : list article -> str -> outcome unit.

(** [config['keywords']], which the constructor copies into the
    collector. *)
Variable keywords : list str.

(** [_step1_collect_news], with the collector's own methods; the threshold
    is the default of [filter_trending_news]. *)
Definition _step1_collect_news : outcome (store * list loc) :=
  let raw_articles := collect_all_news parse_feed keywords in
  bind (filter_trending_news keywords (fresh_store raw_articles)
          (seq 0 (length raw_articles)) (1 # 2))
       (fun filtered =>
          let '(h, trending_articles) := filtered in
          bind (save_to_json (map h trending_articles)
                  (lit "output/collected_news.json"))
               (fun _ => Return (h, trending_articles))).

End Step1.

End WorkflowCollection.

(* ================================================================== *)
(** * Facts about the string operations *)
(* ================================================================== *)

Module PyFacts.
Import Py.

Lemma startswith_iff (s prefix : str) :
  startswith s prefix = true <-> exists rest, s = prefix ++ rest.
Proof.
  revert s; induction prefix as [|p prefix IH]; intros s; simpl.
  - split; [intros _; now exists s | reflexivity].
  - destruct s as [|c s].
    + split; [discriminate | intros [rest H]; discriminate].
    + rewrite andb_true_iff, N.eqb_eq, IH. split.
      * intros [-> [rest ->]]. now exists rest.
      * intros [rest H]. injection H as -> ->. split; [reflexivity | now exists rest].
Qed.

Lemma contains_iff (sub s : str) :
  contains sub s = true <-> exists before after, s = before ++ sub ++ after.
Proof.
  induction s as [|c s IH].
  - simpl. rewrite orb_false_r, startswith_iff. split.
    + intros [rest H]. exists [], rest. exact H.
    + intros [before [after H]]. symmetry in H.
      apply app_eq_nil in H as [-> H]. exists after. now symmetry.
  - cbn [contains]. rewrite orb_true_iff, startswith_iff, IH. split.
    + intros [[rest H] | [before [after H]]].
      * exists [], rest. exact H.
      * exists (c :: before), after. simpl. now rewrite H.
    + intros [before [after H]]. destruct before as [|b before].
      * left. exists after. exact H.
      * right. injection H as _ H. now exists before, after.
Qed.

(** A match survives when text is put around the string searched. *)
Lemma contains_within (sub s before after : str) :
  contains sub s = true -> contains sub (before ++ s ++ after) = true.
Proof.
  rewrite !contains_iff. intros [b [a ->]].
  exists (before ++ b), (a ++ after). now rewrite <- !app_assoc.
Qed.

Lemma contains_app_l (sub s after : str) :
  contains sub s = true -> contains sub (s ++ after) = true.
Proof. intros H. apply (contains_within sub s [] after H). Qed.

Lemma lstrip_length (s : str) : (length (lstrip s) <= length s)%nat.
Proof. induction s as [|c s IH]; simpl; [lia|]. destruct (isspace c); simpl; lia. Qed.

Lemma rstrip_length (s : str) : (length (rstrip s) <= length s)%nat.
Proof.
  induction s as [|c s IH]; simpl; [lia|].
  destruct (rstrip s); [destruct (isspace c)|]; simpl in *; lia.
Qed.

Lemma strip_length (s : str) : (length (strip s) <= length s)%nat.
Proof.
  unfold strip. etransitivity; [apply rstrip_length | apply lstrip_length].
Qed.

(** Stripping removes at least a trailing blank. *)
Lemma rstrip_snoc_space (s : str) (c : codepoint) :
  isspace c = true -> rstrip (s ++ [c]) = rstrip s.
Proof.
  intros H. induction s as [|x s IH]; simpl; [now rewrite H|].
  now rewrite IH.
Qed.

Lemma len_upto {A} (n : nat) (l : list A) :
  len (upto n l) = Z.min (Z.of_nat n) (len l).
Proof. unfold len, upto. rewrite length_firstn. lia. Qed.

Lemma slice_to_length {A} (n : Z) (l : list A) :
  (0 <= n)%Z -> length (slice_to n l) = Nat.min (Z.to_nat n) (length l).
Proof.
  intros H. unfold slice_to.
  destruct (Z.leb_spec 0 n); [apply length_firstn | lia].
Qed.

End PyFacts.

(* ================================================================== *)
(** * The relevance filter: scores, selection, order, mutation *)
(* ================================================================== *)

Module NewsCollectorFacts.
Import Py PyFacts NewsCollector.

(** ** Comparisons on scores *)

Lemma Qlt_bool_iff (x y : Q) : Qlt_bool x y = true <-> x < y.
Proof.
  unfold Qlt_bool. rewrite negb_true_iff. split.
  - intros H. apply Qnot_le_lt. intros Hle.
    apply Qle_bool_iff in Hle. congruence.
  - intros H. destruct (Qle_bool y x) eqn:E; [|reflexivity].
    apply Qle_bool_iff in E. exfalso. exact (Qlt_not_le _ _ H E).
Qed.

Lemma Qlt_bool_false (x y : Q) : Qlt_bool x y = false -> y <= x.
Proof.
  unfold Qlt_bool. rewrite negb_false_iff. apply Qle_bool_iff.
Qed.

(** ** The stable descending sort *)

Definition key_is (q : Q) (x : Q * loc) : bool := Qeq_bool (fst x) q.

Definition desc (x y : Q * loc) : Prop := fst y <= fst x.

Lemma insert_desc_perm (x : Q * loc) (l : list (Q * loc)) :
  Permutation (insert_desc x l) (x :: l).
Proof.
  induction l as [|y l IH]; simpl; [reflexivity|].
  destruct (Qlt_bool (fst x) (fst y)); [|reflexivity].
  rewrite IH. apply perm_swap.
Qed.

Lemma sort_desc_perm (l : list (Q * loc)) : Permutation (sort_desc l) l.
Proof.
  induction l as [|x l IH]; simpl; [reflexivity|].
  rewrite insert_desc_perm. now constructor.
Qed.

Lemma insert_desc_sorted (x : Q * loc) (l : list (Q * loc)) :
  StronglySorted desc l -> StronglySorted desc (insert_desc x l).
Proof.
  induction 1 as [|y l Hs IH Hy]; simpl.
  - repeat constructor.
  - destruct (Qlt_bool (fst x) (fst y)) eqn:E.
    + constructor; [exact IH|].
      apply (Permutation_Forall (x := x :: l)).
      * symmetry. apply insert_desc_perm.
      * constructor; [|exact Hy].
        apply Qlt_bool_iff in E. unfold desc. now apply Qlt_le_weak.
    + apply Qlt_bool_false in E.
      constructor; [now constructor|].
      constructor; [exact E|].
      eapply Forall_impl; [|exact Hy].
      intros z Hz. unfold desc in *. now apply Qle_trans with (fst y).
Qed.

Lemma sort_desc_sorted (l : list (Q * loc)) : StronglySorted desc (sort_desc l).
Proof.
  induction l as [|x l IH]; simpl; [constructor|].
  now apply insert_desc_sorted.
Qed.

(** Stability: an element is never moved across one of equal key. *)
Lemma insert_desc_stable (q : Q) (x : Q * loc) (l : list (Q * loc)) :
  filter (key_is q) (insert_desc x l) = filter (key_is q) (x :: l).
Proof.
  induction l as [|y l IH]; [reflexivity|].
  cbn [insert_desc]. destruct (Qlt_bool (fst x) (fst y)) eqn:E; [|reflexivity].
  cbn [filter] in *. rewrite IH.
  destruct (key_is q x) eqn:Ex; [|reflexivity].
  destruct (key_is q y) eqn:Ey; [|reflexivity].
  exfalso. unfold key_is in *.
  apply Qeq_bool_iff in Ex, Ey. apply Qlt_bool_iff in E.
  rewrite Ex, Ey in E. exact (Qlt_irrefl _ E).
Qed.

Lemma sort_desc_stable (q : Q) (l : list (Q * loc)) :
  filter (key_is q) (sort_desc l) = filter (key_is q) l.
Proof.
  induction l as [|x l IH]; [reflexivity|].
  cbn [sort_desc]. rewrite insert_desc_stable. cbn [filter]. now rewrite IH.
Qed.

(** ** From keyed pairs back to references *)

Section Keyed.
Variable s : loc -> Q.

Definition keyed (l : list loc) : list (Q * loc) := map (fun r => (s r, r)) l.

Definition well_keyed (x : Q * loc) : Prop := fst x = s (snd x).

Lemma keyed_well (l : list loc) : Forall well_keyed (keyed l).
Proof. induction l; simpl; constructor; auto. reflexivity. Qed.

Lemma keyed_snd (l : list loc) : map snd (keyed l) = l.
Proof. induction l; simpl; congruence. Qed.

Lemma sorted_well (l : list loc) : Forall well_keyed (sort_desc (keyed l)).
Proof.
  apply (Permutation_Forall (x := keyed l)).
  - symmetry. apply sort_desc_perm.
  - apply keyed_well.
Qed.

Lemma sorted_refs (l : list (Q * loc)) :
  Forall well_keyed l -> StronglySorted desc l ->
  StronglySorted (fun r1 r2 => s r2 <= s r1) (map snd l).
Proof.
  intros Hw Hs. induction Hs as [|x l Hs IH Hx]; simpl; [constructor|].
  inversion Hw as [|? ? Hwx Hwl]; subst.
  constructor; [now apply IH|].
  apply Forall_map. rewrite Forall_forall in *.
  intros y Hy. unfold desc, well_keyed in *.
  rewrite <- Hwx, <- (Hwl y Hy). now apply Hx.
Qed.

Lemma filter_refs (q : Q) (l : list (Q * loc)) :
  Forall well_keyed l ->
  filter (fun r => Qeq_bool (s r) q) (map snd l)
  = map snd (filter (key_is q) l).
Proof.
  induction 1 as [|x l Hx Hl IH]; [reflexivity|].
  cbn [map filter]. unfold key_is at 1. rewrite Hx, IH.
  now destruct (Qeq_bool (s (snd x)) q).
Qed.

Definition sorted_by_score (l : list loc) : list loc :=
  map snd (sort_desc (keyed l)).

Lemma sorted_by_score_perm (l : list loc) : Permutation (sorted_by_score l) l.
Proof.
  unfold sorted_by_score. rewrite <- (keyed_snd l) at 2.
  apply Permutation_map, sort_desc_perm.
Qed.

Lemma sorted_by_score_desc (l : list loc) :
  StronglySorted (fun r1 r2 => s r2 <= s r1) (sorted_by_score l).
Proof. apply sorted_refs; [apply sorted_well | apply sort_desc_sorted]. Qed.

Lemma sorted_by_score_stable (q : Q) (l : list loc) :
  filter (fun r => Qeq_bool (s r) q) (sorted_by_score l)
  = filter (fun r => Qeq_bool (s r) q) l.
Proof.
  unfold sorted_by_score.
  rewrite filter_refs by apply sorted_well.
  rewrite sort_desc_stable, <- filter_refs by apply keyed_well.
  now rewrite keyed_snd.
Qed.

End Keyed.

(** ** The scoring loop *)

Section Loop.
Context {U : Unicode}.
Variable keywords : list str.

(** The score in the specification's words: the number of configured
    keywords whose lowercase form occurs in the lowercased title, plus the
    constant bonus. *)
Definition matching_keywords (t : str) : list str :=
  filter (fun k => contains (lower k) (lower t)) keywords.

Definition relevance (t : str) : Q :=
  inject_Z (Z.of_nat (length (matching_keywords t))) + (1 # 2).

Lemma count_loop (t : str) (l : list str) (acc : Z) :
  fold_left
    (fun score keyword =>
       if contains (lower keyword) t then (score + 1)%Z else score) l acc
  = (acc + Z.of_nat (length (filter (fun k => contains (lower k) t) l)))%Z.
Proof.
  revert acc; induction l as [|k l IH]; intros acc; simpl; [lia|].
  rewrite IH. destruct (contains (lower k) t); simpl length; lia.
Qed.

Lemma keyword_matches_count (t : str) :
  keyword_matches keywords (lower t)
  = Z.of_nat (length (matching_keywords t)).
Proof. unfold keyword_matches. now rewrite count_loop. Qed.

Lemma article_score_relevance (a : article) :
  article_score keywords a = relevance (title a).
Proof. unfold article_score, relevance. now rewrite keyword_matches_count. Qed.

(** Everything but the score is the same in both dictionaries. *)
Definition same_but_score (a b : article) : Prop :=
  title b = title a /\ description b = description a /\ link b = link a
  /\ pub_date b = pub_date a /\ keyword b = keyword a /\ source b = source a.

Lemma same_but_score_refl (a : article) : same_but_score a a.
Proof. repeat split. Qed.

Lemma same_but_score_trans (a b c : article) :
  same_but_score a b -> same_but_score b c -> same_but_score a c.
Proof.
  unfold same_but_score. intros (?&?&?&?&?&?) (?&?&?&?&?&?).
  repeat split; congruence.
Qed.

Lemma assign_frame (h : store) (r : loc) (q : Q) (x : loc) :
  same_but_score (h x) (assign h r (set_relevance_score (h r) q) x).
Proof.
  unfold assign. destruct (Nat.eqb_spec x r) as [->|_].
  - repeat split.
  - apply same_but_score_refl.
Qed.

Definition keeps (min_relevance : Q) (h : store) (r : loc) : bool :=
  Qle_bool min_relevance (relevance (title (h r))).

Lemma score_loop_spec (min_relevance : Q) (articles : list loc) :
  forall (h : store) (scored : list loc),
    let res := score_loop keywords min_relevance articles h scored in
    snd res = scored ++ filter (keeps min_relevance h) articles
    /\ (forall r, same_but_score (h r) (fst res r))
    /\ (forall r, In r articles ->
          relevance_score (fst res r) = Some (relevance (title (h r))))
    /\ (forall r, ~ In r articles -> fst res r = h r).
Proof.
  induction articles as [|r rest IH]; intros h scored.
  - simpl. rewrite app_nil_r.
    split; [|split; [|split]]; auto using same_but_score_refl.
    intros r [].
  - cbn [score_loop]. cbv zeta.
    set (score := article_score keywords (h r)).
    set (h1 := assign h r (set_relevance_score (h r) score)).
    set (scored1 := if Qle_bool min_relevance score
                    then scored ++ [r] else scored).
    destruct (IH h1 scored1) as (Hout & Hframe & Hscore & Hrest).
    assert (Hf1 : forall x, same_but_score (h x) (h1 x))
      by (intros x; apply assign_frame).
    assert (Ht1 : forall x, title (h1 x) = title (h x))
      by (intros x; apply Hf1).
    split; [|split; [|split]].
    + rewrite Hout. subst scored1. cbn [filter]. unfold keeps at 2.
      rewrite <- article_score_relevance. fold score.
      rewrite (filter_ext (keeps min_relevance h1) (keeps min_relevance h)).
      * destruct (Qle_bool min_relevance score);
          [now rewrite <- app_assoc | reflexivity].
      * intros x. unfold keeps. now rewrite Ht1.
    + intros x. eapply same_but_score_trans; [apply Hf1 | apply Hframe].
    + intros x Hx. destruct (in_dec Nat.eq_dec x rest) as [Hin|Hnin].
      * rewrite (Hscore x Hin). now rewrite Ht1.
      * destruct Hx as [<-|Hx]; [|contradiction].
        rewrite (Hrest r Hnin). subst h1. unfold assign.
        rewrite Nat.eqb_refl. cbn. subst score.
        now rewrite article_score_relevance.
    + intros x Hx. rewrite Hrest by (intros Hin; apply Hx; now right).
      subst h1. unfold assign. destruct (Nat.eqb_spec x r) as [->|_];
        [exfalso; apply Hx; now left | reflexivity].
Qed.

Lemma sort_keys_ok (h : store) (s : loc -> Q) (l : list loc) :
  (forall r, In r l -> relevance_score (h r) = Some (s r)) ->
  sort_keys h l = Return (keyed s l).
Proof.
  induction l as [|r l IH]; intros H; [reflexivity|].
  cbn [sort_keys]. rewrite (H r) by now left.
  rewrite IH by (intros x Hx; apply H; now right). reflexivity.
Qed.

(** What one call does, in one equation: the caller's dictionaries get
    their scores, and the references kept come back in score order. *)
Lemma filter_trending_news_eq (h : store) (articles : list loc)
    (min_relevance : Q) :
  let res := score_loop keywords min_relevance articles h [] in
  filter_trending_news keywords h articles min_relevance
  = Return (fst res,
            sorted_by_score (fun r => relevance (title (h r)))
              (filter (keeps min_relevance h) articles)).
Proof.
  cbv zeta. unfold filter_trending_news.
  destruct (score_loop_spec min_relevance articles h [])
    as (Hout & _ & Hscore & _).
  destruct (score_loop keywords min_relevance articles h []) as [h' scored].
  cbn [fst snd] in *. cbn [app] in Hout. subst scored.
  rewrite (sort_keys_ok h' (fun r => relevance (title (h r)))).
  - reflexivity.
  - intros r Hr. apply filter_In in Hr as [Hr _]. now apply Hscore.
Qed.

End Loop.

Lemma filter_length_mono {A} (p q : A -> bool) (l : list A) :
  (forall x, p x = true -> q x = true) ->
  (length (filter p l) <= length (filter q l))%nat.
Proof.
  intros H. induction l as [|x l IH]; simpl; [lia|].
  destruct (p x) eqn:E.
  - rewrite (H x E). simpl. lia.
  - destruct (q x); simpl; lia.
Qed.

Lemma relevance_mono {U : Unicode} (keywords : list str) (t t' : str) :
  (forall k, contains (lower k) (lower t) = true ->
             contains (lower k) (lower t') = true) ->
  relevance keywords t <= relevance keywords t'.
Proof.
  intros H. unfold relevance. apply Qplus_le_l.
  rewrite <- Zle_Qle. apply inj_le.
  apply filter_length_mono. intros k. apply H.
Qed.

(** A bare article with the given title. *)
Definition headline (t : str) : article :=
  {| title := t; description := None; link := None; pub_date := None;
     keyword := None; source := None; relevance_score := None |}.

Definition samsung : str := Eval vm_compute in lit "삼성".
Definition headline_samsung : str := Eval vm_compute in lit "삼성전자 투자 발표".
Definition headline_weather : str := Eval vm_compute in lit "날씨 예보".

Section Example.
Context {U : Unicode}.
Hypothesis lower_samsung : lower samsung = samsung.
Hypothesis lower_headline_samsung : lower headline_samsung = headline_samsung.
Hypothesis lower_headline_weather : lower headline_weather = headline_weather.

Lemma relevance_headline_samsung : relevance [samsung] headline_samsung = 3 # 2.
Proof.
  unfold relevance, matching_keywords. cbn [filter].
  rewrite lower_samsung, lower_headline_samsung. reflexivity.
Qed.

Lemma relevance_headline_weather : relevance [samsung] headline_weather = 1 # 2.
Proof.
  unfold relevance, matching_keywords. cbn [filter].
  rewrite lower_samsung, lower_headline_weather. reflexivity.
Qed.

Lemma example_run (h : store) (r1 r2 : loc) (articles : list loc) :
  title (h r1) = headline_samsung -> title (h r2) = headline_weather ->
  articles = [r1; r2] \/ articles = [r2; r1] ->
  exists h',
    filter_trending_news [samsung] h articles (1 # 2) = Return (h', [r1; r2])
    /\ relevance_score (h' r1) = Some (3 # 2)
    /\ relevance_score (h' r2) = Some (1 # 2).
Proof.
  intros H1 H2 Ha.
  destruct (score_loop_spec [samsung] (1 # 2) articles h [])
    as (_ & _ & Hscore & _).
  rewrite filter_trending_news_eq.
  exists (fst (score_loop [samsung] (1 # 2) articles h [])).
  split; [|split].
  - f_equal. f_equal.
    destruct Ha as [-> | ->]; cbn [filter]; unfold keeps;
      rewrite H1, H2, relevance_headline_samsung, relevance_headline_weather;
      change (Qle_bool (1 # 2) (3 # 2)) with true;
      change (Qle_bool (1 # 2) (1 # 2)) with true; cbv iota;
      unfold sorted_by_score, keyed; cbn [map];
      rewrite H1, H2, relevance_headline_samsung, relevance_headline_weather;
      reflexivity.
  - rewrite Hscore, H1, relevance_headline_samsung; [reflexivity|].
    destruct Ha as [-> | ->]; simpl; auto.
  - rewrite Hscore, H2, relevance_headline_weather; [reflexivity|].
    destruct Ha as [-> | ->]; simpl; auto.
Qed.

End Example.

(** ** The filter as a whole *)

(** C1. The relevance filter gives every article the score "number of
    configured keywords whose lowercase form occurs in the lowercased title,
    plus 0.5", keeps exactly the articles whose score is at least
    [min_relevance] (a score equal to it is kept), and returns them by
    descending score, articles of equal score in their input order.  With
    the one keyword "삼성" and threshold 0.5, the headline
    "삼성전자 투자 발표" scores 1.5, the headline "날씨 예보" scores 0.5,
    and both are returned, the higher first. *)
Theorem filter_trending_news_correct {U : Unicode} (keywords : list str)
    (h : store) (articles : list loc) (min_relevance : Q) :
  (exists h' out,
      filter_trending_news keywords h articles min_relevance
      = Return (h', out)
      /\ (forall r, In r articles ->
            relevance_score (h' r) = Some (relevance keywords (title (h r))))
      /\ (forall r, In r out <->
            In r articles /\ min_relevance <= relevance keywords (title (h r)))
      /\ Permutation out (filter (keeps keywords min_relevance h) articles)
      /\ StronglySorted
           (fun r1 r2 => relevance keywords (title (h r2))
                         <= relevance keywords (title (h r1))) out
      /\ (forall q,
            filter (fun r => Qeq_bool (relevance keywords (title (h r))) q) out
            = filter (fun r => Qeq_bool (relevance keywords (title (h r))) q)
                (filter (keeps keywords min_relevance h) articles)))
  /\ (forall (h0 : store) (r1 r2 : loc) (input : list loc),
        lower samsung = samsung ->
        lower headline_samsung = headline_samsung ->
        lower headline_weather = headline_weather ->
        title (h0 r1) = headline_samsung ->
        title (h0 r2) = headline_weather ->
        input = [r1; r2] \/ input = [r2; r1] ->
        exists h',
          filter_trending_news [samsung] h0 input (1 # 2)
          = Return (h', [r1; r2])
          /\ relevance_score (h' r1) = Some (3 # 2)
          /\ relevance_score (h' r2) = Some (1 # 2)).
Proof.
  split.
  - destruct (score_loop_spec keywords min_relevance articles h [])
      as (_ & _ & Hscore & _).
    eexists _, _. split; [apply filter_trending_news_eq|].
    split; [exact Hscore|].
    split; [|split; [|split]].
    + intros r.
      rewrite (Permutation_in' (eq_refl r)
                 (sorted_by_score_perm _ _)), filter_In.
      unfold keeps. now rewrite Qle_bool_iff.
    + apply sorted_by_score_perm.
    + apply sorted_by_score_desc.
    + intros q.
      apply (sorted_by_score_stable
               (fun r => relevance keywords (title (h r)))).
  - intros h0 r1 r2 input L1 L2 L3 H1 H2 Hin.
    now apply example_run.
Qed.

(** C9. The filter writes into the caller's dictionaries: after the call
    every article of the input list carries its computed score, those that
    were dropped included; every other key of every dictionary is what it
    was, and dictionaries outside the input list are untouched. *)
Theorem filter_trending_news_mutates_input {U : Unicode}
    (keywords : list str) (h : store) (articles : list loc)
    (min_relevance : Q) :
  exists h' out,
    filter_trending_news keywords h articles min_relevance = Return (h', out)
    /\ (forall r, In r articles ->
          relevance_score (h' r) = Some (relevance keywords (title (h r))))
    /\ (forall r, In r articles ->
          ~ min_relevance <= relevance keywords (title (h r)) ->
          ~ In r out
          /\ relevance_score (h' r) = Some (relevance keywords (title (h r))))
    /\ (forall r, same_but_score (h r) (h' r))
    /\ (forall r, ~ In r articles -> h' r = h r).
Proof.
  destruct (score_loop_spec keywords min_relevance articles h [])
    as (_ & Hframe & Hscore & Hrest).
  eexists _, _. split; [apply filter_trending_news_eq|].
  split; [exact Hscore|].
  split; [|split; [exact Hframe | exact Hrest]].
  intros r Hr Hlow. split; [|now apply Hscore].
  intros Hout.
  apply (Permutation_in _ (sorted_by_score_perm _ _)) in Hout.
  apply filter_In in Hout as [_ Hk]. unfold keeps in Hk.
  apply Qle_bool_iff in Hk. contradiction.
Qed.

(** ** The statements at a concrete store *)

Definition example_store : store :=
  fun r =>
    match r with
    | O => headline headline_samsung
    | _ => headline headline_weather
    end.

Lemma filter_trending_news_correct_witness :
  (exists h' out,
      filter_trending_news (U := ascii_unicode) [samsung] example_store
        [1; 0]%nat (1 # 2) = Return (h', out)
      /\ relevance_score (h' 1%nat) = Some (1 # 2)
      /\ In 1%nat out)
  /\ exists h',
      filter_trending_news (U := ascii_unicode) [samsung] example_store
        [1; 0]%nat (1 # 2) = Return (h', [0; 1]%nat)
      /\ relevance_score (h' 0%nat) = Some (3 # 2)
      /\ relevance_score (h' 1%nat) = Some (1 # 2).
Proof.
  destruct (filter_trending_news_correct (U := ascii_unicode) [samsung]
              example_store [1; 0]%nat (1 # 2)) as [General Example].
  split.
  - destruct General as (h' & out & Hrun & Hscore & Hkept & _).
    exists h', out. split; [exact Hrun|]. split.
    + apply (Hscore 1%nat). simpl. auto.
    + apply (Hkept 1%nat). split; [simpl; auto | vm_compute; discriminate].
  - apply (Example example_store 0%nat 1%nat); try reflexivity. now right.
Defined.

Lemma filter_trending_news_mutates_input_witness :
  exists h' out,
    filter_trending_news (U := ascii_unicode) [samsung] example_store
      [1; 0]%nat 1 = Return (h', out)
    /\ ~ In 1%nat out
    /\ relevance_score (h' 1%nat) = Some (1 # 2)
    /\ title (h' 1%nat) = headline_weather
    /\ h' 2%nat = example_store 2%nat.
Proof.
  destruct (filter_trending_news_mutates_input (U := ascii_unicode) [samsung]
              example_store [1; 0]%nat 1)
    as (h' & out & Hrun & _ & Hdropped & Hframe & Hrest).
  exists h', out. split; [exact Hrun|].
  destruct (Hdropped 1%nat) as [Hout Hscore].
  - simpl. auto.
  - vm_compute. intros H. apply H. reflexivity.
  - split; [exact Hout|]. split; [exact Hscore|]. split.
    + apply (Hframe 1%nat).
    + apply Hrest. simpl. intros [H|[H|[]]]; discriminate.
Defined.

(** ** Monotonicity *)

Definition text_ai_samsung : str := Eval vm_compute in lit "AI 삼성".
Definition text_ai_sam : str := Eval vm_compute in lit "AI 삼".
Definition text_sung : str := Eval vm_compute in lit "성".
Definition text_ai : str := Eval vm_compute in lit "AI".

(** C8, as stated, fails: the title "AI 삼성" matches two of the default
    keywords; with one more "AI" put between "삼" and "성" it matches one. *)
Lemma keyword_inside_title_lowers_score :
  In text_ai default_keywords
  /\ text_ai_samsung = text_ai_sam ++ text_sung
  /\ article_score (U := ascii_unicode) default_keywords
       (headline text_ai_samsung) = 5 # 2
  /\ article_score (U := ascii_unicode) default_keywords
       (headline (text_ai_sam ++ text_ai ++ text_sung)) = 3 # 2
  /\ article_score (U := ascii_unicode) default_keywords
       (headline (text_ai_sam ++ text_ai ++ text_sung))
     < article_score (U := ascii_unicode) default_keywords
         (headline text_ai_samsung).
Proof.
  split; [vm_compute; tauto|].
  split; [reflexivity|].
  split; [reflexivity|].
  split; [reflexivity|].
  reflexivity.
Qed.

(** C8, amended.  Text put in front of and behind a title, an occurrence of
    a keyword in particular, never lowers the score, as long as lowercasing
    the longer title lowercases the pieces one by one. *)
Theorem score_monotone_around {U : Unicode} (keywords : list str)
    (a a' : article) (before after : str) :
  title a' = before ++ title a ++ after ->
  lower (title a') = lower before ++ lower (title a) ++ lower after ->
  article_score keywords a <= article_score keywords a'.
Proof.
  intros _ Hl. rewrite !article_score_relevance.
  apply relevance_mono. intros k Hk. rewrite Hl.
  now apply contains_within.
Qed.

Lemma score_monotone_around_witness :
  article_score (U := ascii_unicode) default_keywords (headline text_sung)
  <= article_score (U := ascii_unicode) default_keywords
       (headline (text_ai ++ text_sung ++ text_ai)).
Proof.
  apply (score_monotone_around (U := ascii_unicode) default_keywords
           (headline text_sung) (headline (text_ai ++ text_sung ++ text_ai))
           text_ai text_ai); reflexivity.
Defined.

(** ** Beyond the claims: thresholds and a second pass *)

Lemma relevance_bounds {U : Unicode} (keywords : list str) (t : str) :
  1 # 2 <= relevance keywords t
  /\ relevance keywords t <= inject_Z (len keywords) + (1 # 2).
Proof.
  unfold relevance, matching_keywords, len. split.
  - rewrite <- (Qplus_0_l (1 # 2)) at 1. apply Qplus_le_l.
    change 0 with (inject_Z 0). rewrite <- Zle_Qle. lia.
  - apply Qplus_le_l. rewrite <- Zle_Qle. apply inj_le, filter_length_le.
Qed.

Lemma filter_all {A} (p : A -> bool) (l : list A) :
  (forall x, In x l -> p x = true) -> filter p l = l.
Proof.
  induction l as [|x l IH]; intros H; [reflexivity|].
  cbn [filter]. rewrite (H x) by now left.
  f_equal. apply IH. intros y Hy. apply H. now right.
Qed.

Lemma filter_none {A} (p : A -> bool) (l : list A) :
  (forall x, In x l -> p x = false) -> filter p l = [].
Proof.
  induction l as [|x l IH]; intros H; [reflexivity|].
  cbn [filter]. rewrite (H x) by now left.
  apply IH. intros y Hy. apply H. now right.
Qed.

(** X17. Every score lies between 0.5 and the number of keywords plus 0.5.  So a
    threshold of 0.5 or less, the default included, drops nothing: all the
    articles come back, reordered; and a threshold above the number of
    keywords plus 0.5 returns none, though the scores are written all the
    same. *)
Theorem thresholds_against_the_score_range {U : Unicode}
    (keywords : list str) (h : store) (articles : list loc)
    (min_relevance : Q) :
  exists h' out,
    filter_trending_news keywords h articles min_relevance = Return (h', out)
    /\ (forall r, 1 # 2 <= relevance keywords (title (h r))
                  /\ relevance keywords (title (h r))
                     <= inject_Z (len keywords) + (1 # 2))
    /\ (min_relevance <= 1 # 2 -> Permutation out articles)
    /\ (inject_Z (len keywords) + (1 # 2) < min_relevance ->
        out = []
        /\ forall r, In r articles ->
             relevance_score (h' r)
             = Some (relevance keywords (title (h r)))).
Proof.
  destruct (score_loop_spec keywords min_relevance articles h [])
    as (_ & _ & Hscore & _).
  eexists _, _. split; [apply filter_trending_news_eq|].
  split; [intros r; apply relevance_bounds|]. split.
  - intros Hmin. rewrite sorted_by_score_perm.
    rewrite filter_all; [reflexivity|].
    intros r _. unfold keeps. apply Qle_bool_iff.
    eapply Qle_trans; [exact Hmin | apply relevance_bounds].
  - intros Hmin. split; [|exact Hscore].
    rewrite filter_none; [reflexivity|].
    intros r _. unfold keeps.
    destruct (Qle_bool min_relevance (relevance keywords (title (h r))))
      eqn:E; [|reflexivity].
    apply Qle_bool_iff in E. exfalso.
    apply (Qlt_irrefl min_relevance).
    eapply Qle_lt_trans; [exact E|].
    eapply Qle_lt_trans; [apply relevance_bounds | exact Hmin].
Qed.

Lemma thresholds_against_the_score_range_witness :
  exists h' out,
    filter_trending_news (U := ascii_unicode) [samsung] example_store
      [1; 0; 1]%nat (1 # 2) = Return (h', out)
    /\ Permutation out [1; 0; 1]%nat.
Proof.
  destruct (thresholds_against_the_score_range (U := ascii_unicode) [samsung]
              example_store [1; 0; 1]%nat (1 # 2))
    as (h' & out & Hrun & _ & Hall & _).
  exists h', out. split; [exact Hrun|]. apply Hall. apply Qle_refl.
Defined.

(** *** Filtering what was filtered *)

Lemma insert_desc_front (x : Q * loc) (l : list (Q * loc)) :
  Forall (desc x) l -> insert_desc x l = x :: l.
Proof.
  destruct l as [|y l]; [reflexivity|]. intros H.
  inversion H as [|? ? Hy _]; subst. cbn [insert_desc].
  destruct (Qlt_bool (fst x) (fst y)) eqn:E; [|reflexivity].
  apply Qlt_bool_iff in E. unfold desc in Hy.
  exfalso. exact (Qlt_not_le _ _ E Hy).
Qed.

Lemma sort_desc_sorted_fixed (l : list (Q * loc)) :
  StronglySorted desc l -> sort_desc l = l.
Proof.
  induction 1 as [|x l _ IH Hx]; [reflexivity|].
  cbn [sort_desc]. rewrite IH. now apply insert_desc_front.
Qed.

Lemma sorted_by_score_fixed (s : loc -> Q) (l : list loc) :
  StronglySorted (fun r1 r2 => s r2 <= s r1) l -> sorted_by_score s l = l.
Proof.
  intros H. unfold sorted_by_score.
  rewrite sort_desc_sorted_fixed; [apply keyed_snd|].
  induction H as [|x l _ IH Hx]; [constructor|].
  cbn [keyed map]. constructor; [exact IH|].
  apply Forall_map. eapply Forall_impl; [|exact Hx].
  intros y Hy. exact Hy.
Qed.

Lemma article_eq (a b : article) :
  same_but_score a b -> relevance_score b = relevance_score a -> b = a.
Proof.
  destruct a, b. unfold same_but_score. cbn.
  intros (-> & -> & -> & -> & -> & ->) ->. reflexivity.
Qed.

(** X18. Filtering the result again changes nothing: with the same keywords and
    the same threshold, the list that came back comes back as it is, and no
    dictionary is altered by the second pass. *)
Theorem filter_trending_news_idempotent {U : Unicode} (keywords : list str)
    (h : store) (articles : list loc) (min_relevance : Q) :
  exists h' out,
    filter_trending_news keywords h articles min_relevance = Return (h', out)
    /\ exists h'',
         filter_trending_news keywords h' out min_relevance
         = Return (h'', out)
         /\ forall r, h'' r = h' r.
Proof.
  destruct (score_loop_spec keywords min_relevance articles h [])
    as (_ & Hframe & Hscore & _).
  set (h' := fst (score_loop keywords min_relevance articles h [])) in *.
  set (s := fun r => relevance keywords (title (h r))).
  set (out := sorted_by_score s (filter (keeps keywords min_relevance h)
                                   articles)).
  exists h', out. split; [apply filter_trending_news_eq|].
  assert (Ht : forall r, title (h' r) = title (h r))
    by (intros r; apply (Hframe r)).
  assert (Hin : forall r, In r out ->
                  In r articles /\ keeps keywords min_relevance h r = true).
  { intros r Hr. apply (Permutation_in _ (sorted_by_score_perm _ _)) in Hr.
    now apply filter_In in Hr. }
  destruct (score_loop_spec keywords min_relevance out h' [])
    as (_ & Hframe2 & Hscore2 & Hrest2).
  exists (fst (score_loop keywords min_relevance out h' [])). split.
  - rewrite filter_trending_news_eq. f_equal. f_equal.
    rewrite filter_all.
    + rewrite (sorted_by_score_fixed
                 (fun r => relevance keywords (title (h' r)))); [reflexivity|].
      eapply StronglySorted_ind
        with (P := StronglySorted
                     (fun r1 r2 => relevance keywords (title (h' r2))
                                   <= relevance keywords (title (h' r1))));
        [constructor | | apply (sorted_by_score_desc s)].
      intros a l _ IH Ha. constructor; [exact IH|].
      eapply Forall_impl; [|exact Ha]. intros b Hb. now rewrite !Ht.
    + intros r Hr. unfold keeps. rewrite Ht. apply (Hin r Hr).
  - intros r. destruct (in_dec Nat.eq_dec r out) as [Hr|Hr].
    + apply article_eq; [apply Hframe2|].
      rewrite (Hscore2 r Hr), Ht. symmetry. apply Hscore, (Hin r Hr).
    + now apply Hrest2.
Qed.

(** ** Collection *)

Definition well_formed (entry : feed_entry) : Prop :=
  entry_title entry <> None /\ entry_link entry <> None.

Lemma articles_of_entries_ok (kw : str) (entries : list feed_entry) :
  Forall well_formed entries ->
  exists articles,
    articles_of_entries kw entries = Return articles
    /\ map title articles
       = map (fun e => match entry_title e with Some t => t | None => [] end)
           entries
    /\ Forall (fun a => keyword a = Some kw
                        /\ source a = Some (lit "google_news")
                        /\ relevance_score a = None) articles.
Proof.
  induction 1 as [|e entries [Ht Hl] _ (articles & IH & Hm & Hf)].
  - exists []. repeat split. constructor.
  - cbn [articles_of_entries]. unfold article_of_entry.
    destruct (entry_title e) as [t|] eqn:Et; [|now elim Ht].
    destruct (entry_link e) as [l|]; [|now elim Hl].
    cbn [bind]. rewrite IH. cbn [bind].
    eexists. split; [reflexivity|]. split.
    + cbn [map title]. now rewrite Hm, Et.
    + constructor; [repeat split | exact Hf].
Qed.

Lemma articles_of_entries_malformed (kw : str) (entries : list feed_entry) :
  Exists (fun e => ~ well_formed e) entries ->
  exists e, articles_of_entries kw entries = Raise e.
Proof.
  induction entries as [|x entries IH]; intros H.
  - inversion H.
  - cbn [articles_of_entries]. unfold article_of_entry.
    destruct (entry_title x) as [t|] eqn:Et; [|eexists; reflexivity].
    destruct (entry_link x) as [l|] eqn:El; [|eexists; reflexivity].
    cbn [bind]. inversion H as [? ? Hx|? ? Hrest]; subst.
    + exfalso. apply Hx. split; congruence.
    + destruct (IH Hrest) as [e ->]. now exists e.
Qed.

Section Feeds.
Variable parse_feed : str -> outcome (list feed_entry).

Lemma fetch_facts (kw : str) :
  (len (fetch_google_news_rss parse_feed kw) <= 10)%Z
  /\ Forall (fun a => keyword a = Some kw
                      /\ source a = Some (lit "google_news")
                      /\ relevance_score a = None)
       (fetch_google_news_rss parse_feed kw)
  /\ (forall e, parse_feed (google_news_url kw) = Raise e ->
        fetch_google_news_rss parse_feed kw = [])
  /\ (forall entries,
        parse_feed (google_news_url kw) = Return entries ->
        (Forall well_formed (upto 10 entries) ->
         map title (fetch_google_news_rss parse_feed kw)
         = map (fun e => match entry_title e with
                         | Some t => t
                         | None => []
                         end) (upto 10 entries))
        /\ (Exists (fun e => ~ well_formed e) (upto 10 entries) ->
            fetch_google_news_rss parse_feed kw = [])).
Proof.
  assert (Dec : forall entries : list feed_entry,
             Forall well_formed entries
             \/ Exists (fun e => ~ well_formed e) entries).
  { induction entries as [|e entries [IH|IH]].
    - left. constructor.
    - destruct (entry_title e) eqn:Et; [destruct (entry_link e) eqn:El|].
      + left. constructor; [split; congruence | exact IH].
      + right. left. intros [_ H]. now apply H.
      + right. left. intros [H _]. now apply H.
    - right. now right. }
  unfold fetch_google_news_rss.
  destruct (parse_feed (google_news_url kw)) as [entries|e]; cbn [bind].
  - assert (L : (length (upto 10 entries) <= 10)%nat)
      by apply firstn_le_length.
    destruct (Dec (upto 10 entries)) as [Hw|Hm].
    + destruct (articles_of_entries_ok kw _ Hw) as (articles & -> & Hmap & Hf).
      assert (La : length articles = length (upto 10 entries)).
      { rewrite <- (length_map title), Hmap. apply length_map. }
      split; [unfold len; lia|]. split; [exact Hf|].
      split; [discriminate|].
      intros entries' E. injection E as <-. split; [now intros _|].
      intros Hm. destruct (articles_of_entries_malformed kw _ Hm) as [e E'].
      destruct (articles_of_entries_ok kw _ Hw) as (a' & E'' & _).
      congruence.
    + destruct (articles_of_entries_malformed kw _ Hm) as [e ->].
      split; [unfold len; simpl; lia|]. split; [constructor|].
      split; [discriminate|].
      intros entries' E. injection E as <-. split; [|reflexivity].
      intros Hw. destruct (articles_of_entries_ok kw _ Hw) as (a' & E'' & _).
      destruct (articles_of_entries_malformed kw _ Hm) as [e' E'].
      congruence.
  - split; [unfold len; simpl; lia|]. split; [constructor|].
    split; [reflexivity|]. discriminate.
Qed.

(** X19. One keyword gives at most ten articles, one for each of the first ten
    entries of its feed and in their order, each tagged with the keyword and
    the source "google_news" and carrying no score yet.  It is all or
    nothing: when the feed cannot be fetched, or one of those ten entries has
    no title or no link, the keyword gives no article at all; entries after
    the tenth are never looked at. *)
Theorem fetch_google_news_rss_spec (kw : str) :
  (len (fetch_google_news_rss parse_feed kw) <= 10)%Z
  /\ Forall (fun a => keyword a = Some kw
                      /\ source a = Some (lit "google_news")
                      /\ relevance_score a = None)
       (fetch_google_news_rss parse_feed kw)
  /\ (forall e, parse_feed (google_news_url kw) = Raise e ->
        fetch_google_news_rss parse_feed kw = [])
  /\ (forall entries,
        parse_feed (google_news_url kw) = Return entries ->
        (Forall well_formed (upto 10 entries) ->
         map title (fetch_google_news_rss parse_feed kw)
         = map (fun e => match entry_title e with
                         | Some t => t
                         | None => []
                         end) (upto 10 entries))
        /\ (Exists (fun e => ~ well_formed e) (upto 10 entries) ->
            fetch_google_news_rss parse_feed kw = [])).
Proof. apply fetch_facts. Qed.

(** X20. Collection never fails as a whole and never deduplicates: the result is
    the concatenation, in keyword order, of what each keyword gives, so a
    keyword whose feed fails takes nothing away from the others, a keyword
    listed twice is fetched twice, and there are at most ten articles per
    keyword. *)
Theorem collect_all_news_spec (keywords more : list str) :
  collect_all_news parse_feed (keywords ++ more)
  = collect_all_news parse_feed keywords ++ collect_all_news parse_feed more
  /\ collect_all_news parse_feed keywords
     = concat (map (fetch_google_news_rss parse_feed) keywords)
  /\ (len (collect_all_news parse_feed keywords) <= 10 * len keywords)%Z
  /\ (forall a, In a (collect_all_news parse_feed keywords) ->
        exists kw, In kw keywords /\ keyword a = Some kw
                   /\ source a = Some (lit "google_news"))
  /\ (forall kw,
        (exists e, parse_feed (google_news_url kw) = Raise e) ->
        collect_all_news parse_feed (keywords ++ kw :: more)
        = collect_all_news parse_feed (keywords ++ more)).
Proof.
  assert (App : forall k1 k2,
             collect_all_news parse_feed (k1 ++ k2)
             = collect_all_news parse_feed k1
               ++ collect_all_news parse_feed k2).
  { induction k1 as [|k k1 IH]; intros k2; [reflexivity|].
    cbn [app collect_all_news]. now rewrite IH, app_assoc. }
  split; [apply App|]. split; [|split; [|split]].
  - induction keywords as [|k ks IH]; [reflexivity|].
    cbn [collect_all_news map concat]. now rewrite IH.
  - induction keywords as [|k ks IH]; [unfold len; simpl; lia|].
    cbn [collect_all_news]. unfold len in *. rewrite length_app.
    destruct (fetch_facts k) as (Hk & _).
    unfold len in Hk. cbn [length]. lia.
  - induction keywords as [|k ks IH]; [intros a []|].
    cbn [collect_all_news]. intros a Ha. apply in_app_or in Ha as [Ha|Ha].
    + destruct (fetch_facts k) as (_ & Hf & _).
      rewrite Forall_forall in Hf. destruct (Hf a Ha) as (Hk & Hs & _).
      exists k. split; [now left|]. now split.
    + destruct (IH a Ha) as (kw & Hin & Hk). exists kw.
      split; [now right | exact Hk].
  - intros kw [e He]. rewrite !App. cbn [collect_all_news].
    destruct (fetch_facts kw) as (_ & _ & Hraise & _).
    now rewrite (Hraise e He).
Qed.

End Feeds.

Definition entry_of (t l : String.string) : feed_entry :=
  {| entry_title := Some (lit t); entry_summary := None;
     entry_link := Some (lit l); entry_published := None |}.

Definition broken_entry : feed_entry :=
  {| entry_title := Some (lit "no link"); entry_summary := None;
     entry_link := None; entry_published := None |}.

(** A feed that is down for the keyword "AI", holds an entry without link
    for "쿠팡", and two good entries for anything else. *)
Definition sample_feeds (url : str) : outcome (list feed_entry) :=
  if str_eqb url (google_news_url (lit "AI"))
  then Raise (Exception (lit "timed out"))
  else if str_eqb url (google_news_url (lit "쿠팡"))
  then Return [entry_of "a" "http://a"; broken_entry]
  else Return [entry_of "a" "http://a"; entry_of "b" "http://b"].

Lemma fetch_google_news_rss_spec_witness :
  fetch_google_news_rss sample_feeds (lit "쿠팡") = []
  /\ map title (fetch_google_news_rss sample_feeds (lit "삼성"))
     = [lit "a"; lit "b"].
Proof.
  split.
  - destruct (fetch_google_news_rss_spec sample_feeds (lit "쿠팡"))
      as (_ & _ & _ & H).
    apply (H [entry_of "a" "http://a"; broken_entry] eq_refl).
    right. left. intros [_ Hl]. now apply Hl.
  - destruct (fetch_google_news_rss_spec sample_feeds (lit "삼성"))
      as (_ & _ & _ & H).
    apply (H [entry_of "a" "http://a"; entry_of "b" "http://b"] eq_refl).
    repeat constructor; discriminate.
Defined.

Lemma collect_all_news_spec_witness :
  collect_all_news sample_feeds ([lit "삼성"] ++ lit "AI" :: [lit "현대"])
  = collect_all_news sample_feeds ([lit "삼성"] ++ [lit "현대"]).
Proof.
  apply (collect_all_news_spec sample_feeds [lit "삼성"] [lit "현대"]).
  exists (Exception (lit "timed out")). reflexivity.
Defined.

End NewsCollectorFacts.

(* ================================================================== *)
(** * The content generator: parsing and fallback *)
(* ================================================================== *)

Module AIScriptGeneratorFacts.
Import Py PyFacts NewsCollector AIScriptGenerator.

Lemma str_eqb_eq (a b : str) : str_eqb a b = true <-> a = b.
Proof.
  unfold str_eqb. destruct (list_eq_dec N.eq_dec a b); split; congruence.
Qed.

(** ** [title.split('.', 1)[-1]] *)

Lemma split_scan_exhausted (sep s : str) :
  split_scan sep (Some O) 0 s = [s].
Proof. induction s as [|c s IH]; simpl; [reflexivity | now rewrite IH]. Qed.

Lemma split_at_first_dot (before after : str) :
  has_char DOT before = false ->
  split_scan [DOT] (Some 1%nat) 0 (before ++ DOT :: after) = [before; after].
Proof.
  induction before as [|c before IH]; intros H.
  - simpl. now rewrite split_scan_exhausted.
  - cbn [has_char existsb] in H. apply orb_false_elim in H as [Hc Hb].
    cbn [app split_scan may_split startswith andb].
    rewrite Hc. cbn [andb]. now rewrite (IH Hb).
Qed.

Lemma has_char_first (c : codepoint) (s : str) :
  has_char c s = true ->
  exists before after, s = before ++ c :: after /\ has_char c before = false.
Proof.
  induction s as [|x s IH]; [discriminate|].
  cbn [has_char existsb]. destruct (N.eqb_spec c x) as [->|Hne].
  - intros _. now exists [], s.
  - cbn [orb]. intros H. destruct (IH H) as (b & a & -> & Hb).
    exists (x :: b), a. split; [reflexivity|].
    cbn [has_char existsb]. apply N.eqb_neq in Hne. now rewrite Hne.
Qed.

(** The prefix is removed exactly when a dot is among the first five
    characters; what is kept is the text after the first dot. *)
Lemma strip_number_no_dot (t : str) :
  has_char DOT (upto 5 t) = false -> strip_number t = t.
Proof. unfold strip_number. now intros ->. Qed.

Lemma strip_number_dot (t : str) :
  has_char DOT (upto 5 t) = true ->
  exists before after,
    t = before ++ DOT :: after /\ has_char DOT before = false
    /\ (length before < 5)%nat /\ strip_number t = strip after.
Proof.
  intros H. unfold strip_number. rewrite H.
  destruct (has_char_first _ _ H) as (b & a & Hsplit & Hb).
  exists b, (a ++ skipn 5 t).
  assert (Ht : t = b ++ DOT :: a ++ skipn 5 t).
  { rewrite <- (firstn_skipn 5 t) at 1. unfold upto in Hsplit.
    rewrite Hsplit, <- app_assoc. reflexivity. }
  split; [exact Ht|]. split; [exact Hb|]. split.
  - assert (L : (length (upto 5 t) <= 5)%nat) by apply firstn_le_length.
    rewrite Hsplit, length_app in L. simpl in L. lia.
  - unfold split_max. rewrite Ht at 1.
    rewrite (split_at_first_dot b _ Hb). reflexivity.
Qed.

Lemma keeps_line_iff {U : Unicode} (line : str) :
  keeps_line line = true <->
  strip line <> [] /\ exists c, In c (upto 3 line) /\ isdigit c = true.
Proof.
  unfold keeps_line. destruct (strip line) as [|x s].
  - split; [discriminate | intros [H _]; now elim H].
  - rewrite existsb_exists. split.
    + intros H. split; [discriminate | exact H].
    + now intros [_ H].
Qed.

(** ** The fallback *)

Definition non_2xx (code : Z) : Prop := (code < 200 \/ 299 < code)%Z.

(** The backend call ends in a transport exception or a non-2xx status. *)
Definition backend_fails (o : outcome response) : Prop :=
  match o with
  | Raise _ => True
  | Return resp => non_2xx (status_code resp)
  end.

Section Fallback.
Context {U : Unicode}.
Variable post : request -> outcome response.
Hypothesis post_fails : forall req, backend_fails (post req).

Lemma call_backend_falls_back (req : request) (extract : json -> option json)
    (prompt : str) :
  call_backend post req extract prompt = JStr (_call_mock prompt).
Proof.
  unfold call_backend. pose proof (post_fails req) as H.
  destruct (post req) as [resp|e]; [|reflexivity].
  destruct (Z.eqb_spec (status_code resp) 200) as [E|_]; [|reflexivity].
  unfold backend_fails, non_2xx in H. lia.
Qed.

Lemma _call_ai_api_falls_back (g : generator) (prompt : str) :
  _call_ai_api post g prompt = JStr (_call_mock prompt).
Proof.
  unfold _call_ai_api, _call_openai, _call_gemini, _call_anthropic.
  repeat match goal with
         | |- context [if ?b then _ else _] => destruct b
         end;
    auto using call_backend_falls_back.
Qed.

End Fallback.

(** A generator whose service name is none of the three backends. *)
Definition offline (g : generator) : generator :=
  {| api_key := api_key g; service := lit "mock" |}.

Lemma _call_ai_api_offline (post : request -> outcome response)
    (g : generator) (prompt : str) :
  _call_ai_api post (offline g) prompt = JStr (_call_mock prompt).
Proof. reflexivity. Qed.

(** ** Thumbnail titles *)

Definition parenthesised_titles : str :=
  Eval vm_compute in text [lit "1) 속보"; lit "2) 단독"].

(** A backend that answers every request with status 200 and [content] at
    the place where [_call_openai] looks for it. *)
Definition openai_answers (content : str) (_ : request) : outcome response :=
  Return
    {| status_code := 200;
       json_body :=
         Some (jobj [("choices",
                      JArr [jobj [("message",
                                   jobj [("content", JStr content)])]])]) |}.

Definition openai_generator : generator :=
  {| api_key := Some (lit "sk-test"); service := lit "openai" |}.

(** C2, as stated, fails: lines numbered "1)" and "2)" are kept, and come
    back with the numeral and the parenthesis still in front. *)
Lemma numeral_prefix_survives_without_dot :
  parse_titles (U := ascii_unicode) parenthesised_titles 10
  = [lit "1) 속보"; lit "2) 단독"]
  /\ generate_thumbnail_titles (U := ascii_unicode)
       (openai_answers parenthesised_titles) openai_generator
       (NewsCollectorFacts.headline (lit "속보")) 10
     = Return [lit "1) 속보"; lit "2) 단독"].
Proof. split; reflexivity. Qed.

(** C2, amended.  A line is kept when it is not blank and one of its first
    three characters is a digit; from a response with N such lines and
    [count = 10] exactly min(N, 10) entries come back, in order, one per
    kept line and none for any other line.  An entry is the stripped line;
    only when a dot is among its first five characters is the entry cut down
    to the stripped text after the first dot, and otherwise it is returned
    whole, numeral included. *)
Theorem parse_titles_spec {U : Unicode} (response : str) :
  let kept := filter keeps_line (split [NL] response) in
  length (parse_titles response 10) = Nat.min (length kept) 10
  /\ parse_titles response 10
     = firstn 10 (map (fun line => strip_number (strip line)) kept)
  /\ (forall line,
        keeps_line line = true <->
        strip line <> []
        /\ exists c, In c (upto 3 line) /\ isdigit c = true)
  /\ (forall t, has_char DOT (upto 5 t) = false -> strip_number t = t)
  /\ (forall t, has_char DOT (upto 5 t) = true ->
        exists before after,
          t = before ++ DOT :: after /\ has_char DOT before = false
          /\ (length before < 5)%nat /\ strip_number t = strip after)
  /\ (forall post g a,
        _call_ai_api post g (thumbnail_titles_prompt a 10) = JStr response ->
        generate_thumbnail_titles post g a 10
        = Return (parse_titles response 10)).
Proof.
  cbv zeta.
  assert (E : parse_titles response 10
              = firstn 10 (map (fun line => strip_number (strip line))
                             (filter keeps_line (split [NL] response)))).
  { unfold parse_titles. now rewrite map_map. }
  split; [|split; [exact E|split; [|split; [|split]]]].
  - rewrite E, length_firstn, length_map. apply Nat.min_comm.
  - apply keeps_line_iff.
  - apply strip_number_no_dot.
  - apply strip_number_dot.
  - intros post g a H. unfold generate_thumbnail_titles. now rewrite H.
Qed.

Lemma parse_titles_spec_witness :
  (exists before after,
      lit "10. 반드시 알아야 할" = before ++ DOT :: after
      /\ has_char DOT before = false /\ (length before < 5)%nat
      /\ strip_number (lit "10. 반드시 알아야 할") = strip after)
  /\ generate_thumbnail_titles (U := ascii_unicode)
       (openai_answers parenthesised_titles) openai_generator
       (NewsCollectorFacts.headline (lit "속보")) 10
     = Return (parse_titles (U := ascii_unicode) parenthesised_titles 10).
Proof.
  destruct (parse_titles_spec (U := ascii_unicode) parenthesised_titles)
    as (_ & _ & _ & _ & Hdot & Hgen).
  split.
  - apply Hdot. reflexivity.
  - apply Hgen. reflexivity.
Defined.

(** ** No failure reaches the caller *)

(** C5. Whatever the article, when the backend call ends in a transport
    exception or a non-2xx status, each of the three operations returns, and
    returns what it computes from the canned offline text: the same result
    as a generator with no backend configured at all. *)
Theorem content_generator_falls_back {U : Unicode}
    (post : request -> outcome response) (g : generator) (now : str)
    (a : article) (script : str) (count : Z) :
  (forall req, backend_fails (post req)) ->
  generate_youtube_script post g now a
  = {| article_title := NewsCollector.title a;
       AIScriptGenerator.script := JStr (_call_mock (youtube_script_prompt a));
       estimated_duration := lit "8-10분";
       generated_at := now |}
  /\ generate_thumbnail_titles post g a count
     = Return (parse_titles (_call_mock (thumbnail_titles_prompt a count))
                 count)
  /\ generate_video_metadata post g a script
     = Return (parse_metadata (_call_mock (video_metadata_prompt a script)))
  /\ (forall post',
        generate_youtube_script post g now a
        = generate_youtube_script post' (offline g) now a
        /\ generate_thumbnail_titles post g a count
           = generate_thumbnail_titles post' (offline g) a count
        /\ generate_video_metadata post g a script
           = generate_video_metadata post' (offline g) a script).
Proof.
  intros Hfail.
  assert (F : forall prompt, _call_ai_api post g prompt
                             = JStr (_call_mock prompt))
    by (intros; now apply _call_ai_api_falls_back).
  unfold generate_youtube_script, generate_thumbnail_titles,
    generate_video_metadata.
  rewrite !F. repeat split.
Qed.

Definition unreachable (_ : request) : outcome response :=
  Raise (Exception (lit "Connection refused")).

Definition bad_gateway (_ : request) : outcome response :=
  Return {| status_code := 502; json_body := None |}.

Lemma content_generator_falls_back_witness :
  generate_thumbnail_titles (U := ascii_unicode) unreachable openai_generator
    (NewsCollectorFacts.headline (lit "속보")) 10
  = generate_thumbnail_titles (U := ascii_unicode) bad_gateway
      (offline openai_generator) (NewsCollectorFacts.headline (lit "속보")) 10.
Proof.
  apply (content_generator_falls_back (U := ascii_unicode) unreachable
           openai_generator [] (NewsCollectorFacts.headline (lit "속보"))
           [] 10).
  intros req. exact I.
Defined.

(** Every prompt names the article title with the word "제목", which is the
    first thing [_call_mock] looks for: the offline text is the list of
    thumbnail titles for all three operations. *)
Lemma offline_text_is_the_title_list (a : article) (script : str) (count : Z) :
  _call_mock (youtube_script_prompt a) = mock_titles_text
  /\ _call_mock (thumbnail_titles_prompt a count) = mock_titles_text
  /\ _call_mock (video_metadata_prompt a script) = mock_titles_text.
Proof.
  assert (H : forall p, contains kw_title p = true ->
                        _call_mock p = mock_titles_text).
  { intros p Hp. unfold _call_mock. rewrite Hp. now rewrite orb_true_r. }
  split; [|split]; apply H.
  - unfold youtube_script_prompt. now apply contains_app_l.
  - unfold thumbnail_titles_prompt. now apply contains_app_l.
  - unfold video_metadata_prompt. now apply contains_app_l.
Qed.

(** With the offline text, ten titles come back and the metadata is empty. *)
Lemma offline_results (a : article) (script : str) :
  generate_thumbnail_titles (U := ascii_unicode) unreachable openai_generator
    a 10
  = Return [lit "이거 실화인가요?"; lit "충격! 00억 날렸다";
            lit "결국 터졌습니다"; lit "알고 보니 대박";
            lit "지금 당장 확인하세요"; lit "99% 모르는 사실";
            lit "뒤늦은 후회"; lit "전문가도 놀란";
            lit "이제야 밝혀진 진실"; lit "반드시 알아야 할"]
  /\ generate_video_metadata unreachable openai_generator a script
     = Return empty_metadata.
Proof.
  destruct (offline_text_is_the_title_list a script 10) as (_ & Ht & Hm).
  assert (F : forall prompt, _call_ai_api unreachable openai_generator prompt
                             = JStr (_call_mock prompt))
    by (intros; apply _call_ai_api_falls_back; intros req; exact I).
  unfold generate_thumbnail_titles, generate_video_metadata.
  rewrite !F, Ht, Hm. split; reflexivity.
Qed.

(** ** Beyond the fallback: what else the generator does *)

(** *** Stripped text *)

Definition no_leading_space (s : str) : Prop :=
  match s with
  | [] => True
  | c :: _ => isspace c = false
  end.

Lemma lstrip_no_leading_space (s : str) : no_leading_space (lstrip s).
Proof.
  induction s as [|c s IH]; simpl; [exact I|].
  destruct (isspace c) eqn:E; [exact IH | exact E].
Qed.

Lemma lstrip_fixed (s : str) : no_leading_space s -> lstrip s = s.
Proof. destruct s as [|c s]; simpl; [reflexivity | now intros ->]. Qed.

Lemma rstrip_no_leading_space (s : str) :
  no_leading_space s -> no_leading_space (rstrip s).
Proof.
  destruct s as [|c s]; simpl; [auto|]. intros H.
  destruct (rstrip s); [rewrite H|]; exact H.
Qed.

Lemma rstrip_idempotent (s : str) : rstrip (rstrip s) = rstrip s.
Proof.
  induction s as [|c s IH]; [reflexivity|]. cbn [rstrip].
  destruct (rstrip s) as [|x r] eqn:E.
  - destruct (isspace c) eqn:Ec; [reflexivity|]. simpl. now rewrite Ec.
  - remember (x :: r) as y eqn:Ey. cbn [rstrip]. rewrite IH.
    now subst y.
Qed.

Lemma strip_idempotent (s : str) : strip (strip s) = strip s.
Proof.
  unfold strip.
  rewrite (lstrip_fixed (rstrip (lstrip s))).
  - apply rstrip_idempotent.
  - apply rstrip_no_leading_space, lstrip_no_leading_space.
Qed.

Lemma strip_number_stripped (t : str) :
  strip t = t -> strip (strip_number t) = strip_number t.
Proof.
  intros H. unfold strip_number.
  destruct (has_char DOT (upto 5 t)); [apply strip_idempotent | exact H].
Qed.

Lemma in_slice_to {A} (n : Z) (l : list A) (x : A) :
  In x (slice_to n l) -> In x l.
Proof.
  unfold slice_to. destruct (0 <=? n)%Z; intros H;
    match type of H with
    | In _ (firstn ?k _) =>
        rewrite <- (firstn_skipn k l); apply in_or_app; left; exact H
    end.
Qed.

(** X1. Whatever the response and the count, no title comes back with blanks
    around it, and a count that is not negative bounds their number. *)
Theorem thumbnail_titles_are_stripped {U : Unicode} (response : str)
    (count : Z) :
  (forall t, In t (parse_titles response count) -> strip t = t)
  /\ ((0 <= count)%Z -> (len (parse_titles response count) <= count)%Z)
  /\ parse_titles response 0 = [].
Proof.
  split; [|split].
  - intros t Ht. unfold parse_titles in Ht. apply in_slice_to in Ht.
    apply in_map_iff in Ht as (x & <- & Hx).
    apply in_map_iff in Hx as (line & <- & _).
    apply strip_number_stripped, strip_idempotent.
  - intros H. unfold len, parse_titles.
    rewrite slice_to_length by exact H. lia.
  - reflexivity.
Qed.

Lemma thumbnail_titles_are_stripped_witness :
  (len (parse_titles (U := ascii_unicode) mock_titles_text 3) <= 3)%Z.
Proof.
  apply (thumbnail_titles_are_stripped (U := ascii_unicode)
           mock_titles_text 3).
  lia.
Defined.

(** *** The offline text *)

Definition ten_titles : list str :=
  Eval vm_compute in
    [lit "이거 실화인가요?"; lit "충격! 00억 날렸다"; lit "결국 터졌습니다";
     lit "알고 보니 대박"; lit "지금 당장 확인하세요"; lit "99% 모르는 사실";
     lit "뒤늦은 후회"; lit "전문가도 놀란"; lit "이제야 밝혀진 진실";
     lit "반드시 알아야 할"].

Definition ascii_digit (c : codepoint) : Prop := (48 <= c <= 57)%N.

Lemma starts_with_digit_kept {U : Unicode} (c : codepoint) (rest : str) :
  isdigit c = true -> strip (c :: rest) <> [] ->
  keeps_line (c :: rest) = true.
Proof.
  intros Hc Hs. unfold keeps_line.
  destruct (strip (c :: rest)); [now elim Hs|].
  unfold upto. cbn [firstn existsb]. now rewrite Hc.
Qed.

Lemma canned_titles_parsed {U : Unicode} :
  (forall c, ascii_digit c -> isdigit c = true) ->
  parse_titles mock_titles_text 10 = ten_titles.
Proof.
  intros Hd. unfold parse_titles.
  let lines := eval vm_compute in (split [NL] mock_titles_text) in
  change (split [NL] mock_titles_text) with lines.
  cbn [filter].
  repeat match goal with
         | |- context [keeps_line (?c :: ?rest)] =>
             first
               [ rewrite (starts_with_digit_kept c rest)
                   by (first [apply Hd; unfold ascii_digit; lia
                             | vm_compute; discriminate])
               | change (keeps_line (c :: rest)) with false ]
         | |- context [keeps_line []] => change (keeps_line []) with false
         end.
  vm_compute. reflexivity.
Qed.

(** X2. Each of the three prompts holds the word "제목", the first thing
    [_call_mock] looks for.  So when the backend fails, whichever operation
    asks, the text used is the canned list of thumbnail titles: the script is
    that list, the metadata has no field at all, and (for a digit table that
    knows the ASCII digits) the ten canned titles come back. *)
Theorem fallback_text_is_always_the_title_list {U : Unicode}
    (post : request -> outcome response) (g : generator) (now : str)
    (a : article) (script : str) :
  (forall req, backend_fails (post req)) ->
  (forall c, ascii_digit c -> isdigit c = true) ->
  AIScriptGenerator.script (generate_youtube_script post g now a)
  = JStr mock_titles_text
  /\ generate_video_metadata post g a script = Return empty_metadata
  /\ generate_thumbnail_titles post g a 10 = Return ten_titles.
Proof.
  intros Hfail Hd.
  destruct (offline_text_is_the_title_list a script 10) as (Hs & Ht & Hm).
  assert (F : forall prompt, _call_ai_api post g prompt
                             = JStr (_call_mock prompt))
    by (intros; now apply _call_ai_api_falls_back).
  unfold generate_youtube_script, generate_thumbnail_titles,
    generate_video_metadata.
  rewrite !F, Hs, Ht, Hm. cbn [AIScriptGenerator.script as_str bind].
  split; [reflexivity|]. split; [reflexivity|].
  now rewrite canned_titles_parsed.
Qed.

Lemma fallback_text_is_always_the_title_list_witness :
  generate_thumbnail_titles (U := ascii_unicode) bad_gateway openai_generator
    (NewsCollectorFacts.headline (lit "속보")) 10 = Return ten_titles.
Proof.
  apply (fallback_text_is_always_the_title_list (U := ascii_unicode)
           bad_gateway openai_generator [] _ []).
  - intros req. simpl. unfold non_2xx. lia.
  - intros c [H1 H2]. simpl.
    apply andb_true_iff. split; apply N.leb_le; assumption.
Defined.

(** *** A 200 that cannot be read *)

(** The place the call of the configured service reads in a decoded body;
    a service that is none of the three calls no backend. *)
Definition content_of (g : generator) (body : json) : option json :=
  if str_eqb (service g) (lit "openai") then openai_content body
  else if str_eqb (service g) (lit "gemini") then gemini_content body
  else if str_eqb (service g) (lit "anthropic") then anthropic_content body
  else None.

(** The answer cannot be read: the body did not decode, or the walk to the
    content fails on the way, because a key is missing, a list is empty or
    a value is not of the kind the next step indexes. *)
Definition unreadable (g : generator) (b : option json) : Prop :=
  opt_bind b (content_of g) = None.

Lemma call_backend_unreadable (post : request -> outcome response)
    (req : request) (extract : json -> option json) (prompt : str) :
  (forall resp, post req = Return resp ->
     opt_bind (json_body resp) extract = None) ->
  call_backend post req extract prompt = JStr (_call_mock prompt).
Proof.
  intros H. unfold call_backend.
  destruct (post req) as [resp|e]; [|reflexivity].
  rewrite (H resp eq_refl). now destruct (status_code resp =? 200)%Z.
Qed.

(** Some bodies that cannot be read, whichever service is configured: one
    that did not decode, and one that has none of the three keys the calls
    start from, such as an error object, an empty object or a list. *)
Lemma undecoded_is_unreadable (g : generator) : unreadable g None.
Proof. reflexivity. Qed.

Lemma no_expected_key_is_unreadable (g : generator) (body : json) :
  item (lit "choices") body = None ->
  item (lit "candidates") body = None ->
  item (lit "content") body = None ->
  unreadable g (Some body).
Proof.
  intros H1 H2 H3. unfold unreadable, content_of, opt_bind,
    openai_content, gemini_content, anthropic_content.
  rewrite H1, H2, H3.
  now repeat match goal with
             | |- context [if ?c then _ else _] => destruct c
             end.
Qed.

(** An empty list of choices cannot be read either. *)
Lemma no_choice_is_unreadable (g : generator) (rest : list (str * json)) :
  service g = lit "openai" ->
  unreadable g (Some (JObj ((lit "choices", JArr []) :: rest))).
Proof.
  intros H. unfold unreadable, content_of. rewrite H. reflexivity.
Qed.

(** X3. Status 200 does not protect from the fallback: when the body of the
    answer does not decode, or the content is not where the call of the
    configured service reads it (a key on the way is missing, as in an error
    object, or a list on the way is empty), the exception raised while
    reading it is swallowed and the offline text is used, for each of the
    three backends. *)
Theorem unreadable_success_falls_back (post : request -> outcome response)
    (g : generator) (prompt : str) :
  (forall req resp, post req = Return resp -> unreadable g (json_body resp)) ->
  _call_ai_api post g prompt = JStr (_call_mock prompt).
Proof.
  intros H. unfold unreadable, content_of in H.
  unfold _call_ai_api, _call_openai, _call_gemini, _call_anthropic.
  destruct (str_eqb (service g) (lit "openai"));
    [apply call_backend_unreadable; intros resp Hp; exact (H _ resp Hp)|].
  destruct (str_eqb (service g) (lit "gemini"));
    [apply call_backend_unreadable; intros resp Hp; exact (H _ resp Hp)|].
  destruct (str_eqb (service g) (lit "anthropic"));
    [apply call_backend_unreadable; intros resp Hp; exact (H _ resp Hp)|].
  reflexivity.
Qed.

(** An answer of status 200 whose body is an error object. *)
Definition error_body : json :=
  jobj [("error", jobj [("message", JStr (lit "quota exceeded"));
                        ("code", JInt 429)])].

Definition error_in_success (_ : request) : outcome response :=
  Return {| status_code := 200; json_body := Some error_body |}.

Lemma unreadable_success_falls_back_witness :
  _call_ai_api error_in_success openai_generator (lit "제목")
  = JStr mock_titles_text.
Proof.
  apply (unreadable_success_falls_back error_in_success openai_generator
           (lit "제목")).
  intros req resp H. injection H as <-.
  apply no_expected_key_is_unreadable; reflexivity.
Defined.

(** *** A 200 that can be read *)

(** Every request is answered with status 200 and a body, whatever else it
    holds, in which the call of the configured service finds [content]. *)
Definition answers (post : request -> outcome response) (g : generator)
    (content : json) : Prop :=
  forall req, exists resp,
    post req = Return resp
    /\ status_code resp = 200%Z
    /\ opt_bind (json_body resp) (content_of g) = Some content.

Ltac read_content Hc :=
  match type of Hc with
  | _ = ?v =>
      match goal with
      | |- context [opt_bind (json_body ?resp) ?f] =>
          change (opt_bind (json_body resp) f = v) in Hc;
          now rewrite Hc
      end
  end.

Lemma _call_ai_api_content (post : request -> outcome response)
    (g : generator) (content : json) (prompt : str) :
  answers post g content -> _call_ai_api post g prompt = content.
Proof.
  intros H. unfold answers, content_of in H.
  unfold _call_ai_api, _call_openai, _call_gemini, _call_anthropic,
    call_backend.
  destruct (str_eqb (service g) (lit "openai"));
    [match goal with
     | |- context [post ?r] => destruct (H r) as (resp & -> & -> & Hc)
     end; cbn [Z.eqb Pos.eqb]; read_content Hc|].
  destruct (str_eqb (service g) (lit "gemini"));
    [match goal with
     | |- context [post ?r] => destruct (H r) as (resp & -> & -> & Hc)
     end; cbn [Z.eqb Pos.eqb]; read_content Hc|].
  destruct (str_eqb (service g) (lit "anthropic"));
    [match goal with
     | |- context [post ?r] => destruct (H r) as (resp & -> & -> & Hc)
     end; cbn [Z.eqb Pos.eqb]; read_content Hc|].
  destruct (H {| url := []; headers := []; payload := JNull; timeout := 0 |})
    as (resp & _ & _ & Hc).
  destruct (json_body resp); discriminate.
Qed.

(** X4. Whatever text a backend answers with is taken as it is: it becomes the
    script unchanged, and the titles and the metadata are parsed from it; no
    length or structure is checked.  The body of the answer may hold
    anything besides: only the place the call reads counts. *)
Theorem backend_text_is_taken_verbatim {U : Unicode}
    (post : request -> outcome response) (g : generator) (now : str)
    (a : article) (script : str) (count : Z) (answer : str) :
  answers post g (JStr answer) ->
  AIScriptGenerator.script (generate_youtube_script post g now a)
  = JStr answer
  /\ generate_thumbnail_titles post g a count
     = Return (parse_titles answer count)
  /\ generate_video_metadata post g a script
     = Return (parse_metadata answer).
Proof.
  intros H.
  unfold generate_youtube_script, generate_thumbnail_titles,
    generate_video_metadata.
  rewrite !(_call_ai_api_content post g (JStr answer)) by exact H.
  repeat split.
Qed.

Definition gemini_generator : generator :=
  {| api_key := Some (lit "key"); service := lit "gemini" |}.

(** Bodies as the services send them, with the fields the calls do not
    read. *)
Definition gemini_reply (content : json) : json :=
  jobj [("candidates",
         JArr [jobj [("content",
                      jobj [("parts", JArr [jobj [("text", content)]]);
                            ("role", JStr (lit "model"))]);
                     ("finishReason", JStr (lit "STOP"));
                     ("index", JInt 0)]]);
        ("usageMetadata", jobj [("totalTokenCount", JInt 42)])].

Definition openai_reply (content : json) : json :=
  jobj [("id", JStr (lit "chatcmpl-1"));
        ("object", JStr (lit "chat.completion"));
        ("choices",
         JArr [jobj [("index", JInt 0);
                     ("message",
                      jobj [("role", JStr (lit "assistant"));
                            ("content", content)]);
                     ("finish_reason", JStr (lit "stop"))]]);
        ("usage", jobj [("total_tokens", JInt 42)])].

Definition gemini_says (content : json) (_ : request) : outcome response :=
  Return {| status_code := 200; json_body := Some (gemini_reply content) |}.

Definition openai_says (content : json) (_ : request) : outcome response :=
  Return {| status_code := 200; json_body := Some (openai_reply content) |}.

Lemma backend_text_is_taken_verbatim_witness :
  generate_video_metadata (gemini_says (JStr mock_metadata_text))
    gemini_generator (NewsCollectorFacts.headline (lit "속보")) []
  = Return (parse_metadata mock_metadata_text).
Proof.
  apply (backend_text_is_taken_verbatim (U := ascii_unicode)
           (gemini_says (JStr mock_metadata_text)) gemini_generator []
           (NewsCollectorFacts.headline (lit "속보")) [] 10
           mock_metadata_text).
  intros req. eexists. split; [reflexivity|]. split; reflexivity.
Defined.

Definition is_text (v : json) : Prop :=
  match v with
  | JStr _ => True
  | _ => False
  end.

(** X5. The component can fail after all: when a backend answers 200 with
    content that is not a string ([null], a number, a list), in a body that
    may hold anything besides, the script is that value as it is, and
    asking for titles or metadata raises. *)
Theorem non_text_content_raises {U : Unicode}
    (post : request -> outcome response) (g : generator) (now : str)
    (a : article) (script : str) (count : Z) (content : json) :
  answers post g content -> ~ is_text content ->
  AIScriptGenerator.script (generate_youtube_script post g now a) = content
  /\ (exists e, generate_thumbnail_titles post g a count = Raise e)
  /\ (exists e, generate_video_metadata post g a script = Raise e).
Proof.
  intros H Hn.
  unfold generate_youtube_script, generate_thumbnail_titles,
    generate_video_metadata.
  rewrite !(_call_ai_api_content post g content) by exact H.
  split; [reflexivity|].
  destruct content; try (split; eexists; reflexivity).
  now elim Hn.
Qed.

Lemma non_text_content_raises_witness :
  exists e,
    generate_thumbnail_titles (U := ascii_unicode) (openai_says JNull)
      openai_generator (NewsCollectorFacts.headline (lit "속보")) 10
    = Raise e.
Proof.
  apply (non_text_content_raises (U := ascii_unicode) (openai_says JNull)
           openai_generator [] (NewsCollectorFacts.headline (lit "속보")) []
           10 JNull).
  - intros req. eexists. split; [reflexivity|]. split; reflexivity.
  - intros H. exact H.
Defined.

(** *** Metadata lines *)

Definition title_line (line : str) : bool := startswith line mark_title.
Definition description_line (line : str) : bool :=
  startswith line mark_description.
Definition tags_line (line : str) : bool := startswith line mark_tags.

Lemma markers_exclusive (line : str) :
  (title_line line = true ->
   description_line line = false /\ tags_line line = false)
  /\ (description_line line = true -> tags_line line = false).
Proof.
  unfold title_line, description_line, tags_line.
  destruct line as [|c line]; [split; discriminate|].
  cbn [startswith mark_title mark_description mark_tags].
  split.
  - intros H. apply andb_true_iff in H as [H _]. apply N.eqb_eq in H.
    subst c. split; reflexivity.
  - intros H. apply andb_true_iff in H as [H _]. apply N.eqb_eq in H.
    subst c. reflexivity.
Qed.

Definition title_of (line : str) : str := strip (replace mark_title [] line).
Definition description_of (line : str) : str :=
  strip (replace mark_description [] line).
Definition tags_of (line : str) : list str :=
  map strip (split [COMMA] (strip (replace mark_tags [] line))).

Lemma metadata_lines_spec (lines : list str) :
  let m := fold_right (fun line m => metadata_line m line) empty_metadata
             lines in
  md_title m = option_map title_of (find title_line lines)
  /\ md_description m
     = option_map description_of (find description_line lines)
  /\ md_tags m = option_map tags_of (find tags_line lines).
Proof.
  induction lines as [|line lines IH]; [repeat split|].
  cbv zeta in *. cbn [fold_right find].
  destruct IH as (It & Id & Ig).
  destruct (markers_exclusive line) as [Ht Hd].
  unfold metadata_line.
  fold (title_line line) (description_line line) (tags_line line).
  destruct (title_line line) eqn:Et.
  - destruct (Ht eq_refl) as [-> ->]. cbn. auto.
  - destruct (description_line line) eqn:Ed.
    + rewrite (Hd eq_refl). cbn. auto.
    + destruct (tags_line line); cbn; auto.
Qed.

(** X6. Each field of the metadata comes from the last line of the response
    that starts, at its very first character, with the field's marker, and
    is absent when there is no such line; nothing is raised.  The tags are
    the comma-separated pieces of that line, each stripped. *)
Theorem parse_metadata_fields (response : str) :
  let lines := rev (split [NL] response) in
  md_title (parse_metadata response)
  = option_map title_of (find title_line lines)
  /\ md_description (parse_metadata response)
     = option_map description_of (find description_line lines)
  /\ md_tags (parse_metadata response)
     = option_map tags_of (find tags_line lines)
  /\ (Forall (fun line => description_line line = false)
        (split [NL] response) ->
      md_description (parse_metadata response) = None).
Proof.
  cbv zeta. unfold parse_metadata.
  rewrite <- fold_left_rev_right.
  destruct (metadata_lines_spec (rev (split [NL] response)))
    as (Ht & Hd & Hg).
  cbv zeta in *.
  split; [exact Ht|]. split; [exact Hd|]. split; [exact Hg|].
  intros H. rewrite Hd.
  destruct (find description_line (rev (split [NL] response))) as [line|]
    eqn:E; [|reflexivity].
  apply find_some in E as [Hin Hl]. apply in_rev in Hin.
  rewrite Forall_forall in H. rewrite (H line Hin) in Hl. discriminate.
Qed.

Definition metadata_without_description : str :=
  Eval vm_compute in
    text [lit "VIDEO_TITLE: 첫 제목";
          lit "  DESCRIPTION: 들여쓴 줄";
          lit "TAGS: 경제 , 주식,";
          lit "VIDEO_TITLE: 둘째 제목"].

Lemma parse_metadata_fields_witness :
  md_description (parse_metadata metadata_without_description) = None
  /\ md_title (parse_metadata metadata_without_description)
     = Some (lit "둘째 제목")
  /\ md_tags (parse_metadata metadata_without_description)
     = Some [lit "경제"; lit "주식"; []].
Proof.
  destruct (parse_metadata_fields metadata_without_description)
    as (Ht & _ & Hg & Hd).
  split; [|split].
  - apply Hd. vm_compute. repeat constructor.
  - rewrite Ht. vm_compute. reflexivity.
  - rewrite Hg. vm_compute. reflexivity.
Defined.

End AIScriptGeneratorFacts.

(* ================================================================== *)
(** * Text chunking against the length limit *)
(* ================================================================== *)

Module TTSGeneratorFacts.
Import Py PyFacts TTSGenerator.

(** ** What the loop does guarantee *)

Lemma lstrip_keeps_sentence_end (x : str) :
  exists y, lstrip (x ++ sentence_end) = y ++ sentence_end
            /\ (length y <= length x)%nat.
Proof.
  induction x as [|c x IH].
  - exists []. split; [reflexivity | simpl; lia].
  - cbn [app lstrip]. destruct (isspace c).
    + destruct IH as (y & -> & Hy). exists y. split; [reflexivity | simpl; lia].
    + exists (c :: x). split; [reflexivity | lia].
Qed.

Lemma strip_sentence_end_length (x : str) :
  (length (strip (x ++ sentence_end)) <= length x + 1)%nat.
Proof.
  unfold strip. destruct (lstrip_keeps_sentence_end x) as (y & -> & Hy).
  unfold sentence_end.
  replace (y ++ [DOT; SP]) with ((y ++ [DOT]) ++ [SP])
    by now rewrite <- app_assoc.
  rewrite rstrip_snoc_space by reflexivity.
  etransitivity; [apply rstrip_length|]. rewrite length_app. simpl. lia.
Qed.

Definition fits (max_length : Z) (chunk : str) : Prop :=
  (Z.of_nat (length chunk) <= max_length)%Z.

(** The chunk under construction is empty or ends a sentence, and is at most
    one character (the blank that [strip] removes) over the limit. *)
Definition pending_ok (max_length : Z) (current_chunk : str) : Prop :=
  current_chunk = []
  \/ exists x, current_chunk = x ++ sentence_end
               /\ (Z.of_nat (length x) + 1 <= max_length)%Z.

Lemma pending_fits (max_length : Z) (current_chunk : str) :
  pending_ok max_length current_chunk ->
  fits max_length (strip current_chunk) \/ current_chunk = [].
Proof.
  intros [-> | (x & -> & Hx)]; [now right | left].
  unfold fits. pose proof (strip_sentence_end_length x). lia.
Qed.

Lemma chunk_loop_fits (max_length : Z) (sentences : list str) :
  Forall (fun s => (Z.of_nat (length s) < max_length)%Z) sentences ->
  forall chunks current_chunk,
    Forall (fits max_length) chunks ->
    pending_ok max_length current_chunk ->
    Forall (fits max_length)
      (fst (chunk_loop max_length sentences chunks current_chunk))
    /\ pending_ok max_length
         (snd (chunk_loop max_length sentences chunks current_chunk)).
Proof.
  induction 1 as [|s rest Hs _ IH]; intros chunks cur Hchunks Hcur.
  - now split.
  - cbn [chunk_loop].
    destruct (Z.ltb_spec (Z.of_nat (length cur) + Z.of_nat (length s))
                max_length) as [Hlt|Hge].
    + apply IH; [exact Hchunks|]. right. exists (cur ++ s).
      split; [now rewrite <- app_assoc|]. rewrite length_app. lia.
    + apply IH.
      * destruct cur as [|c cur]; [exact Hchunks|].
        apply Forall_app. split; [exact Hchunks|]. constructor; [|constructor].
        destruct (pending_fits _ _ Hcur) as [F|F]; [exact F | discriminate].
      * right. exists s. split; [reflexivity | lia].
Qed.

(** X21. When every sentence is shorter than the limit, every chunk fits it. *)
Lemma split_text_for_tts_fits (text : str) (max_length : Z) :
  Forall (fun s => (Z.of_nat (length s) < max_length)%Z)
    (split sentence_end (replace [NL] [SP] text)) ->
  Forall (fits max_length) (split_text_for_tts text max_length).
Proof.
  intros H. unfold split_text_for_tts.
  destruct (chunk_loop_fits max_length _ H [] [] (Forall_nil _) (or_introl eq_refl))
    as [Hchunks Hcur].
  destruct (chunk_loop max_length _ [] []) as [chunks cur].
  cbn [fst snd] in *. destruct cur as [|c cur]; [exact Hchunks|].
  apply Forall_app. split; [exact Hchunks|]. constructor; [|constructor].
  destruct (pending_fits _ _ Hcur) as [F|F]; [exact F | discriminate].
Qed.

(** ** A sentence longer than the limit *)

Definition letter_a : codepoint := 97%N.
Definition letter_b : codepoint := 98%N.

(** 12,000 characters without a single sentence boundary. *)
Definition unbroken_text : str := repeat letter_a (Z.to_nat 12000).

(** 12,000 characters whose only sentence boundary is in the middle. *)
Definition two_long_sentences : str :=
  repeat letter_a (Z.to_nat 5999) ++ sentence_end
  ++ repeat letter_b (Z.to_nat 5999).

(** C3 fails on the code.  With limit 5000, a 12,000-character text without
    a sentence boundary comes back as one chunk of 12,001 characters, and a
    12,000-character text of two sentences as two chunks of 6,000. *)
Theorem split_text_for_tts_overlong_sentence :
  Z.of_nat (length unbroken_text) = 12000%Z
  /\ split_text_for_tts unbroken_text 5000 = [unbroken_text ++ [DOT]]
  /\ map (fun chunk => Z.of_nat (length chunk))
       (split_text_for_tts unbroken_text 5000) = [12001%Z]
  /\ Z.of_nat (length two_long_sentences) = 12000%Z
  /\ split_text_for_tts two_long_sentences 5000
     = [repeat letter_a (Z.to_nat 5999) ++ [DOT];
        repeat letter_b (Z.to_nat 5999) ++ [DOT]]
  /\ map (fun chunk => Z.of_nat (length chunk))
       (split_text_for_tts two_long_sentences 5000) = [6000%Z; 6000%Z].
Proof.
  split; [vm_compute; reflexivity|].
  split; [vm_compute; reflexivity|].
  split; [vm_compute; reflexivity|].
  split; [vm_compute; reflexivity|].
  split; vm_compute; reflexivity.
Qed.

(** ** Beyond the limit: what the chunks are made of *)

Lemma split_scan_nonempty (sep : str) (m : option nat) (k : nat) (s : str) :
  split_scan sep m k s <> [].
Proof.
  revert m k; induction s as [|c s IH]; intros m k; cbn [split_scan].
  - discriminate.
  - destruct k as [|k]; [|apply IH].
    destruct (may_split m && startswith (c :: s) sep); [discriminate|].
    destruct (split_scan sep m 0 s); discriminate.
Qed.

Lemma join_cons (sep p : str) (ps : list str) :
  ps <> [] -> join sep (p :: ps) = p ++ sep ++ join sep ps.
Proof. destruct ps; [now intros H; elim H | reflexivity]. Qed.

Lemma join_cons_char (sep : str) (c : codepoint) (p : str) (ps : list str) :
  join sep ((c :: p) :: ps) = c :: join sep (p :: ps).
Proof. destruct ps; reflexivity. Qed.

(** [sep.join(s.split(sep))] is [s]. *)
Lemma join_split_scan (sep : str) :
  sep <> [] ->
  forall (s : str) (m : option nat) (k : nat),
    join sep (split_scan sep m k s) = skipn k s.
Proof.
  intros Hsep. induction s as [|c s IH]; intros m k; cbn [split_scan].
  - now destruct k.
  - destruct k as [|k]; [|apply IH].
    destruct (may_split m && startswith (c :: s) sep) eqn:E.
    + apply andb_true_iff in E as [_ E].
      apply startswith_iff in E as [rest E].
      rewrite join_cons by apply split_scan_nonempty.
      rewrite IH. cbn [app skipn].
      destruct sep as [|x sep]; [now elim Hsep|].
      injection E as -> ->. cbn [length].
      replace (S (length sep) - 1)%nat with (length sep) by lia.
      rewrite skipn_app, skipn_all, Nat.sub_diag.
      reflexivity.
    + specialize (IH m 0%nat). cbn [skipn] in IH |- *.
      destruct (split_scan sep m 0 s) as [|p ps].
      * cbn [join] in IH. now rewrite <- IH.
      * now rewrite join_cons_char, IH.
Qed.

Lemma join_split (sep s : str) : sep <> [] -> join sep (split sep s) = s.
Proof. intros H. unfold split. now rewrite join_split_scan. Qed.

Lemma concat_with_ends (sep : str) (l : list str) :
  l <> [] -> concat (map (fun s => s ++ sep) l) = join sep l ++ sep.
Proof.
  induction l as [|p l IH]; [now intros H; elim H|]. intros _.
  destruct l as [|q l].
  - simpl. now rewrite app_nil_r.
  - rewrite join_cons by discriminate.
    cbn [map concat] in *. rewrite IH by discriminate.
    now rewrite <- !app_assoc.
Qed.

Lemma rstrip_snoc_nonspace (s : str) (c : codepoint) :
  isspace c = false -> rstrip (s ++ [c]) = s ++ [c].
Proof.
  intros H. induction s as [|a s IH]; cbn [app rstrip].
  - now rewrite H.
  - rewrite IH. now destruct s.
Qed.

Lemma strip_sentence_end (x : str) :
  exists y, strip (x ++ sentence_end) = y ++ [DOT].
Proof.
  unfold strip. destruct (lstrip_keeps_sentence_end x) as (y & -> & _).
  exists y. unfold sentence_end.
  replace (y ++ [DOT; SP]) with ((y ++ [DOT]) ++ [SP])
    by now rewrite <- app_assoc.
  rewrite rstrip_snoc_space by reflexivity.
  now apply rstrip_snoc_nonspace.
Qed.

(** A piece before stripping: sentences, each followed by ". ". *)
Definition ends_sentence (raw : str) : Prop :=
  exists x, raw = x ++ sentence_end.

Definition pending (current_chunk : str) : Prop :=
  current_chunk = [] \/ ends_sentence current_chunk.

Definition weight (current_chunk : str) : nat :=
  match current_chunk with
  | [] => 0
  | _ :: _ => 1
  end.

Lemma weight_le_1 (x : str) : (weight x <= 1)%nat.
Proof. destruct x; simpl; lia. Qed.

Lemma with_sentence_end_nonempty (x y : str) : x ++ y ++ sentence_end <> [].
Proof. destruct x, y; discriminate. Qed.

Lemma chunk_loop_raw (max_length : Z) (sentences : list str) :
  forall (raws : list str) (current_chunk : str),
    Forall ends_sentence raws -> pending current_chunk ->
    exists raws',
      fst (chunk_loop max_length sentences (map strip raws) current_chunk)
      = map strip raws'
      /\ Forall ends_sentence raws'
      /\ pending (snd (chunk_loop max_length sentences (map strip raws)
                         current_chunk))
      /\ concat raws'
         ++ snd (chunk_loop max_length sentences (map strip raws)
                   current_chunk)
         = concat raws ++ current_chunk
           ++ concat (map (fun s => s ++ sentence_end) sentences)
      /\ (sentences <> [] ->
          snd (chunk_loop max_length sentences (map strip raws)
                 current_chunk) <> [])
      /\ (length raws'
          + weight (snd (chunk_loop max_length sentences (map strip raws)
                           current_chunk))
          <= length raws + weight current_chunk + length sentences)%nat.
Proof.
  induction sentences as [|s rest IH]; intros raws cur Hraws Hcur.
  - exists raws. cbn. rewrite !app_nil_r.
    repeat split; auto. lia.
  - cbn [chunk_loop].
    assert (Hnew : forall x, pending (x ++ s ++ sentence_end)).
    { intros x. right. exists (x ++ s). now rewrite <- app_assoc. }
    destruct (Z.of_nat (length cur) + Z.of_nat (length s) <? max_length)%Z.
    + destruct (IH raws (cur ++ s ++ sentence_end) Hraws (Hnew cur))
        as (raws' & E & Hf & Hp & Hc & Hn & Hl).
      exists raws'. split; [exact E|]. split; [exact Hf|].
      split; [exact Hp|]. split.
      * rewrite Hc. cbn [map concat]. now rewrite <- !app_assoc.
      * split.
        -- intros _. destruct rest as [|s' rest'];
             [apply with_sentence_end_nonempty | apply Hn; discriminate].
        -- etransitivity; [exact Hl|]. cbn [length].
           pose proof (weight_le_1 (cur ++ s ++ sentence_end)). lia.
    + destruct cur as [|c cur].
      * destruct (IH raws (s ++ sentence_end) Hraws (Hnew []))
          as (raws' & E & Hf & Hp & Hc & Hn & Hl).
        exists raws'. split; [exact E|]. split; [exact Hf|].
        split; [exact Hp|]. split; [rewrite Hc; reflexivity|]. split.
        -- intros _. destruct rest as [|s' rest'];
             [apply (with_sentence_end_nonempty []) | apply Hn; discriminate].
        -- etransitivity; [exact Hl|]. cbn [length weight].
           pose proof (weight_le_1 (s ++ sentence_end)). lia.
      * assert (He : ends_sentence (c :: cur))
          by (destruct Hcur as [H|H]; [discriminate | exact H]).
        assert (Hraws2 : Forall ends_sentence (raws ++ [c :: cur]))
          by (apply Forall_app; split; [exact Hraws | now constructor]).
        destruct (IH (raws ++ [c :: cur]) (s ++ sentence_end) Hraws2
                    (Hnew []))
          as (raws' & E & Hf & Hp & Hc & Hn & Hl).
        rewrite map_app in E, Hp, Hc, Hn, Hl. cbn [map] in E, Hp, Hc, Hn, Hl.
        exists raws'. split; [exact E|]. split; [exact Hf|].
        split; [exact Hp|]. split.
        -- rewrite Hc, concat_app. cbn [concat map].
           now rewrite app_nil_r, <- !app_assoc.
        -- split.
           ++ intros _. destruct rest as [|s' rest'];
                [apply (with_sentence_end_nonempty [])
                | apply Hn; discriminate].
           ++ etransitivity; [exact Hl|]. rewrite length_app.
              cbn [length weight].
              pose proof (weight_le_1 (s ++ sentence_end)). lia.
Qed.

Lemma raw_pieces (text : str) (max_length : Z) :
  exists raws,
    split_text_for_tts text max_length = map strip raws
    /\ Forall ends_sentence raws
    /\ concat raws = replace [NL] [SP] text ++ sentence_end.
Proof.
  unfold split_text_for_tts.
  set (sentences := split sentence_end (replace [NL] [SP] text)).
  destruct (chunk_loop_raw max_length sentences [] [] (Forall_nil _)
              (or_introl eq_refl))
    as (raws & E & Hf & Hp & Hc & _ & _).
  cbn [map concat app] in E, Hp, Hc.
  destruct (chunk_loop max_length sentences [] []) as [chunks cur].
  cbn [fst snd] in *. subst chunks.
  assert (Hj : concat (map (fun s => s ++ sentence_end) sentences)
               = replace [NL] [SP] text ++ sentence_end).
  { rewrite concat_with_ends by apply split_scan_nonempty.
    subst sentences. now rewrite join_split by discriminate. }
  destruct cur as [|c cur].
  - exists raws. rewrite app_nil_r in Hc.
    split; [reflexivity|]. split; [exact Hf|]. now rewrite Hc.
  - exists (raws ++ [c :: cur]). split; [now rewrite map_app|]. split.
    + apply Forall_app. split; [exact Hf|]. constructor; [|constructor].
      destruct Hp as [H|H]; [discriminate | exact H].
    + rewrite concat_app. cbn [concat]. now rewrite app_nil_r, Hc.
Qed.

(** X22. The pieces the function strips: there are raw pieces, each a run of
    sentences with ". " after every one, whose stripped forms are the chunks
    returned and whose concatenation is the text, newlines turned into
    blanks, followed by one more ". ".  Nothing of the text is dropped or
    reordered, whatever the limit. *)
Theorem split_text_for_tts_keeps_the_text (text : str) (max_length : Z) :
  exists raws,
    split_text_for_tts text max_length = map strip raws
    /\ Forall ends_sentence raws
    /\ concat raws = replace [NL] [SP] text ++ sentence_end.
Proof. apply raw_pieces. Qed.

(** X23. The result is never empty, not even for an empty text, which gives the
    single chunk "."; every chunk ends with a full stop; and there are never
    more chunks than sentences. *)
Theorem split_text_for_tts_shape (text : str) (max_length : Z) :
  split_text_for_tts text max_length <> []
  /\ Forall (fun chunk => exists x, chunk = x ++ [DOT])
       (split_text_for_tts text max_length)
  /\ (length (split_text_for_tts text max_length)
      <= length (split sentence_end (replace [NL] [SP] text)))%nat
  /\ split_text_for_tts [] max_length = [[DOT]].
Proof.
  assert (Last : split_text_for_tts [] max_length = [[DOT]]).
  { unfold split_text_for_tts. cbn [replace replace_scan split split_scan
      chunk_loop length Z.of_nat Z.add].
    destruct (0 <? max_length)%Z; reflexivity. }
  split; [|split; [|split; [|exact Last]]].
  - unfold split_text_for_tts.
    set (sentences := split sentence_end (replace [NL] [SP] text)).
    destruct (chunk_loop_raw max_length sentences [] [] (Forall_nil _)
                (or_introl eq_refl))
      as (raws & _ & _ & _ & _ & Hn & _).
    cbn [map] in Hn. specialize (Hn (split_scan_nonempty _ _ _ _)).
    destruct (chunk_loop max_length sentences [] []) as [chunks cur].
    cbn [snd] in Hn. destruct cur as [|c cur]; [now elim Hn|].
    intros H. apply app_eq_nil in H as [_ H]. discriminate.
  - destruct (raw_pieces text max_length) as (raws & -> & Hf & _).
    apply Forall_map. eapply Forall_impl; [|exact Hf].
    intros raw [x ->]. apply strip_sentence_end.
  - unfold split_text_for_tts.
    set (sentences := split sentence_end (replace [NL] [SP] text)).
    destruct (chunk_loop_raw max_length sentences [] [] (Forall_nil _)
                (or_introl eq_refl))
      as (raws & E & _ & _ & _ & _ & Hl).
    cbn [map length weight] in E, Hl.
    destruct (chunk_loop max_length sentences [] []) as [chunks cur].
    cbn [fst snd] in *. subst chunks.
    destruct cur as [|c cur].
    + rewrite length_map. cbn [weight] in Hl. lia.
    + rewrite length_app, length_map. cbn [weight length] in *. lia.
Qed.

Definition short_text : str :=
  Eval vm_compute in lit "가나다. 라마바. 사아자".

Lemma split_text_for_tts_fits_witness :
  Forall (fits 10) (split_text_for_tts short_text 10).
Proof.
  apply (split_text_for_tts_fits short_text 10).
  vm_compute. repeat constructor; discriminate.
Defined.

(** ** [generate_audio]: fallback, success, and the failures that escape *)

Lemma str_eqb_true (a b : str) : str_eqb a b = true <-> a = b.
Proof.
  unfold str_eqb. destruct (list_eq_dec N.eq_dec a b); split; congruence.
Qed.

Lemma by_style_unknown {A} (p f e : A) (voice_style : str) :
  voice_style <> lit "professional" -> voice_style <> lit "friendly" ->
  voice_style <> lit "energetic" ->
  by_style p f e voice_style = p.
Proof.
  intros H1 H2 H3. unfold by_style.
  destruct (str_eqb voice_style (lit "professional")); [reflexivity|].
  destruct (str_eqb voice_style (lit "friendly")) eqn:E2;
    [apply str_eqb_true in E2; contradiction|].
  destruct (str_eqb voice_style (lit "energetic")) eqn:E3;
    [apply str_eqb_true in E3; contradiction | reflexivity].
Qed.

Section Synthesis.
Variable post : request -> outcome response.
Variable import_texttospeech : outcome unit.
Variable synthesize_speech : speech_request -> outcome (list N).
Variable write_file : str -> file_content -> outcome unit.
Variable path_of : str -> str.

#[local] Abbreviation audio :=
  (generate_audio post import_texttospeech synthesize_speech write_file
     path_of).

#[local] Abbreviation mock :=
  (_generate_mock write_file path_of).

(** The HTTP call raises or answers with a status other than 200, and the
    speech client raises. *)
Definition backends_fail : Prop :=
  (forall req, match post req with
               | Raise _ => True
               | Return resp => status_code resp <> 200%Z
               end)
  /\ (forall r, exists e, synthesize_speech r = Raise e).

Definition mock_result (text output_filename : str) : audio_result :=
  {| status := lit "success (mock)";
     output_file := path_of output_filename;
     service_used := lit "mock";
     voice_style := None;
     duration_estimate := (len text / 150)%Z;
     text_length := Some (len text) |}.

(** With the backend failing, the result is that of [_generate_mock],
    called once, or called inside the [try] and once more if it raised. *)
Lemma post_and_save_fails (service_name : str) (req : request)
    (text voice_style output_filename : str) :
  backends_fail ->
  post_and_save post write_file path_of service_name req text voice_style
    output_filename
  = mock text output_filename
  \/ post_and_save post write_file path_of service_name req text voice_style
       output_filename
     = or_mock write_file path_of (mock text output_filename) text
         output_filename.
Proof.
  intros [Hp _]. unfold post_and_save. specialize (Hp req).
  destruct (post req) as [resp|e]; [|now left].
  destruct (Z.eqb_spec (status_code resp) 200); [contradiction | now right].
Qed.

Lemma generate_audio_is_mock (t : synthesizer)
    (text voice_style output_filename : str) :
  backends_fail ->
  import_texttospeech = Return tt \/ service t <> lit "google" ->
  audio t text voice_style output_filename = mock text output_filename
  \/ audio t text voice_style output_filename
     = or_mock write_file path_of (mock text output_filename) text
         output_filename.
Proof.
  intros Hf Hi. unfold generate_audio, _generate_elevenlabs,
    _generate_azure_tts, _generate_google_tts.
  destruct (str_eqb (service t) (lit "elevenlabs"));
    [now apply post_and_save_fails|].
  destruct (str_eqb (service t) (lit "google")) eqn:Eg.
  - apply str_eqb_true in Eg.
    destruct Hi as [-> | Hi]; [|contradiction].
    destruct Hf as [_ Hs].
    destruct (Hs {| speech_text := text; language_code := lit "ko-KR";
                    voice_name := fst (google_voice voice_style);
                    ssml_gender := snd (google_voice voice_style);
                    speaking_rate := 1; pitch := 0 |}) as [e ->].
    now left.
  - destruct (str_eqb (service t) (lit "azure"));
      [now apply post_and_save_fails | now left].
Qed.

(** A failing write of the mock file is tried again when the backend
    answered with a status other than 200, and fails again. *)
Lemma failed_mock_write_is_repeated (service_name : str) (req : request)
    (resp : response) (text voice_style output_filename : str) (e : exn) :
  post req = Return resp -> status_code resp <> 200%Z ->
  write_file (path_of output_filename) (Text (mock_file_text text))
  = Raise e ->
  let mock_write :=
    {| written_path := path_of output_filename;
       written := Text (mock_file_text text) |} in
  post_and_save post write_file path_of service_name req text voice_style
    output_filename
  = ([mock_write; mock_write], Raise e).
Proof.
  intros Hp Hs Hw. cbv zeta. unfold post_and_save. rewrite Hp.
  destruct (Z.eqb_spec (status_code resp) 200); [contradiction|].
  unfold or_mock, _generate_mock, write_then. rewrite Hw. reflexivity.
Qed.

(** X24. When the backend fails, whichever service is configured, and the mock
    file can be written, [generate_audio] returns the mock result: status
    "success (mock)", service "mock", the path under the output directory,
    [len(text) // 150] minutes; and the one file it writes is the mock text
    with the first 100 characters of the script. *)
Theorem generate_audio_falls_back (t : synthesizer)
    (text voice_style output_filename : str) :
  backends_fail ->
  import_texttospeech = Return tt \/ service t <> lit "google" ->
  write_file (path_of output_filename) (Text (mock_file_text text))
  = Return tt ->
  audio t text voice_style output_filename
  = ([{| written_path := path_of output_filename;
         written := Text (mock_file_text text) |}],
     Return (mock_result text output_filename)).
Proof.
  intros Hf Hi Hw.
  destruct (generate_audio_is_mock t text voice_style output_filename Hf Hi)
    as [-> | ->];
    unfold or_mock, _generate_mock, write_then; now rewrite Hw.
Qed.

(** X25. [generate_audio] can raise.  When the mock file cannot be written the
    exception of the write reaches the caller, for every service whose
    backend failed and for an unknown service; and with the service "google"
    a failing import of the client library reaches the caller before
    anything is written. *)
Theorem generate_audio_can_raise (t : synthesizer)
    (text voice_style output_filename : str) (e : exn) :
  (backends_fail ->
   import_texttospeech = Return tt \/ service t <> lit "google" ->
   write_file (path_of output_filename) (Text (mock_file_text text))
   = Raise e ->
   snd (audio t text voice_style output_filename) = Raise e)
  /\ (service t = lit "google" -> import_texttospeech = Raise e ->
      audio t text voice_style output_filename = ([], Raise e)).
Proof.
  split.
  - intros Hf Hi Hw.
    destruct (generate_audio_is_mock t text voice_style output_filename Hf Hi)
      as [-> | ->];
      unfold or_mock, _generate_mock, write_then; rewrite Hw; reflexivity.
  - intros Hs Hi. unfold generate_audio. rewrite Hs.
    change (str_eqb (lit "google") (lit "elevenlabs")) with false.
    change (str_eqb (lit "google") (lit "google")) with true.
    cbv iota. unfold _generate_google_tts. now rewrite Hi.
Qed.

(** X26. With ElevenLabs or Azure answering 200, the bytes of the answer are
    written to the path under the output directory and the result has status
    "success", the service name and the voice style asked for.  When that
    write raises, the mock text is written to the same path instead and the
    mock result returned.  A voice style that is none of the three known
    ones selects the voice of "professional". *)
Theorem generate_audio_success (t : synthesizer)
    (text voice_style output_filename : str) (bytes : list N) :
  service t = lit "elevenlabs" \/ service t = lit "azure" ->
  (forall req, post req = Return {| status_code := 200; content := bytes |}) ->
  let path := path_of output_filename in
  let audio_write := {| written_path := path; written := Bytes bytes |} in
  let mock_write :=
    {| written_path := path; written := Text (mock_file_text text) |} in
  (write_file path (Bytes bytes) = Return tt ->
   audio t text voice_style output_filename
   = ([audio_write], Return (success (service t) text voice_style path)))
  /\ (forall e, write_file path (Bytes bytes) = Raise e ->
        write_file path (Text (mock_file_text text)) = Return tt ->
        audio t text voice_style output_filename
        = ([audio_write; mock_write],
           Return (mock_result text output_filename)))
  /\ (voice_style <> lit "professional" -> voice_style <> lit "friendly" ->
      voice_style <> lit "energetic" ->
      elevenlabs_voice voice_style = elevenlabs_voice (lit "professional")
      /\ azure_voice voice_style = azure_voice (lit "professional")
      /\ google_voice voice_style = google_voice (lit "professional")).
Proof.
  intros Hs Hp. cbv zeta.
  assert (E : forall svc req,
             post_and_save post write_file path_of svc req text voice_style
               output_filename
             = or_mock write_file path_of
                 (write_then write_file (path_of output_filename)
                    (Bytes bytes)
                    ([], Return (success svc text voice_style
                                   (path_of output_filename))))
                 text output_filename).
  { intros svc req. unfold post_and_save. now rewrite Hp. }
  assert (D : audio t text voice_style output_filename
              = or_mock write_file path_of
                  (write_then write_file (path_of output_filename)
                     (Bytes bytes)
                     ([], Return (success (service t) text voice_style
                                    (path_of output_filename))))
                  text output_filename).
  { unfold generate_audio, _generate_elevenlabs, _generate_azure_tts.
    destruct Hs as [Hs | Hs]; rewrite Hs.
    - change (str_eqb (lit "elevenlabs") (lit "elevenlabs")) with true.
      cbv iota. apply E.
    - change (str_eqb (lit "azure") (lit "elevenlabs")) with false.
      change (str_eqb (lit "azure") (lit "google")) with false.
      change (str_eqb (lit "azure") (lit "azure")) with true.
      cbv iota. apply E. }
  split; [|split].
  - intros Hw. rewrite D. unfold or_mock, write_then. now rewrite Hw.
  - intros e Hw Hm. rewrite D.
    unfold or_mock, write_then, _generate_mock, write_then.
    rewrite Hw. cbn [snd fst]. now rewrite Hm.
  - intros H1 H2 H3. unfold elevenlabs_voice, azure_voice, google_voice.
    rewrite !(by_style_unknown _ _ _ voice_style) by assumption.
    split; [reflexivity | split; reflexivity].
Qed.

End Synthesis.

(** *** The statements on concrete backends *)

Definition tts_unreachable (_ : request) : outcome response :=
  Raise (Exception (lit "Connection refused")).

Definition no_speech (_ : speech_request) : outcome (list N) :=
  Raise (Exception (lit "no credentials")).

Definition disk_ok (_ : str) (_ : file_content) : outcome unit := Return tt.

Definition disk_full (_ : str) (_ : file_content) : outcome unit :=
  Raise (Exception (lit "No space left on device")).

Definition under_output (name : str) : str := lit "output/audio/" ++ name.

Definition elevenlabs : synthesizer :=
  {| service := lit "elevenlabs"; api_key := None |}.

Lemma backends_fail_example : backends_fail tts_unreachable no_speech.
Proof. split; [intros req; exact I | intros r; eexists; reflexivity]. Qed.

Lemma generate_audio_falls_back_witness :
  snd (generate_audio tts_unreachable (Return tt) no_speech disk_ok
         under_output elevenlabs (lit "대본") (lit "professional")
         (lit "voice.mp3"))
  = Return (mock_result under_output (lit "대본") (lit "voice.mp3")).
Proof.
  rewrite (generate_audio_falls_back tts_unreachable (Return tt) no_speech
             disk_ok under_output elevenlabs (lit "대본")
             (lit "professional") (lit "voice.mp3") backends_fail_example
             (or_introl eq_refl) eq_refl).
  reflexivity.
Defined.

Lemma generate_audio_can_raise_witness :
  snd (generate_audio tts_unreachable (Return tt) no_speech disk_full
         under_output elevenlabs (lit "대본") (lit "professional")
         (lit "voice.mp3"))
  = Raise (Exception (lit "No space left on device")).
Proof.
  apply (generate_audio_can_raise tts_unreachable (Return tt) no_speech
           disk_full under_output elevenlabs (lit "대본")
           (lit "professional") (lit "voice.mp3")
           (Exception (lit "No space left on device"))).
  - exact backends_fail_example.
  - now left.
  - reflexivity.
Defined.

Definition tts_answers (_ : request) : outcome response :=
  Return {| status_code := 200; content := [73; 68; 51]%N |}.

Lemma generate_audio_success_witness :
  generate_audio tts_answers (Return tt) no_speech disk_ok under_output
    elevenlabs (lit "대본") (lit "calm") (lit "voice.mp3")
  = ([{| written_path := lit "output/audio/voice.mp3";
         written := Bytes [73; 68; 51]%N |}],
     Return (success (lit "elevenlabs") (lit "대본") (lit "calm")
               (lit "output/audio/voice.mp3"))).
Proof.
  apply (generate_audio_success tts_answers (Return tt) no_speech disk_ok
           under_output elevenlabs (lit "대본") (lit "calm")
           (lit "voice.mp3") [73; 68; 51]%N).
  - now left.
  - intros req. reflexivity.
  - reflexivity.
Defined.

End TTSGeneratorFacts.

(* ================================================================== *)
(** * The publisher: what is sent, and when nothing is *)
(* ================================================================== *)

Module YouTubeUploaderFacts.
Import Py PyFacts YouTubeUploader.

Lemma str_eqb_iff (a b : str) : str_eqb a b = true <-> a = b.
Proof.
  unfold str_eqb. destruct (list_eq_dec N.eq_dec a b); split; congruence.
Qed.

Lemma build_body_snippet (title description : str) (tags : option (list str))
    (category_id privacy_status : str) (publish_at : option datetime) :
  body_snippet (build_body title description tags category_id privacy_status
                  publish_at)
  = {| sn_title := upto 100 title;
       sn_description := upto 5000 description;
       sn_tags := match tags with Some t => t | None => [] end;
       sn_categoryId := category_id |}.
Proof.
  unfold build_body. destruct publish_at as [t|]; [|reflexivity].
  now destruct (str_eqb privacy_status private).
Qed.

Lemma build_body_not_private (title description : str)
    (tags : option (list str)) (category_id privacy_status : str)
    (publish_at : option datetime) :
  privacy_status <> private ->
  build_body title description tags category_id privacy_status publish_at
  = build_body title description tags category_id privacy_status None.
Proof.
  intros H. unfold build_body. destruct publish_at as [t|]; [|reflexivity].
  destruct (str_eqb privacy_status private) eqn:E; [|reflexivity].
  apply str_eqb_iff in E. contradiction.
Qed.

Section Platform.
Variable youtube_api_available : bool.
Variable youtube_client : bool.
Variable media_file_upload : str -> bool -> outcome str.
Variable videos_insert : str -> body -> str -> outcome video_resource.
Variable path_exists : str -> bool.

#[local] Abbreviation upload :=
  (upload_video youtube_api_available youtube_client media_file_upload
     videos_insert path_exists).

(** The only upload request ever made carries the body [build_body] makes. *)
Lemma sent_insert (now_stamp video_file title description : str)
    (tags : option (list str)) (category_id privacy_status : str)
    (thumbnail_file : option str) (publish_at : option datetime)
    (part : str) (b : body) (media : str) :
  In (VideosInsert part b media)
     (fst (upload now_stamp video_file title description tags category_id
             privacy_status thumbnail_file publish_at)) ->
  b = build_body title description tags category_id privacy_status publish_at.
Proof.
  unfold upload_video.
  destruct (negb youtube_api_available || negb youtube_client);
    [intros []|].
  destruct (media_file_upload video_file true) as [m|e]; [|intros []].
  destruct (videos_insert _ _ m) as [res|e].
  - destruct (resource_id res) as [vid|].
    + cbn [fst]. intros H.
      assert (H' : In (VideosInsert part b media)
                     ([VideosInsert body_part
                         (build_body title description tags category_id
                            privacy_status publish_at) m]
                      ++ _upload_thumbnail media_file_upload vid
                           (match thumbnail_file with
                            | Some f => f | None => [] end))).
      { destruct thumbnail_file as [[|c f]|]; try (apply in_or_app; now left).
        destruct (path_exists (c :: f)); [exact H | apply in_or_app; now left]. }
      apply in_app_or in H' as [[H'|[]]|H'].
      * now injection H'.
      * unfold _upload_thumbnail in H'.
        destruct (media_file_upload _ false); [|destruct H'].
        destruct H' as [H'|[]]. discriminate.
    + intros [H|[]]. now injection H.
  - intros [H|[]]. now injection H.
Qed.

(** C6. Every upload request that reaches the platform carries the first
    100 characters of the title and the first 5000 of the description: a
    title of 150 characters is sent as exactly 100, a description of 6000 as
    exactly 5000.  The cut raises nothing: when the file opens and the
    platform accepts the request, the result is a success. *)
Theorem upload_video_truncates (now_stamp video_file title description : str)
    (tags : option (list str)) (category_id privacy_status : str)
    (thumbnail_file : option str) (publish_at : option datetime) :
  let run := upload now_stamp video_file title description tags category_id
               privacy_status thumbnail_file publish_at in
  let sent_body := build_body title description tags category_id
                     privacy_status publish_at in
  (forall part b media,
      In (VideosInsert part b media) (fst run) ->
      sn_title (body_snippet b) = firstn (Z.to_nat 100) title
      /\ (len (sn_title (body_snippet b)) <= 100)%Z
      /\ sn_description (body_snippet b) = firstn (Z.to_nat 5000) description
      /\ (len (sn_description (body_snippet b)) <= 5000)%Z
      /\ (len title = 150%Z -> len (sn_title (body_snippet b)) = 100%Z)
      /\ (len description = 6000%Z ->
          len (sn_description (body_snippet b)) = 5000%Z))
  /\ (forall media resource video_id,
        youtube_api_available = true -> youtube_client = true ->
        media_file_upload video_file true = Return media ->
        videos_insert body_part sent_body media = Return resource ->
        resource_id resource = Some video_id ->
        In (VideosInsert body_part sent_body media) (fst run)
        /\ status (snd run) = lit "success"
        /\ error (snd run) = None).
Proof.
  cbv zeta. split.
  - intros part b media Hin. apply sent_insert in Hin. subst b.
    rewrite build_body_snippet. cbn [sn_title sn_description].
    rewrite !len_upto.
    change (Z.of_nat 100) with 100%Z. change (Z.of_nat 5000) with 5000%Z.
    split; [reflexivity|]. split; [lia|].
    split; [reflexivity|]. split; [lia|]. split; lia.
  - intros media resource vid Ha Hc Hm Hi Hr. unfold upload_video.
    rewrite Ha, Hc, Hm, Hi, Hr. cbn [negb orb fst snd status error].
    split; [|split; reflexivity].
    destruct thumbnail_file as [[|c f]|]; try (now left).
    destruct (path_exists (c :: f)); [apply in_or_app; left|]; now left.
Qed.

(** C7. With a publish time given, the request body carries it exactly when
    the privacy status is "private"; under any other status the body, the
    requests made and the status of the result are those of a call without a
    publish time, so nothing is raised on its account.  The request is
    really made: with a working client and a video file that opens, the
    upload request is among the calls that reach the platform, and its body
    holds the publish time followed by "Z" under "private" and no publish
    time under any other status, which is sent on as it was given. *)
Theorem publish_at_only_when_private (now_stamp video_file title
    description : str) (tags : option (list str))
    (category_id privacy_status : str) (thumbnail_file : option str)
    (t : datetime) :
  let run := upload now_stamp video_file title description tags category_id
               privacy_status thumbnail_file (Some t) in
  let plain := upload now_stamp video_file title description tags
                 category_id privacy_status thumbnail_file None in
  let sent_body := build_body title description tags category_id
                     privacy_status (Some t) in
  (forall part b media,
      In (VideosInsert part b media) (fst run) ->
      (publishAt (body_status b) = Some (isoformat t ++ lit "Z")
       <-> privacy_status = private)
      /\ (privacy_status <> private ->
          publishAt (body_status b) = None
          /\ privacyStatus (body_status b) = privacy_status))
  /\ (privacy_status <> private ->
      fst run = fst plain
      /\ status (snd run) = status (snd plain)
      /\ error (snd run) = error (snd plain))
  /\ (forall media,
        youtube_api_available = true -> youtube_client = true ->
        media_file_upload video_file true = Return media ->
        In (VideosInsert body_part sent_body media) (fst run)
        /\ (privacy_status = private ->
            publishAt (body_status sent_body) = Some (isoformat t ++ lit "Z")
            /\ privacyStatus (body_status sent_body) = private)
        /\ (privacy_status <> private ->
            publishAt (body_status sent_body) = None
            /\ privacyStatus (body_status sent_body) = privacy_status)).
Proof.
  cbv zeta. split; [|split].
  - intros part b media Hin. apply sent_insert in Hin. subst b.
    unfold build_body. destruct (str_eqb privacy_status private) eqn:E.
    + apply str_eqb_iff in E. cbn. split; [tauto | intros H; contradiction].
    + cbn. split; [|now intros _].
      split; [discriminate|]. intros H. apply str_eqb_iff in H. congruence.
  - intros H. unfold upload_video.
    rewrite (build_body_not_private title description tags category_id
               privacy_status (Some t) H).
    destruct (negb youtube_api_available || negb youtube_client);
      [repeat split|].
    destruct (media_file_upload video_file true) as [m|e]; [|repeat split].
    destruct (videos_insert _ _ m) as [res|e]; [|repeat split].
    destruct (resource_id res); repeat split.
  - intros media Ha Hc Hm. split; [|split].
    + unfold upload_video. rewrite Ha, Hc, Hm. cbn [negb orb].
      destruct (videos_insert _ _ media) as [res|e]; [|now left].
      destruct (resource_id res) as [vid|]; [|now left]. cbn [fst].
      destruct thumbnail_file as [[|c f]|]; try (now left).
      destruct (path_exists (c :: f)); [apply in_or_app; left|]; now left.
    + intros ->. unfold build_body.
      replace (str_eqb private private) with true
        by (symmetry; now apply str_eqb_iff).
      split; reflexivity.
    + intros H. unfold build_body.
      destruct (str_eqb privacy_status private) eqn:E;
        [apply str_eqb_iff in E; contradiction|].
      split; reflexivity.
Qed.

(** C10. Without the client library, or without an authenticated client,
    [upload_video] asks nothing of the platform and answers with status
    "success (mock)", never "error"; the video id starts with "MOCK_" and
    the title comes back as the caller gave it, however long. *)
Theorem upload_video_mock_when_unavailable (now_stamp video_file title
    description : str) (tags : option (list str))
    (category_id privacy_status : str) (thumbnail_file : option str)
    (publish_at : option datetime) :
  youtube_api_available = false \/ youtube_client = false ->
  let run := upload now_stamp video_file title description tags category_id
               privacy_status thumbnail_file publish_at in
  fst run = []
  /\ status (snd run) = lit "success (mock)"
  /\ status (snd run) <> lit "error"
  /\ video_id (snd run) = Some (lit "MOCK_" ++ now_stamp)
  /\ YouTubeUploader.title (snd run) = Some title
  /\ error (snd run) = None.
Proof.
  intros H. cbv zeta. unfold upload_video.
  assert (E : negb youtube_api_available || negb youtube_client = true).
  { destruct H as [-> | ->]; [reflexivity | apply orb_true_r]. }
  rewrite E. cbn. repeat split. discriminate.
Qed.

End Platform.

(** ** The statements on a concrete platform *)

Definition opens_any (path : str) (_ : bool) : outcome str := Return path.

Definition accepts_any (_ : str) (_ : body) (_ : str) : outcome video_resource :=
  Return {| resource_id := Some (lit "abc123") |}.

Definition letter_x : codepoint := 120%N.

Definition long_title : str := repeat letter_x (Z.to_nat 150).
Definition long_description : str := repeat letter_x (Z.to_nat 6000).

Lemma upload_video_truncates_witness :
  let run := upload_video true true opens_any accepts_any (fun _ => false)
               (lit "20240101000000") (lit "v.mp4") long_title
               long_description None (lit "25") (lit "public") None None in
  (forall part b media,
      In (VideosInsert part b media) (fst run) ->
      len (sn_title (body_snippet b)) = 100%Z
      /\ len (sn_description (body_snippet b)) = 5000%Z)
  /\ status (snd run) = lit "success".
Proof.
  cbv zeta.
  destruct (upload_video_truncates true true opens_any accepts_any
              (fun _ => false) (lit "20240101000000") (lit "v.mp4")
              long_title long_description None (lit "25") (lit "public")
              None None) as [Hsent Hok].
  split.
  - intros part b media Hin.
    destruct (Hsent part b media Hin) as (_ & _ & _ & _ & Ht & Hd).
    split; [apply Ht | apply Hd]; vm_compute; reflexivity.
  - apply (Hok (lit "v.mp4") {| resource_id := Some (lit "abc123") |}
             (lit "abc123")); reflexivity.
Defined.

Definition noon : datetime := {| isoformat := lit "2024-01-01T12:00:00" |}.

Lemma publish_at_only_when_private_witness :
  fst (upload_video true true opens_any accepts_any (fun _ => false)
         (lit "20240101000000") (lit "v.mp4") (lit "t") (lit "d") None
         (lit "25") (lit "public") None (Some noon))
  = fst (upload_video true true opens_any accepts_any (fun _ => false)
           (lit "20240101000000") (lit "v.mp4") (lit "t") (lit "d") None
           (lit "25") (lit "public") None None)
  /\ (exists b,
        In (VideosInsert body_part b (lit "v.mp4"))
           (fst (upload_video true true opens_any accepts_any
                   (fun _ => false) (lit "20240101000000") (lit "v.mp4")
                   (lit "t") (lit "d") None (lit "25") (lit "private") None
                   (Some noon)))
        /\ publishAt (body_status b) = Some (lit "2024-01-01T12:00:00Z")
        /\ privacyStatus (body_status b) = lit "private")
  /\ (exists b,
        In (VideosInsert body_part b (lit "v.mp4"))
           (fst (upload_video true true opens_any accepts_any
                   (fun _ => false) (lit "20240101000000") (lit "v.mp4")
                   (lit "t") (lit "d") None (lit "25") (lit "public") None
                   (Some noon)))
        /\ publishAt (body_status b) = None
        /\ privacyStatus (body_status b) = lit "public").
Proof.
  split; [|split].
  - apply (publish_at_only_when_private true true opens_any accepts_any
             (fun _ => false) (lit "20240101000000") (lit "v.mp4") (lit "t")
             (lit "d") None (lit "25") (lit "public") None noon).
    vm_compute. discriminate.
  - destruct (publish_at_only_when_private true true opens_any accepts_any
                (fun _ => false) (lit "20240101000000") (lit "v.mp4")
                (lit "t") (lit "d") None (lit "25") (lit "private") None noon)
      as (_ & _ & Sent).
    destruct (Sent (lit "v.mp4") eq_refl eq_refl eq_refl)
      as (Hin & Hprivate & _).
    eexists. split; [exact Hin|]. exact (Hprivate eq_refl).
  - destruct (publish_at_only_when_private true true opens_any accepts_any
                (fun _ => false) (lit "20240101000000") (lit "v.mp4")
                (lit "t") (lit "d") None (lit "25") (lit "public") None noon)
      as (_ & _ & Sent).
    destruct (Sent (lit "v.mp4") eq_refl eq_refl eq_refl)
      as (Hin & _ & Hpublic).
    eexists. split; [exact Hin|]. apply Hpublic.
    vm_compute. discriminate.
Defined.

Lemma upload_video_mock_when_unavailable_witness :
  YouTubeUploader.title
    (snd (upload_video false true opens_any accepts_any (fun _ => false)
            (lit "20240101000000") (lit "v.mp4") long_title (lit "d") None
            (lit "25") (lit "public") None None))
  = Some long_title.
Proof.
  apply (upload_video_mock_when_unavailable false true opens_any accepts_any
           (fun _ => false) (lit "20240101000000") (lit "v.mp4") long_title
           (lit "d") None (lit "25") (lit "public") None None).
  now left.
Defined.

(** ** Beyond truncation: errors, thumbnails, the result's echo *)

Definition is_insert (c : platform_call) : bool :=
  match c with
  | VideosInsert _ _ _ => true
  | ThumbnailsSet _ _ => false
  end.

Section Outcomes.
Variable media_file_upload : str -> bool -> outcome str.
Variable videos_insert : str -> body -> str -> outcome video_resource.
Variable path_exists : str -> bool.

(** With the library present and a client authenticated. *)
#[local] Abbreviation live :=
  (upload_video true true media_file_upload videos_insert path_exists).

(** X7. With a working client, [upload_video] never raises: an exception while
    opening the file, while uploading, or a response without an id each end
    in a result of status "error" that carries the exception text and no
    video id.  When the file cannot be opened nothing is sent at all; there
    is no other way to get "error". *)
Theorem upload_video_error_results (now_stamp video_file title
    description : str) (tags : option (list str))
    (category_id privacy_status : str) (thumbnail_file : option str)
    (publish_at : option datetime) :
  let run := live now_stamp video_file title description tags category_id
               privacy_status thumbnail_file publish_at in
  let b := build_body title description tags category_id privacy_status
             publish_at in
  (forall e, media_file_upload video_file true = Raise e ->
     run = ([], error_result e))
  /\ (forall media e,
        media_file_upload video_file true = Return media ->
        videos_insert body_part b media = Raise e ->
        run = ([VideosInsert body_part b media], error_result e))
  /\ (forall media resource,
        media_file_upload video_file true = Return media ->
        videos_insert body_part b media = Return resource ->
        resource_id resource = None ->
        run = ([VideosInsert body_part b media],
               error_result (Exception (lit "'id'"))))
  /\ (status (snd run) = lit "error" ->
      video_id (snd run) = None /\ video_url (snd run) = None
      /\ ((exists e, media_file_upload video_file true = Raise e
                     /\ error (snd run) = Some (exn_text e))
          \/ exists media,
               media_file_upload video_file true = Return media
               /\ ((exists e, videos_insert body_part b media = Raise e
                              /\ error (snd run) = Some (exn_text e))
                   \/ exists resource,
                        videos_insert body_part b media = Return resource
                        /\ resource_id resource = None))).
Proof.
  cbv zeta. unfold upload_video. cbn [negb orb].
  split; [intros e ->; reflexivity|].
  split; [intros media e -> ->; reflexivity|].
  split; [intros media resource -> -> ->; reflexivity|].
  destruct (media_file_upload video_file true) as [media|e].
  - destruct (videos_insert body_part _ media) as [resource|e] eqn:Ei.
    + destruct (resource_id resource) as [vid|] eqn:Er.
      * cbn [snd status]. intros H. vm_compute in H. discriminate.
      * intros _. cbn. split; [reflexivity|]. split; [reflexivity|].
        right. exists media. split; [reflexivity|]. right.
        exists resource. now split.
    + intros _. cbn. split; [reflexivity|]. split; [reflexivity|].
      right. exists media. split; [reflexivity|]. left. now exists e.
  - intros _. cbn. split; [reflexivity|]. split; [reflexivity|].
    left. now exists e.
Qed.

(** X8. One call makes at most one upload request and never repeats it.  The
    thumbnail is sent only after an upload that succeeded, only for a
    non-empty path that exists, and under the id the platform gave; what
    happens to it changes nothing in the result. *)
Theorem upload_video_requests (now_stamp video_file title
    description : str) (tags : option (list str))
    (category_id privacy_status : str) (thumbnail_file : option str)
    (publish_at : option datetime) :
  let run := live now_stamp video_file title description tags category_id
               privacy_status thumbnail_file publish_at in
  (length (filter is_insert (fst run)) <= 1)%nat
  /\ (length (fst run) <= 2)%nat
  /\ snd run
     = snd (live now_stamp video_file title description tags category_id
              privacy_status None publish_at)
  /\ (forall vid media,
        In (ThumbnailsSet vid media) (fst run) ->
        status (snd run) = lit "success"
        /\ video_id (snd run) = Some vid
        /\ exists f, thumbnail_file = Some f /\ f <> []
                     /\ path_exists f = true
                     /\ media_file_upload f false = Return media).
Proof.
  cbv zeta. unfold upload_video. cbn [negb orb].
  assert (Plain : forall (sent : list platform_call) (r : upload_result),
             (length sent <= 1)%nat ->
             (forall vid media, ~ In (ThumbnailsSet vid media) sent) ->
             (length (filter is_insert sent) <= 1)%nat
             /\ (length sent <= 2)%nat /\ r = r
             /\ (forall vid media,
                   In (ThumbnailsSet vid media) sent ->
                   status r = lit "success" /\ video_id r = Some vid
                   /\ exists f, thumbnail_file = Some f /\ f <> []
                                /\ path_exists f = true
                                /\ media_file_upload f false = Return media)).
  { intros sent r Hl Hn. split.
    - etransitivity; [apply filter_length_le | exact Hl].
    - split; [lia|]. split; [reflexivity|].
      intros vid media Hin. now elim (Hn vid media). }
  destruct (media_file_upload video_file true) as [m|e];
    [|apply Plain; [simpl; lia | intros ? ? []]].
  destruct (videos_insert body_part _ m) as [resource|e];
    [|apply Plain; [simpl; lia | intros ? ? [Hx|[]]; discriminate]].
  destruct (resource_id resource) as [id|];
    [|apply Plain; [simpl; lia | intros ? ? [Hx|[]]; discriminate]].
  cbn [fst snd].
  destruct thumbnail_file as [[|c f]|];
    try (apply Plain; [simpl; lia | intros ? ? [Hx|[]]; discriminate]).
  destruct (path_exists (c :: f)) eqn:Ep;
    [|apply Plain; [simpl; lia | intros ? ? [Hx|[]]; discriminate]].
  unfold _upload_thumbnail.
  destruct (media_file_upload (c :: f) false) as [tm|e] eqn:Et;
    [|apply Plain; [simpl; lia | intros ? ? [Hx|[]]; discriminate]].
  cbn [app filter is_insert length status video_id].
  split; [lia|]. split; [lia|]. split; [reflexivity|].
  intros vid media [Hx|[Hx|[]]]; [discriminate|].
  injection Hx as <- <-.
  split; [reflexivity|]. split; [reflexivity|].
  exists (c :: f). repeat split; [discriminate | exact Ep | exact Et].
Qed.

(** X9. A success echoes the caller's arguments, not what was sent: the title
    comes back in full even when the request carried only its first 100
    characters, and the publish time comes back even when the privacy status
    kept it out of the request. *)
Theorem upload_video_success_echo (now_stamp video_file title
    description : str) (tags : option (list str))
    (category_id privacy_status : str) (thumbnail_file : option str)
    (publish_at : option datetime) :
  let run := live now_stamp video_file title description tags category_id
               privacy_status thumbnail_file publish_at in
  status (snd run) = lit "success" ->
  YouTubeUploader.title (snd run) = Some title
  /\ YouTubeUploader.privacy_status (snd run) = Some privacy_status
  /\ YouTubeUploader.publish_at (snd run)
     = Some (option_map isoformat publish_at)
  /\ (exists id, video_id (snd run) = Some id
                 /\ video_url (snd run) = Some (watch_url ++ id))
  /\ (privacy_status <> private ->
      forall part b media,
        In (VideosInsert part b media) (fst run) ->
        publishAt (body_status b) = None).
Proof.
  cbv zeta. intros Hs.
  assert (Hsent : privacy_status <> private ->
                  forall part b media,
                    In (VideosInsert part b media)
                       (fst (live now_stamp video_file title description
                               tags category_id privacy_status
                               thumbnail_file publish_at)) ->
                    publishAt (body_status b) = None).
  { intros Hp part b media Hin. apply sent_insert in Hin. subst b.
    rewrite build_body_not_private by exact Hp. reflexivity. }
  revert Hs Hsent. unfold upload_video. cbn [negb orb].
  destruct (media_file_upload video_file true) as [m|e];
    [|intros H; vm_compute in H; discriminate].
  destruct (videos_insert body_part _ m) as [resource|e];
    [|intros H; vm_compute in H; discriminate].
  destruct (resource_id resource) as [id|];
    [|intros H; vm_compute in H; discriminate].
  intros _ Hsent. cbn [snd YouTubeUploader.title
                         YouTubeUploader.privacy_status
                         YouTubeUploader.publish_at video_id video_url].
  split; [reflexivity|]. split; [reflexivity|]. split; [reflexivity|].
  split; [now exists id | exact Hsent].
Qed.

End Outcomes.

Definition locked_file (_ : str) (_ : bool) : outcome str :=
  Raise (Exception (lit "Permission denied")).

Lemma upload_video_error_results_witness :
  upload_video true true locked_file accepts_any (fun _ => true)
    (lit "20240101000000") (lit "v.mp4") (lit "t") (lit "d") None (lit "25")
    (lit "public") None None
  = ([], error_result (Exception (lit "Permission denied"))).
Proof.
  apply (upload_video_error_results locked_file accepts_any (fun _ => true)
           (lit "20240101000000") (lit "v.mp4") (lit "t") (lit "d") None
           (lit "25") (lit "public") None None).
  reflexivity.
Defined.

Lemma upload_video_requests_witness :
  status (snd (upload_video true true opens_any accepts_any (fun _ => true)
                 (lit "20240101000000") (lit "v.mp4") (lit "t") (lit "d")
                 None (lit "25") (lit "public") (Some (lit "thumb.jpg"))
                 None))
  = lit "success".
Proof.
  destruct (upload_video_requests opens_any accepts_any (fun _ => true)
              (lit "20240101000000") (lit "v.mp4") (lit "t") (lit "d") None
              (lit "25") (lit "public") (Some (lit "thumb.jpg")) None)
    as (_ & _ & _ & Hthumb).
  apply (Hthumb (lit "abc123") (lit "thumb.jpg")).
  vm_compute. auto.
Defined.

Lemma upload_video_success_echo_witness :
  YouTubeUploader.title
    (snd (upload_video true true opens_any accepts_any (fun _ => false)
            (lit "20240101000000") (lit "v.mp4") long_title (lit "d") None
            (lit "25") (lit "public") None (Some noon)))
  = Some long_title
  /\ YouTubeUploader.publish_at
       (snd (upload_video true true opens_any accepts_any (fun _ => false)
               (lit "20240101000000") (lit "v.mp4") long_title (lit "d")
               None (lit "25") (lit "public") None (Some noon)))
     = Some (Some (isoformat noon)).
Proof.
  destruct (upload_video_success_echo opens_any accepts_any (fun _ => false)
              (lit "20240101000000") (lit "v.mp4") long_title (lit "d") None
              (lit "25") (lit "public") None (Some noon) eq_refl)
    as (Ht & _ & Hp & _).
  split; [exact Ht | exact Hp].
Defined.

(** ** [update_video] *)

Lemma assoc_set_item (key k : str) (v : json) (fields : list (str * json)) :
  assoc k (set_item key v fields)
  = if str_eqb key k then Some v else assoc k fields.
Proof.
  induction fields as [|[k0 x] rest IH]; cbn [set_item assoc].
  - destruct (str_eqb key k); reflexivity.
  - destruct (str_eqb k0 key) eqn:E0.
    + apply str_eqb_iff in E0. subst k0. cbn [assoc].
      destruct (str_eqb key k); reflexivity.
    + cbn [assoc]. rewrite IH.
      destruct (str_eqb k0 k) eqn:E1; [|reflexivity].
      apply str_eqb_iff in E1. subst k0.
      destruct (str_eqb key k) eqn:E2; [|reflexivity].
      apply str_eqb_iff in E2. subst key.
      assert (R : str_eqb k k = true) by now apply str_eqb_iff.
      congruence.
Qed.

Lemma assoc_set_if_text (key k : str) (v : option str)
    (fields : list (str * json)) :
  assoc k (set_if_text key v fields)
  = match v with
    | Some (c :: s) =>
        if str_eqb key k then Some (JStr (c :: s)) else assoc k fields
    | _ => assoc k fields
    end.
Proof.
  destruct v as [[|c s]|]; try reflexivity. apply assoc_set_item.
Qed.

Lemma assoc_set_if_tags (k : str) (v : option (list str))
    (fields : list (str * json)) :
  assoc k (set_if_tags v fields)
  = match v with
    | Some (t :: ts) =>
        if str_eqb (lit "tags") k then Some (JArr (map JStr (t :: ts)))
        else assoc k fields
    | _ => assoc k fields
    end.
Proof.
  destruct v as [[|t ts]|]; try reflexivity. apply assoc_set_item.
Qed.

Definition is_update (c : update_call) : bool :=
  match c with
  | VideosUpdate _ _ _ => true
  | VideosList _ _ => false
  end.

Section Update.
Variable youtube_api_available : bool.
Variable youtube_client : bool.
Variable videos_list : str -> str -> outcome video_list.
Variable videos_update : str -> str -> list (str * json) -> outcome unit.

#[local] Abbreviation update :=
  (update_video youtube_api_available youtube_client videos_list
     videos_update).

(** X10. [update_video] writes only what it is given.  The update request, when
    one is made, goes out under the id asked for; in its snippet the title,
    the description and the tags are the arguments that were given and not
    empty, and every other key, as well as each of the three whose argument
    is [None] or empty, is what the platform had. *)
Theorem update_video_changes_only_what_is_given (video_id : str)
    (title description : option str) (tags : option (list str))
    (part id : str) (sent : list (str * json)) :
  In (VideosUpdate part id sent)
     (fst (update video_id title description tags)) ->
  id = video_id
  /\ exists video first rest fetched,
       videos_list (lit "snippet") video_id = Return video
       /\ list_items video = Some (first :: rest)
       /\ item_snippet first = Some fetched
       /\ (forall k,
             k <> lit "title" -> k <> lit "description" -> k <> lit "tags" ->
             assoc k sent = assoc k fetched)
       /\ assoc (lit "title") sent
          = match title with
            | Some (c :: s) => Some (JStr (c :: s))
            | _ => assoc (lit "title") fetched
            end
       /\ assoc (lit "description") sent
          = match description with
            | Some (c :: s) => Some (JStr (c :: s))
            | _ => assoc (lit "description") fetched
            end
       /\ assoc (lit "tags") sent
          = match tags with
            | Some (t :: ts) => Some (JArr (map JStr (t :: ts)))
            | _ => assoc (lit "tags") fetched
            end.
Proof.
  unfold update_video.
  destruct (negb youtube_api_available || negb youtube_client);
    [intros []|].
  destruct (videos_list (lit "snippet") video_id) as [video|e] eqn:El;
    [|intros [H|[]]; discriminate].
  destruct (list_items video) as [[|first rest]|] eqn:Ei;
    try (intros [H|[]]; discriminate).
  destruct (item_snippet first) as [fetched|] eqn:Es;
    [|intros [H|[]]; discriminate].
  set (sn := set_if_tags tags
               (set_if_text (lit "description") description
                  (set_if_text (lit "title") title fetched))).
  intros H.
  assert (H' : In (VideosUpdate part id sent)
                 [VideosList (lit "snippet") video_id;
                  VideosUpdate (lit "snippet") video_id sn])
    by (destruct (videos_update (lit "snippet") video_id sn); exact H).
  destruct H' as [H'|[H'|[]]]; [discriminate|].
  injection H' as _ <- <-. split; [reflexivity|].
  exists video, first, rest, fetched.
  split; [reflexivity|]. split; [exact Ei|]. split; [exact Es|].
  assert (Ne : forall a b : str, a <> b -> str_eqb b a = false).
  { intros a b Hab. destruct (str_eqb b a) eqn:E; [|reflexivity].
    apply str_eqb_iff in E. congruence. }
  subst sn. split; [|split; [|split]].
  - intros k Kt Kd Kg.
    rewrite assoc_set_if_tags, !assoc_set_if_text.
    destruct tags as [[|? ?]|], description as [[|? ?]|],
      title as [[|? ?]|];
      rewrite ?(Ne _ _ Kt), ?(Ne _ _ Kd), ?(Ne _ _ Kg); reflexivity.
  - rewrite assoc_set_if_tags, !assoc_set_if_text.
    change (str_eqb (lit "tags") (lit "title")) with false.
    change (str_eqb (lit "description") (lit "title")) with false.
    change (str_eqb (lit "title") (lit "title")) with true.
    destruct tags as [[|? ?]|], description as [[|? ?]|],
      title as [[|? ?]|]; reflexivity.
  - rewrite assoc_set_if_tags, !assoc_set_if_text.
    change (str_eqb (lit "tags") (lit "description")) with false.
    change (str_eqb (lit "description") (lit "description")) with true.
    change (str_eqb (lit "title") (lit "description")) with false.
    destruct tags as [[|? ?]|], description as [[|? ?]|],
      title as [[|? ?]|]; reflexivity.
  - rewrite assoc_set_if_tags, !assoc_set_if_text.
    change (str_eqb (lit "tags") (lit "tags")) with true.
    change (str_eqb (lit "description") (lit "tags")) with false.
    change (str_eqb (lit "title") (lit "tags")) with false.
    destruct tags as [[|? ?]|], description as [[|? ?]|],
      title as [[|? ?]|]; reflexivity.
Qed.

(** X11. Nothing is written without a video to write to: offline, when the
    lookup raises, or when it finds no item, no update request is made; the
    result says "mock", or "error" with the exception text or with
    "Video not found".  At most one update request is ever made. *)
Theorem update_video_needs_a_video (video_id : str)
    (title description : option str) (tags : option (list str)) :
  let run := update video_id title description tags in
  (youtube_api_available = false \/ youtube_client = false ->
   fst run = [] /\ up_status (snd run) = lit "mock")
  /\ (youtube_api_available = true -> youtube_client = true ->
      (forall e, videos_list (lit "snippet") video_id = Raise e ->
         filter is_update (fst run) = []
         /\ snd run = update_error e)
      /\ (forall video, videos_list (lit "snippet") video_id = Return video ->
            list_items video = Some [] ->
            filter is_update (fst run) = []
            /\ up_status (snd run) = lit "error"
            /\ up_message (snd run) = Some (lit "Video not found")))
  /\ (length (filter is_update (fst run)) <= 1)%nat
  /\ (up_status (snd run) = lit "success" ->
      up_video_id (snd run) = Some video_id
      /\ length (filter is_update (fst run)) = 1%nat).
Proof.
  cbv zeta. unfold update_video. split; [|split; [|split]].
  - intros H.
    assert (E : negb youtube_api_available || negb youtube_client = true)
      by (destruct H as [-> | ->]; [reflexivity | apply orb_true_r]).
    rewrite E. split; reflexivity.
  - intros -> ->. cbn [negb orb]. split.
    + intros e ->. split; reflexivity.
    + intros video -> ->. repeat split.
  - destruct (negb youtube_api_available || negb youtube_client);
      [simpl; lia|].
    destruct (videos_list (lit "snippet") video_id) as [video|e];
      [|simpl; lia].
    destruct (list_items video) as [[|first rest]|]; try (simpl; lia).
    destruct (item_snippet first) as [fetched|]; [|simpl; lia].
    destruct (videos_update _ _ _); simpl; lia.
  - destruct (negb youtube_api_available || negb youtube_client);
      [intros H; vm_compute in H; discriminate|].
    destruct (videos_list (lit "snippet") video_id) as [video|e];
      [|intros H; vm_compute in H; discriminate].
    destruct (list_items video) as [[|first rest]|];
      try (intros H; vm_compute in H; discriminate).
    destruct (item_snippet first) as [fetched|];
      [|intros H; vm_compute in H; discriminate].
    destruct (videos_update _ _ _);
      [|intros H; vm_compute in H; discriminate].
    intros _. split; reflexivity.
Qed.

End Update.

Definition stored_snippet : list (str * json) :=
  [(lit "title", JStr (lit "old title"));
   (lit "categoryId", JStr (lit "25"))].

Definition finds_one (_ _ : str) : outcome video_list :=
  Return {| list_items :=
              Some [{| item_snippet := Some stored_snippet |}] |}.

Definition finds_none (_ _ : str) : outcome video_list :=
  Return {| list_items := Some [] |}.

Definition update_accepted (_ _ : str) (_ : list (str * json))
    : outcome unit := Return tt.

Lemma update_video_changes_only_what_is_given_witness :
  exists sent,
    In (VideosUpdate (lit "snippet") (lit "abc123") sent)
       (fst (update_video true true finds_one update_accepted (lit "abc123")
               (Some []) (Some (lit "new text")) None))
    /\ assoc (lit "title") sent = Some (JStr (lit "old title"))
    /\ assoc (lit "categoryId") sent = Some (JStr (lit "25"))
    /\ assoc (lit "description") sent = Some (JStr (lit "new text")).
Proof.
  eexists. split; [right; left; reflexivity|].
  destruct (update_video_changes_only_what_is_given true true finds_one
              update_accepted (lit "abc123") (Some [])
              (Some (lit "new text")) None (lit "snippet") (lit "abc123") _
              (or_intror (or_introl eq_refl)))
    as (_ & video & first & rest & fetched & Hl & Hi & Hs & Hk & Ht & Hd & _).
  injection Hl as <-. injection Hi as <- <-. injection Hs as <-.
  split; [exact Ht|]. split; [|exact Hd].
  rewrite Hk; [reflexivity | | |]; vm_compute; discriminate.
Defined.

Lemma update_video_needs_a_video_witness :
  up_message (snd (update_video true true finds_none update_accepted
                     (lit "abc123") (Some (lit "t")) None None))
  = Some (lit "Video not found").
Proof.
  destruct (update_video_needs_a_video true true finds_none update_accepted
              (lit "abc123") (Some (lit "t")) None None)
    as (_ & Hlive & _).
  destruct (Hlive eq_refl eq_refl) as [_ Hnone].
  apply (Hnone {| list_items := Some [] |}); reflexivity.
Defined.

End YouTubeUploaderFacts.

(* ================================================================== *)
(** * The orchestrator: one failure, one failed record *)
(* ================================================================== *)

Module MainWorkflowFacts.
Import Py PyFacts MainWorkflow.

#[local] Arguments now_isoformat {World} c.
#[local] Arguments now_strftime {World} c.
#[local] Arguments generate_youtube_script {World} c.
#[local] Arguments generate_thumbnail_titles {World} c.
#[local] Arguments generate_video_metadata {World} c.
#[local] Arguments generate_audio {World} c.
#[local] Arguments upload_video {World} c.
#[local] Arguments _step1_collect_news {World} c.
#[local] Arguments _save_workflow_results {World} c.

Section Orchestrator.
Variable World : Type.
Variable C : collaborators World.

Definition upload_title (a : article) (m : metadata) : str :=
  match AIScriptGenerator.md_title m with
  | Some t => t
  | None => NewsCollector.title a
  end.

Definition upload_description (m : metadata) : str :=
  match AIScriptGenerator.md_description m with
  | Some d => d
  | None => []
  end.

Definition upload_tags (m : metadata) : option (list str) :=
  Some (match AIScriptGenerator.md_tags m with
        | Some t => t
        | None => []
        end).

(** "A stage raises [e]": the stages before it returned, in the fixed order
    script, thumbnail titles, metadata, audio, editing and, with
    [auto_upload], upload; [w0] is the world when the first stage starts. *)
Inductive raises_at (a : article) (auto_upload : bool) (w0 : World)
    (e : exn) : Prop :=
| raises_at_script w :
    generate_youtube_script C a w0 = (w, Raise e) ->
    raises_at a auto_upload w0 e
| raises_at_titles w1 sd w :
    generate_youtube_script C a w0 = (w1, Return sd) ->
    generate_thumbnail_titles C a 10 w1 = (w, Raise e) ->
    raises_at a auto_upload w0 e
| raises_at_metadata w1 sd w2 titles w :
    generate_youtube_script C a w0 = (w1, Return sd) ->
    generate_thumbnail_titles C a 10 w1 = (w2, Return titles) ->
    generate_video_metadata C a (AIScriptGenerator.script sd) w2
    = (w, Raise e) ->
    raises_at a auto_upload w0 e
| raises_at_audio w1 sd w2 titles w3 md w4 stamp w :
    generate_youtube_script C a w0 = (w1, Return sd) ->
    generate_thumbnail_titles C a 10 w1 = (w2, Return titles) ->
    generate_video_metadata C a (AIScriptGenerator.script sd) w2
    = (w3, Return md) ->
    now_strftime C w3 = (w4, stamp) ->
    generate_audio C (AIScriptGenerator.script sd) (lit "professional")
      (lit "voice_" ++ stamp ++ lit ".mp3") w4 = (w, Raise e) ->
    raises_at a auto_upload w0 e
| raises_at_editing w1 sd w2 titles w3 md w4 stamp w5 audio w :
    generate_youtube_script C a w0 = (w1, Return sd) ->
    generate_thumbnail_titles C a 10 w1 = (w2, Return titles) ->
    generate_video_metadata C a (AIScriptGenerator.script sd) w2
    = (w3, Return md) ->
    now_strftime C w3 = (w4, stamp) ->
    generate_audio C (AIScriptGenerator.script sd) (lit "professional")
      (lit "voice_" ++ stamp ++ lit ".mp3") w4 = (w5, Return audio) ->
    _step5_edit_video World C (output_file audio)
      (AIScriptGenerator.script sd) w5 = (w, Raise e) ->
    raises_at a auto_upload w0 e
| raises_at_upload w1 sd w2 titles w3 md w4 stamp w5 audio w6 video w :
    generate_youtube_script C a w0 = (w1, Return sd) ->
    generate_thumbnail_titles C a 10 w1 = (w2, Return titles) ->
    generate_video_metadata C a (AIScriptGenerator.script sd) w2
    = (w3, Return md) ->
    now_strftime C w3 = (w4, stamp) ->
    generate_audio C (AIScriptGenerator.script sd) (lit "professional")
      (lit "voice_" ++ stamp ++ lit ".mp3") w4 = (w5, Return audio) ->
    _step5_edit_video World C (output_file audio)
      (AIScriptGenerator.script sd) w5 = (w6, Return video) ->
    auto_upload = true ->
    upload_video C video (upload_title a md) (upload_description md)
      (upload_tags md) (lit "25") (lit "public") w6 = (w, Raise e) ->
    raises_at a auto_upload w0 e.

Ltac run_body :=
  unfold try_body, bindT, call, write, retT, tick,
    upload_title, upload_description, upload_tags in *.

(** The [try] block ends in one of two ways. *)
Lemma try_body_raises (a : article) (auto_upload : bool) (r : run_result)
    (w0 : World) (e : exn) :
  raises_at a auto_upload w0 e ->
  exists w r', try_body World C a auto_upload r w0 = (w, r', Raise e)
               /\ article_title r' = article_title r.
Proof.
  intros H. run_body.
  destruct H; try subst auto_upload; run_body;
    repeat match goal with
           | E : ?x = _ |- context [?x] => rewrite E
           end;
    eexists _, _; (split; [reflexivity|]); reflexivity.
Qed.

Lemma try_body_returns_or_raises (a : article) (auto_upload : bool)
    (r : run_result) (w0 : World) :
  (exists w r', try_body World C a auto_upload r w0 = (w, r', Return tt)
                /\ status r' = completed
                /\ article_title r' = article_title r
                /\ error r' = error r)
  \/ exists e, raises_at a auto_upload w0 e.
Proof.
  destruct (generate_youtube_script C a w0) as [w1 [sd|e]] eqn:E1;
    [|right; exists e; eapply raises_at_script; eauto].
  destruct (generate_thumbnail_titles C a 10 w1) as [w2 [titles|e]] eqn:E2;
    [|right; exists e; eapply raises_at_titles; eauto].
  destruct (generate_video_metadata C a (AIScriptGenerator.script sd) w2)
    as [w3 [md|e]] eqn:E3;
    [|right; exists e; eapply raises_at_metadata; eauto].
  destruct (now_strftime C w3) as [w4 stamp] eqn:E4.
  destruct (generate_audio C (AIScriptGenerator.script sd)
              (lit "professional") (lit "voice_" ++ stamp ++ lit ".mp3") w4)
    as [w5 [audio|e]] eqn:E5;
    [|right; exists e; eapply raises_at_audio; eauto].
  destruct (_step5_edit_video World C (output_file audio)
              (AIScriptGenerator.script sd) w5) as [w6 [video|e]] eqn:E6;
    [|right; exists e; eapply raises_at_editing; eauto].
  destruct auto_upload eqn:Eu.
  - destruct (upload_video C video (upload_title a md)
                (upload_description md) (upload_tags md) (lit "25")
                (lit "public") w6) as [w7 [up|e]] eqn:E7;
      [|right; exists e; eapply raises_at_upload; eauto].
    left. run_body. rewrite E1, E2, E3, E4, E5, E6, E7.
    eexists _, _. split; [reflexivity|]. repeat split.
  - left. run_body. rewrite E1, E2, E3, E4, E5, E6.
    eexists _, _. split; [reflexivity|]. repeat split.
Qed.

(** The result of one article. *)
Lemma process_single_article_result (a : article) (auto_upload : bool)
    (w w0 : World) (now : str) :
  now_isoformat C w = (w0, now) ->
  let r := snd (_process_single_article World C a auto_upload w) in
  article_title r = NewsCollector.title a
  /\ (forall e, raises_at a auto_upload w0 e ->
        status r = failed /\ error r = Some (exn_text e))
  /\ (status r = completed /\ error r = None
      \/ exists e, raises_at a auto_upload w0 e).
Proof.
  intros Hnow. cbv zeta. unfold _process_single_article. rewrite Hnow.
  split; [|split].
  - destruct (try_body World C a auto_upload
                (new_result (NewsCollector.title a) now) w0)
      as [[w1 r1] o] eqn:E.
    destruct (try_body_returns_or_raises a auto_upload
                (new_result (NewsCollector.title a) now) w0)
      as [(w' & r' & E' & _ & Ht & _) | (e & He)].
    + rewrite E in E'. injection E' as -> -> ->. exact Ht.
    + destruct (try_body_raises a auto_upload
                  (new_result (NewsCollector.title a) now) w0 e He)
        as (w' & r' & E' & Ht).
      rewrite E in E'. injection E' as -> -> ->. exact Ht.
  - intros e He.
    destruct (try_body_raises a auto_upload
                (new_result (NewsCollector.title a) now) w0 e He)
      as (w' & r' & -> & _).
    split; reflexivity.
  - destruct (try_body_returns_or_raises a auto_upload
                (new_result (NewsCollector.title a) now) w0)
      as [(w' & r' & -> & Hs & _ & He) | H]; [left | now right].
    split; [exact Hs | exact He].
Qed.

(** The loop hands every selected article to [_process_single_article], in
    order, whatever became of the articles before it. *)
Definition processed (auto_upload : bool) (a : article) (r : run_result)
    : Prop :=
  article_title r = NewsCollector.title a
  /\ exists w, r = snd (_process_single_article World C a auto_upload w).

Lemma process_all_spec (auto_upload : bool) (selected : list article) :
  forall (results : list run_result) (w : World),
  exists rs,
    snd (process_all World C selected auto_upload results w) = results ++ rs
    /\ Forall2 (processed auto_upload) selected rs.
Proof.
  induction selected as [|a rest IH]; intros results w.
  - exists []. split; [simpl; now rewrite app_nil_r | constructor].
  - cbn [process_all].
    destruct (_process_single_article World C a auto_upload w)
      as [w1 r] eqn:E.
    destruct (IH (results ++ [r]) w1) as (rs & Hrs & Hall).
    exists (r :: rs). split; [now rewrite Hrs, <- app_assoc|].
    constructor; [|exact Hall]. split.
    + destruct (now_isoformat C w) as [w0 now] eqn:Hnow.
      pose proof (process_single_article_result a auto_upload w w0 now Hnow)
        as [Ht _].
      cbv zeta in Ht. now rewrite E in Ht.
    + exists w. now rewrite E.
Qed.

(** C4. For every selected article: if a stage from script generation to
    upload raises, the article's record has status "failed" and carries the
    text of the exception; a record is otherwise "completed".  The loop
    produces one record per selected article, in order, each the result of
    processing that article, and the list handed to
    [_save_workflow_results] is that list: a failure never stops the batch.
    The only exception before the batch is that of the selection, which
    reads the score of each selected article and is outside every [try]. *)
Theorem one_failure_never_aborts_the_batch (auto_upload : bool) :
  (forall (a : article) (w w0 : World) (now : str),
      now_isoformat C w = (w0, now) ->
      let r := snd (_process_single_article World C a auto_upload w) in
      article_title r = NewsCollector.title a
      /\ (forall e, raises_at a auto_upload w0 e ->
            status r = failed /\ error r = Some (exn_text e))
      /\ (status r = completed /\ error r = None
          \/ exists e, raises_at a auto_upload w0 e))
  /\ (forall (selected : list article) (w : World),
        let results := snd (process_all World C selected auto_upload [] w) in
        length results = length selected
        /\ Forall2 (processed auto_upload) selected results)
  /\ (forall (w w1 : World) (articles : list article),
        _step1_collect_news C w = (w1, Return articles) ->
        articles <> [] ->
        match _step2_select_articles World C articles with
        | Return selected =>
            let batch := process_all World C selected auto_upload [] w1 in
            run_full_workflow World C auto_upload w
            = bindM World (_save_workflow_results C (snd batch))
                (fun _ => ret World (Some (snd batch))) (fst batch)
        | Raise e => run_full_workflow World C auto_upload w = (w1, Raise e)
        end).
Proof.
  split; [|split].
  - intros a w w0 now Hnow.
    exact (process_single_article_result a auto_upload w w0 now Hnow).
  - intros selected w. cbv zeta.
    destruct (process_all_spec auto_upload selected [] w) as (rs & -> & H).
    cbn [app]. split; [|exact H].
    symmetry. eapply Forall2_length; eauto.
  - intros w w1 articles Hc Hne.
    destruct articles as [|a0 articles]; [contradiction|].
    destruct (_step2_select_articles World C (a0 :: articles))
      as [selected|e] eqn:Hsel.
    + cbv zeta. unfold run_full_workflow, bindM at 1. rewrite Hc.
      unfold bindM at 1, lift. rewrite Hsel.
      now destruct (process_all World C _ auto_upload [] w1).
    + unfold run_full_workflow, bindM at 1. rewrite Hc.
      unfold bindM at 1, lift. now rewrite Hsel.
Qed.

End Orchestrator.

(** ** Beyond failure: what a record holds, and what is never called *)

Section Records.
Variable World : Type.
Variable C : collaborators World.

Ltac run_article :=
  unfold _process_single_article, try_body, bindT, call, write, retT, tick,
    upload_title, upload_description, upload_tags in *.

(** The same collaborators with another uploader. *)
Definition with_uploader
    (up : str -> str -> str -> option (list str) -> str -> str
          -> M World upload_result) : collaborators World :=
  {| now_isoformat := now_isoformat C;
     now_strftime := now_strftime C;
     generate_youtube_script := generate_youtube_script C;
     generate_thumbnail_titles := generate_thumbnail_titles C;
     generate_video_metadata := generate_video_metadata C;
     generate_audio := generate_audio C;
     mkdir := MainWorkflow.mkdir World C;
     open_for_writing := MainWorkflow.open_for_writing World C;
     write_text := MainWorkflow.write_text World C;
     upload_video := up;
     _step1_collect_news := _step1_collect_news C;
     target_videos_per_day := MainWorkflow.target_videos_per_day World C;
     _save_workflow_results := _save_workflow_results C |}.

(** X12. With [auto_upload] off the uploader is never called: whatever uploader
    is wired in, the world and the record come out the same, and the record
    has neither a video URL nor a video id. *)
Theorem no_upload_without_auto_upload (a : article) (w : World)
    (up : str -> str -> str -> option (list str) -> str -> str
          -> M World upload_result) :
  _process_single_article World (with_uploader up) a false w
  = _process_single_article World C a false w
  /\ video_url (snd (_process_single_article World C a false w)) = None
  /\ video_id (snd (_process_single_article World C a false w)) = None.
Proof.
  split.
  - reflexivity.
  - unfold _process_single_article, try_body, bindT, call, write, retT, tick.
    destruct (now_isoformat C w) as [w0 now].
    destruct (generate_youtube_script C a w0) as [w1 [sd|e]];
      [|split; reflexivity].
    destruct (generate_thumbnail_titles C a 10 w1) as [w2 [titles|e]];
      [|split; reflexivity].
    destruct (generate_video_metadata C a _ w2) as [w3 [md|e]];
      [|split; reflexivity].
    destruct (now_strftime C w3) as [w4 stamp].
    destruct (generate_audio C _ _ _ w4) as [w5 [audio|e]];
      [|split; reflexivity].
    destruct (_step5_edit_video World C _ _ w5) as [w6 [video|e]];
      split; reflexivity.
Qed.

(** X13. The orchestrator never looks at the status of the upload result: when
    every stage returns, the record is "completed" with no error, and its
    URL and id are those of the upload result, absent ones included; an
    upload that answered with status "error" is recorded as completed. *)
Theorem upload_status_is_not_looked_at (a : article)
    (w w0 w1 w2 w3 w4 w5 w6 w7 : World) (now stamp video : str)
    (sd : script_data) (titles : list str) (md : metadata)
    (audio : tts_result) (u : upload_result) :
  now_isoformat C w = (w0, now) ->
  generate_youtube_script C a w0 = (w1, Return sd) ->
  generate_thumbnail_titles C a 10 w1 = (w2, Return titles) ->
  generate_video_metadata C a (AIScriptGenerator.script sd) w2
  = (w3, Return md) ->
  now_strftime C w3 = (w4, stamp) ->
  generate_audio C (AIScriptGenerator.script sd) (lit "professional")
    (lit "voice_" ++ stamp ++ lit ".mp3") w4 = (w5, Return audio) ->
  _step5_edit_video World C (output_file audio) (AIScriptGenerator.script sd)
    w5 = (w6, Return video) ->
  upload_video C video (upload_title a md) (upload_description md)
    (upload_tags md) (lit "25") (lit "public") w6 = (w7, Return u) ->
  let r := snd (_process_single_article World C a true w) in
  fst (_process_single_article World C a true w) = w7
  /\ status r = completed
  /\ error r = None
  /\ video_url r = Some (YouTubeUploader.video_url u)
  /\ video_id r = Some (YouTubeUploader.video_id u)
  /\ video_file r = Some video.
Proof.
  intros E0 E1 E2 E3 E4 E5 E6 E7. cbv zeta. run_article.
  rewrite E0, E1, E2, E3, E4, E5, E6, E7. repeat split.
Qed.

(** X14. A failed record keeps what the stages before the failure wrote.  When
    the upload raises, the script, the thumbnail title, the metadata, the
    audio file and the video file are all in the record; when it is the
    metadata stage that raises, the script and the thumbnail title are, and
    nothing of the later stages is. *)
Theorem failed_record_keeps_earlier_stages (a : article) (auto_upload : bool)
    (w w0 w1 w2 : World) (now : str) (sd : script_data)
    (titles : list str) :
  now_isoformat C w = (w0, now) ->
  generate_youtube_script C a w0 = (w1, Return sd) ->
  generate_thumbnail_titles C a 10 w1 = (w2, Return titles) ->
  let r := snd (_process_single_article World C a auto_upload w) in
  let best := match titles with
              | t :: _ => t
              | [] => NewsCollector.title a
              end in
  script r = Some (AIScriptGenerator.script sd)
  /\ thumbnail_title r = Some best
  /\ (forall w3 e,
        generate_video_metadata C a (AIScriptGenerator.script sd) w2
        = (w3, Raise e) ->
        status r = failed /\ result_metadata r = None
        /\ audio_file r = None /\ video_file r = None
        /\ video_url r = None)
  /\ (forall w3 md w4 stamp w5 audio w6 video w7 e,
        generate_video_metadata C a (AIScriptGenerator.script sd) w2
        = (w3, Return md) ->
        now_strftime C w3 = (w4, stamp) ->
        generate_audio C (AIScriptGenerator.script sd) (lit "professional")
          (lit "voice_" ++ stamp ++ lit ".mp3") w4 = (w5, Return audio) ->
        _step5_edit_video World C (output_file audio)
          (AIScriptGenerator.script sd) w5 = (w6, Return video) ->
        auto_upload = true ->
        upload_video C video (upload_title a md) (upload_description md)
          (upload_tags md) (lit "25") (lit "public") w6 = (w7, Raise e) ->
        status r = failed /\ error r = Some (exn_text e)
        /\ result_metadata r = Some md
        /\ audio_file r = Some (output_file audio)
        /\ video_file r = Some video /\ video_url r = None).
Proof.
  intros E0 E1 E2. cbv zeta.
  split; [|split; [|split]].
  - run_article. rewrite E0, E1, E2.
    destruct (generate_video_metadata C a _ w2) as [w3 [md|e]];
      [|reflexivity].
    destruct (now_strftime C w3) as [w4 stamp].
    destruct (generate_audio C _ _ _ w4) as [w5 [audio|e]]; [|reflexivity].
    destruct (_step5_edit_video World C _ _ w5) as [w6 [video|e]];
      [|reflexivity].
    destruct auto_upload; [|reflexivity].
    destruct (upload_video C _ _ _ _ _ _ w6) as [w7 [u|e]]; reflexivity.
  - run_article. rewrite E0, E1, E2.
    destruct (generate_video_metadata C a _ w2) as [w3 [md|e]];
      [|reflexivity].
    destruct (now_strftime C w3) as [w4 stamp].
    destruct (generate_audio C _ _ _ w4) as [w5 [audio|e]]; [|reflexivity].
    destruct (_step5_edit_video World C _ _ w5) as [w6 [video|e]];
      [|reflexivity].
    destruct auto_upload; [|reflexivity].
    destruct (upload_video C _ _ _ _ _ _ w6) as [w7 [u|e]]; reflexivity.
  - intros w3 e E3. run_article. rewrite E0, E1, E2, E3. repeat split.
  - intros w3 md w4 stamp w5 audio w6 video w7 e E3 E4 E5 E6 -> E7.
    run_article. rewrite E0, E1, E2, E3, E4, E5, E6, E7. repeat split.
Qed.

(** X15. No article, no run: when nothing was collected the workflow stops with
    the world as collection left it, having processed and saved nothing.  An
    exception raised by the collection, by the selection or by the saving of
    the results is not caught and ends the run; after one raised by the
    selection nothing has been processed or saved. *)
Theorem run_full_workflow_edges (auto_upload : bool) (w w1 : World) :
  (_step1_collect_news C w = (w1, Return []) ->
   run_full_workflow World C auto_upload w = (w1, Return None))
  /\ (forall e, _step1_collect_news C w = (w1, Raise e) ->
        run_full_workflow World C auto_upload w = (w1, Raise e))
  /\ (forall articles selected w2 w3 results e,
        _step1_collect_news C w = (w1, Return articles) ->
        articles <> [] ->
        _step2_select_articles World C articles = Return selected ->
        process_all World C selected auto_upload [] w1 = (w2, results) ->
        _save_workflow_results C results w2 = (w3, Raise e) ->
        run_full_workflow World C auto_upload w = (w3, Raise e))
  /\ (forall articles e,
        _step1_collect_news C w = (w1, Return articles) ->
        articles <> [] ->
        _step2_select_articles World C articles = Raise e ->
        run_full_workflow World C auto_upload w = (w1, Raise e)).
Proof.
  unfold run_full_workflow, bindM, lift. split; [|split; [|split]].
  - intros ->. reflexivity.
  - intros e ->. reflexivity.
  - intros articles selected w2 w3 results e -> Hne Hsel Hp Hs.
    destruct articles as [|a0 articles]; [contradiction|].
    rewrite Hsel, Hp. now rewrite Hs.
  - intros articles e -> Hne Hsel.
    destruct articles as [|a0 articles]; [contradiction|].
    now rewrite Hsel.
Qed.

(** The article carries a relevance score. *)
Definition scored (a : article) : Prop :=
  NewsCollector.relevance_score a <> None.

Lemma print_selection_scored (selected : list article) :
  Forall scored selected -> print_selection selected = Return tt.
Proof.
  induction 1 as [|a rest Ha _ IH]; [reflexivity|].
  cbn [print_selection]. unfold scored in Ha.
  destruct (NewsCollector.relevance_score a); [exact IH | contradiction].
Qed.

Lemma print_selection_unscored (selected : list article) :
  ~ Forall scored selected ->
  print_selection selected = Raise (Exception (lit "'relevance_score'")).
Proof.
  induction selected as [|a rest IH]; intros H.
  - elim H. constructor.
  - cbn [print_selection].
    destruct (NewsCollector.relevance_score a) as [q|] eqn:E; [|reflexivity].
    apply IH. intros Hrest. apply H. constructor; [|exact Hrest].
    unfold scored. rewrite E. discriminate.
Qed.

(** X16. A run makes one record for each of the first [target_videos_per_day]
    collected articles, three when the setting is absent, and fewer only
    when fewer were collected; the articles processed are a prefix of those
    collected.  This holds when each of those first articles carries a
    relevance score, as the articles of the filter do; the articles after
    them are not looked at.  When one of them carries none, the selection
    raises [KeyError] and the run ends with it, no record made. *)
Theorem records_per_run (auto_upload : bool) (articles : list article)
    (w : World) :
  let target :=
    match MainWorkflow.target_videos_per_day World C with
    | Some n => n
    | None => 3%Z
    end in
  (Forall scored (slice_to target articles) ->
   exists selected,
     _step2_select_articles World C articles = Return selected
     /\ let results := snd (process_all World C selected auto_upload [] w) in
        length results = length selected
        /\ (exists rest, articles = selected ++ rest)
        /\ (MainWorkflow.target_videos_per_day World C = None ->
            len results = Z.min 3 (len articles))
        /\ (forall n, MainWorkflow.target_videos_per_day World C = Some n ->
              (0 <= n)%Z -> len results = Z.min n (len articles)))
  /\ (~ Forall scored (slice_to target articles) ->
      _step2_select_articles World C articles
      = Raise (Exception (lit "'relevance_score'"))
      /\ forall w0,
           _step1_collect_news C w0 = (w, Return articles) ->
           run_full_workflow World C auto_upload w0
           = (w, Raise (Exception (lit "'relevance_score'")))).
Proof.
  cbv zeta. split.
  - intros Hscored. eexists. split.
    + unfold _step2_select_articles.
      now rewrite (print_selection_scored _ Hscored).
    + destruct (process_all_spec World C auto_upload
                  (slice_to
                     match MainWorkflow.target_videos_per_day World C with
                     | Some n => n
                     | None => 3%Z
                     end articles) [] w)
        as (rs & -> & Hall).
      cbn [app]. apply Forall2_length in Hall.
      assert (P : forall n l, exists rest : list article,
                   l = slice_to n l ++ rest).
      { intros n l. unfold slice_to.
        destruct (0 <=? n)%Z; eexists; symmetry; apply firstn_skipn. }
      split; [now symmetry|]. split; [apply P|]. split.
      * intros E. rewrite E in *. unfold len. rewrite <- Hall.
        rewrite slice_to_length by lia. lia.
      * intros n E Hn. rewrite E in *. unfold len. rewrite <- Hall.
        rewrite slice_to_length by lia. lia.
  - intros Hun.
    assert (Hsel : _step2_select_articles World C articles
                   = Raise (Exception (lit "'relevance_score'"))).
    { unfold _step2_select_articles.
      now rewrite (print_selection_unscored _ Hun). }
    split; [exact Hsel|].
    intros w0 Hc. unfold run_full_workflow, bindM at 1. rewrite Hc.
    destruct articles as [|a0 articles].
    + elim Hun. unfold slice_to. destruct (0 <=? _)%Z.
      * rewrite firstn_nil. constructor.
      * cbn [length Nat.sub firstn]. constructor.
    + unfold bindM, lift. now rewrite Hsel.
Qed.

End Records.

(** ** The statement on a concrete run

    A world that only counts the calls made, and collaborators of which the
    script generator fails on one headline. *)

Definition bad_news : article :=
  NewsCollector.set_relevance_score (NewsCollectorFacts.headline (lit "bad"))
    (3 # 2).
Definition good_news : article :=
  NewsCollector.set_relevance_score
    (NewsCollectorFacts.headline (lit "good")) (1 # 2).

Definition counted {A} (o : outcome A) : M nat A := fun w => (S w, o).

Definition flaky : collaborators nat :=
  {| now_isoformat := fun w => (S w, lit "2024-01-01T00:00:00");
     now_strftime := fun w => (S w, lit "20240101_000000");
     generate_youtube_script := fun a =>
       counted
         (if str_eqb (NewsCollector.title a) (lit "bad")
          then Raise (Exception (lit "boom"))
          else Return
                 {| AIScriptGenerator.article_title := NewsCollector.title a;
                    AIScriptGenerator.script := JStr (lit "script");
                    AIScriptGenerator.estimated_duration := lit "8-10";
                    AIScriptGenerator.generated_at := lit "now" |});
     generate_thumbnail_titles := fun _ _ => counted (Return []);
     generate_video_metadata := fun _ _ =>
       counted (Return AIScriptGenerator.empty_metadata);
     generate_audio := fun _ _ name =>
       counted (Return {| tts_status := lit "success (mock)";
                          output_file := name |});
     mkdir := fun _ => counted (Return tt);
     open_for_writing := fun _ => counted (Return tt);
     write_text := fun _ _ => counted (Return tt);
     upload_video := fun _ _ _ _ _ _ =>
       counted (Raise (Exception (lit "quota")));
     _step1_collect_news := counted (Return [bad_news; good_news]);
     target_videos_per_day := None;
     _save_workflow_results := fun _ => counted (Return tt) |}.

Lemma one_failure_never_aborts_the_batch_witness :
  (status (snd (_process_single_article nat flaky bad_news false 0%nat))
   = failed
   /\ error (snd (_process_single_article nat flaky bad_news false 0%nat))
      = Some (lit "boom"))
  /\ length (snd (process_all nat flaky [bad_news; good_news] false [] 0%nat))
     = 2%nat
  /\ run_full_workflow nat flaky false 0%nat
     = (14%nat,
        Return (Some (snd (process_all nat flaky [bad_news; good_news] false
                             [] 1%nat)))).
Proof.
  destruct (one_failure_never_aborts_the_batch nat flaky false)
    as (One & Batch & Run).
  split; [|split].
  - destruct (One bad_news 0%nat 1%nat (lit "2024-01-01T00:00:00") eq_refl)
      as (_ & Hfail & _).
    apply (Hfail (Exception (lit "boom"))).
    now apply raises_at_script with (w := 2%nat).
  - apply (Batch [bad_news; good_news] 0%nat).
  - assert (Hne : [bad_news; good_news] <> []) by discriminate.
    exact (Run 0%nat 1%nat [bad_news; good_news] eq_refl Hne).
Defined.

(** The same collaborators with an uploader that answers with an error
    result instead of raising. *)
Definition rejecting : collaborators nat :=
  with_uploader nat flaky
    (fun _ _ _ _ _ _ =>
       counted (Return (YouTubeUploader.error_result
                          (Exception (lit "quota"))))).

Lemma upload_status_is_not_looked_at_witness :
  status (snd (_process_single_article nat rejecting good_news true 0%nat))
  = completed
  /\ video_url (snd (_process_single_article nat rejecting good_news true
                       0%nat)) = Some None.
Proof.
  assert (H := upload_status_is_not_looked_at nat rejecting good_news
                 0%nat 1%nat 2%nat 3%nat 4%nat 5%nat 6%nat 10%nat 11%nat
                 _ _ _ _ _ _ _ _
                 eq_refl eq_refl eq_refl eq_refl eq_refl eq_refl eq_refl
                 eq_refl).
  cbv zeta in H. destruct H as (_ & Hs & _ & Hu & _).
  split; [exact Hs | exact Hu].
Defined.

Lemma failed_record_keeps_earlier_stages_witness :
  status (snd (_process_single_article nat flaky good_news true 0%nat))
  = failed
  /\ error (snd (_process_single_article nat flaky good_news true 0%nat))
     = Some (lit "quota")
  /\ video_file (snd (_process_single_article nat flaky good_news true 0%nat))
     = Some (lit "output/videos/video_20240101_000000.mp4").
Proof.
  assert (H := failed_record_keeps_earlier_stages nat flaky good_news true
                 0%nat 1%nat 2%nat 3%nat _ _ _ eq_refl eq_refl eq_refl).
  cbv zeta in H. destruct H as (_ & _ & _ & Hup).
  destruct (Hup 4%nat _ 5%nat _ 6%nat _ 10%nat _ 11%nat _
              eq_refl eq_refl eq_refl eq_refl eq_refl eq_refl)
    as (Hs & He & _ & _ & Hv & _).
  split; [exact Hs|]. split; [exact He | exact Hv].
Defined.

Definition nothing_collected : collaborators nat :=
  {| now_isoformat := now_isoformat flaky;
     now_strftime := now_strftime flaky;
     generate_youtube_script := generate_youtube_script flaky;
     generate_thumbnail_titles := generate_thumbnail_titles flaky;
     generate_video_metadata := generate_video_metadata flaky;
     generate_audio := generate_audio flaky;
     mkdir := MainWorkflow.mkdir nat flaky;
     open_for_writing := MainWorkflow.open_for_writing nat flaky;
     write_text := MainWorkflow.write_text nat flaky;
     upload_video := upload_video flaky;
     _step1_collect_news := counted (Return []);
     target_videos_per_day := Some 1%Z;
     _save_workflow_results := _save_workflow_results flaky |}.

Lemma run_full_workflow_edges_witness :
  run_full_workflow nat nothing_collected true 0%nat = (1%nat, Return None).
Proof.
  apply (run_full_workflow_edges nat nothing_collected true 0%nat 1%nat).
  reflexivity.
Defined.

Definition unscored_news : article :=
  NewsCollectorFacts.headline (lit "unscored").

Lemma records_per_run_witness :
  (exists selected,
     _step2_select_articles nat flaky
       [bad_news; good_news; bad_news; good_news; unscored_news]
     = Return selected
     /\ len (snd (process_all nat flaky selected false [] 0%nat)) = 3%Z)
  /\ _step2_select_articles nat flaky [bad_news; unscored_news; good_news]
     = Raise (Exception (lit "'relevance_score'")).
Proof.
  split.
  - destruct (records_per_run nat flaky false
                [bad_news; good_news; bad_news; good_news; unscored_news]
                0%nat) as [Scored _].
    destruct Scored as (selected & Hsel & _ & _ & Hdefault & _).
    + repeat constructor; discriminate.
    + exists selected. split; [exact Hsel|]. apply Hdefault. reflexivity.
  - destruct (records_per_run nat flaky false
                [bad_news; unscored_news; good_news] 0%nat) as [_ Unscored].
    apply Unscored. intros H.
    inversion H as [|? ? _ H1]; subst. inversion H1 as [|? ? H2 _]; subst.
    now apply H2.
Defined.

End MainWorkflowFacts.

(* ================================================================== *)
(** * Collection and filter together *)
(* ================================================================== *)

Module WorkflowCollectionFacts.
Import Py PyFacts NewsCollector NewsCollectorFacts WorkflowCollection.

Lemma collect_length (parse_feed : str -> outcome (list feed_entry))
    (keywords : list str) :
  (len (collect_all_news parse_feed keywords) <= 10 * len keywords)%Z.
Proof.
  induction keywords as [|k ks IH]; [unfold len; simpl; lia|].
  cbn [collect_all_news]. unfold len in *. rewrite length_app.
  destruct (fetch_facts parse_feed k) as (Hk & _).
  unfold len in Hk. cbn [length]. lia.
Qed.

Section Step1.
Context {U : Unicode}.
Variable parse_feed : str -> outcome (list feed_entry).
Variable save_to_json : list article -> str -> outcome unit.
Variable keywords : list str.

(** X27. With the default threshold the first step of the workflow loses no
    article: whatever the feeds gave comes back, every article once, ordered
    by descending score and with its score written, so the articles selected
    next are the highest-scoring of all that were collected.  There are at
    most ten per keyword.  The step fails only when the file cannot be
    saved, and then with the exception of the save. *)
Theorem step1_keeps_every_article :
  let raw := collect_all_news parse_feed keywords in
  let score := fun r => relevance keywords (title (nth r raw blank)) in
  exists h trending,
    filter_trending_news keywords (fresh_store raw) (seq 0 (length raw))
      (1 # 2) = Return (h, trending)
    /\ Permutation trending (seq 0 (length raw))
    /\ (len trending <= 10 * len keywords)%Z
    /\ StronglySorted (fun r1 r2 => score r2 <= score r1) trending
    /\ (forall r, (r < length raw)%nat ->
          relevance_score (h r) = Some (score r)
          /\ same_but_score (nth r raw blank) (h r))
    /\ (save_to_json (map h trending) (lit "output/collected_news.json")
        = Return tt ->
        _step1_collect_news parse_feed save_to_json keywords
        = Return (h, trending))
    /\ (forall e,
          save_to_json (map h trending) (lit "output/collected_news.json")
          = Raise e ->
          _step1_collect_news parse_feed save_to_json keywords = Raise e).
Proof.
  cbv zeta.
  set (raw := collect_all_news parse_feed keywords).
  destruct (score_loop_spec keywords (1 # 2) (seq 0 (length raw))
              (fresh_store raw) [])
    as (_ & Hframe & Hscore & _).
  assert (Hall : filter (keeps keywords (1 # 2) (fresh_store raw))
                   (seq 0 (length raw)) = seq 0 (length raw)).
  { apply filter_all. intros r _. unfold keeps. apply Qle_bool_iff.
    apply relevance_bounds. }
  assert (Hrun := filter_trending_news_eq keywords (fresh_store raw)
                    (seq 0 (length raw)) (1 # 2)).
  cbv zeta in Hrun. rewrite Hall in Hrun.
  eexists _, _. split; [exact Hrun|].
  assert (Hperm := sorted_by_score_perm
                     (fun r => relevance keywords
                                 (title (fresh_store raw r)))
                     (seq 0 (length raw))).
  split; [exact Hperm|]. split.
  - unfold len. rewrite (Permutation_length Hperm), length_seq.
    apply (collect_length parse_feed keywords).
  - split; [apply (sorted_by_score_desc
                     (fun r => relevance keywords
                                 (title (fresh_store raw r))))|].
    split.
    + intros r Hr. split; [|apply Hframe].
      apply Hscore. apply in_seq. lia.
    + unfold _step1_collect_news. fold raw. rewrite Hrun. cbn [bind].
      split; [intros ->; reflexivity | intros e ->; reflexivity].
Qed.

End Step1.

Lemma step1_keeps_every_article_witness :
  exists h trending,
    _step1_collect_news (U := ascii_unicode) sample_feeds
      (fun _ _ => Return tt) [lit "삼성"; lit "AI"]
    = Return (h, trending)
    /\ Permutation trending [0; 1]%nat.
Proof.
  destruct (step1_keeps_every_article (U := ascii_unicode) sample_feeds
              (fun _ _ => Return tt) [lit "삼성"; lit "AI"])
    as (h & trending & _ & Hperm & _ & _ & _ & Hsave & _).
  exists h, trending. split; [now apply Hsave | exact Hperm].
Defined.

End WorkflowCollectionFacts.
